(** * Host fact resolver: the two route handlers of [src/app/api/system/route.ts]

    The source file holds two route documents.  The first one (lines 1-294)
    reports memory, CPU and disk metrics and reads host files through three
    tiers; it is embedded in [Module Metrics].  The second one (lines 295-630)
    reports identity facts (operating system, architecture, CPU model and
    count, memory, uptime, hostname, gateway address, load averages) and reads
    host files through two tiers; it is embedded in [Module Identity].

    JavaScript values are modelled as the engine has them: a string is a
    sequence of UTF-16 code units, a number is an IEEE 754 binary64 value
    (the Standard Library's [spec_float] at precision 53), and a call that may
    throw lives in an error monad. *)

From Stdlib Require Import ZArith NArith List Bool Lia String Ascii.
From Stdlib Require Import Floats.SpecFloat DecimalPos Zpower.
From ExtLib Require Import Structures.Monad Structures.MonadExc Data.Monads.EitherMonad.
Import ListNotations.
Import MonadNotation.
Local Open Scope monad_scope.

(* ===================================================================== *)
(** ** JavaScript strings *)
(* ===================================================================== *)

Module JS.

(** A code unit of a JavaScript string. *)
Definition char := N.

Definition jsstring := list char.

(** An ASCII literal of the source as a sequence of code units. *)
Definition js (s : string) : jsstring := map N_of_ascii (list_ascii_of_string s).

Definition length (s : jsstring) : nat := List.length s.

Definition isEmpty (s : jsstring) : bool :=
  match s with [] => true | _ :: _ => false end.

Fixpoint eqb (a b : jsstring) : bool :=
  match a, b with
  | [], [] => true
  | x :: a', y :: b' => N.eqb x y && eqb a' b'
  | _, _ => false
  end.

(** ECMAScript WhiteSpace and LineTerminator code units: what
    [String.prototype.trim] strips and what [\s] matches. *)
Definition isWhiteSpace (c : char) : bool :=
  let n := c in
  (N.leb 9 n && N.leb n 13) || N.eqb n 32 || N.eqb n 160 || N.eqb n 5760
  || (N.leb 8192 n && N.leb n 8202) || N.eqb n 8232 || N.eqb n 8233
  || N.eqb n 8239 || N.eqb n 8287 || N.eqb n 12288 || N.eqb n 65279.

Fixpoint trimStart (s : jsstring) : jsstring :=
  match s with
  | c :: r => if isWhiteSpace c then trimStart r else s
  | [] => []
  end.

Definition trimEnd (s : jsstring) : jsstring := rev (trimStart (rev s)).

Definition trim (s : jsstring) : jsstring := trimEnd (trimStart s).

(** [s.startsWith(p)] *)
Fixpoint startsWith (s p : jsstring) : bool :=
  match p, s with
  | [], _ => true
  | x :: p', y :: s' => N.eqb x y && startsWith s' p'
  | _ :: _, [] => false
  end.

(** [s.includes(p)] *)
Fixpoint includes (s p : jsstring) : bool :=
  startsWith s p || match s with [] => false | _ :: r => includes r p end.

(** [s.split(sep)] for a separator of one code unit. *)
Fixpoint splitOn (sep : char) (cur : jsstring) (s : jsstring) : list jsstring :=
  match s with
  | [] => [cur]
  | c :: r => if N.eqb c sep then cur :: splitOn sep [] r
              else splitOn sep (cur ++ [c]) r
  end.

Definition LF : char := 10%N.

(** [s.split("\n")] *)
Definition lines (s : jsstring) : list jsstring := splitOn LF [] s.

(** [s.split(/\s+/)]: the pieces between maximal runs of white space. *)
Fixpoint splitWs (cur : jsstring) (inRun : bool) (s : jsstring) : list jsstring :=
  match s with
  | [] => [cur]
  | c :: r =>
      if isWhiteSpace c
      then (if inRun then splitWs [] true r else cur :: splitWs [] true r)
      else splitWs (cur ++ [c]) false r
  end.

Definition fields (s : jsstring) : list jsstring := splitWs [] false s.

(** [s.substring(a, b)] *)
Definition substring (s : jsstring) (a b : nat) : jsstring :=
  let a' := Nat.min a (length s) in
  let b' := Nat.min b (length s) in
  firstn (Nat.max a' b' - Nat.min a' b') (skipn (Nat.min a' b') s).

(** [l.join(sep)] on an array of strings. *)
Fixpoint join (sep : jsstring) (l : list jsstring) : jsstring :=
  match l with
  | [] => []
  | [x] => x
  | x :: r => x ++ sep ++ join sep r
  end.

(** [l.find(p)] *)
Definition find {A} (p : A -> bool) (l : list A) : option A := List.find p l.

(** [s.toLowerCase()].  The ASCII capitals map to their small letters.  Of the
    remaining code units only U+0130 and U+212A have an image that contains an
    ASCII unit; every other unit maps to units outside ASCII, which are kept
    as they are here: no search for an ASCII needle can tell the difference. *)
Definition lowerUnit (c : char) : jsstring :=
  if N.leb 65 c && N.leb c 90 then [(c + 32)%N]
  else if N.eqb c 304 then [105%N; 775%N]
  else if N.eqb c 8490 then [107%N]
  else [c].

Definition toLowerCase (s : jsstring) : jsstring := flat_map lowerUnit s.

Definition isDigit (c : char) : bool := N.leb 48 c && N.leb c 57.

Fixpoint takeWhile (p : char -> bool) (s : jsstring) : jsstring :=
  match s with
  | c :: r => if p c then c :: takeWhile p r else []
  | [] => []
  end.

Fixpoint dropWhile (p : char -> bool) (s : jsstring) : jsstring :=
  match s with
  | c :: r => if p c then dropWhile p r else s
  | [] => []
  end.

(** [s.match(/(\d+)/)]: group 1 of the leftmost match, the first maximal run
    of decimal digits; [None] when the string holds no digit. *)
Definition matchDigits (s : jsstring) : option jsstring :=
  match dropWhile (fun c => negb (isDigit c)) s with
  | [] => None
  | r => Some (takeWhile isDigit r)
  end.

End JS.

(* ===================================================================== *)
(** ** JavaScript numbers *)
(* ===================================================================== *)

Module Num.
Import JS.
Local Open Scope Z_scope.

(** A JavaScript number: binary64, rounded to nearest, ties to even. *)
Definition number := spec_float.

Definition prec : Z := 53.
Definition emax : Z := 1024.

Definition NaN : number := S754_nan.
Definition zero : number := S754_zero false.

(** The number nearest to an integer. *)
Definition ofZ (z : Z) : number := binary_normalize prec emax z 0 false.
Definition ofNat (n : nat) : number := ofZ (Z.of_nat n).

Definition add : number -> number -> number := SFadd prec emax.
Definition sub : number -> number -> number := SFsub prec emax.
Definition mul : number -> number -> number := SFmul prec emax.
Definition div : number -> number -> number := SFdiv prec emax.

(** [x < y], [x > y], [x === y] *)
Definition lt (x y : number) : bool := SFltb x y.
Definition gt (x y : number) : bool := SFltb y x.
Definition strictEq (x y : number) : bool := SFeqb x y.

(** [x <= y] *)
Definition le (x y : number) : bool := SFleb x y.

(** ToBoolean on a number: zeros and NaN are falsy. *)
Definition truthy (x : number) : bool :=
  match x with
  | S754_zero _ | S754_nan => false
  | _ => true
  end.

(** [x || y] on numbers. *)
Definition orElse (x y : number) : number := if truthy x then x else y.

Definition isNaN (x : number) : bool :=
  match x with S754_nan => true | _ => false end.

(** [Math.max(a, b)] and [Math.min(a, b)]: NaN is contagious, and the zeros
    are ordered -0 < +0. *)
Definition Math_max (a b : number) : number :=
  if isNaN a || isNaN b then NaN
  else match a, b with
       | S754_zero true, S754_zero false => b
       | _, _ => if lt a b then b else a
       end.

Definition Math_min (a b : number) : number :=
  if isNaN a || isNaN b then NaN
  else match a, b with
       | S754_zero false, S754_zero true => b
       | _, _ => if lt b a then b else a
       end.

(** [Math.floor(x)] *)
Definition Math_floor (x : number) : number :=
  match x with
  | S754_finite s m (Zneg k) =>
      let q := Z.shiftr (Zpos m) (Zpos k) in
      let exact := Z.eqb (Z.shiftl q (Zpos k)) (Zpos m) in
      if s then (if exact then ofZ (- q) else ofZ (- (q + 1)))
      else (if Z.eqb q 0 then S754_zero false else ofZ q)
  | _ => x
  end.

(** The value of a run of decimal digits. *)
Definition digitVal (c : char) : Z := Z.of_N c - 48.

Fixpoint decvalAcc (acc : Z) (ds : jsstring) : Z :=
  match ds with
  | [] => acc
  | d :: r => decvalAcc (10 * acc + digitVal d) r
  end.

Definition decval (ds : jsstring) : Z := decvalAcc 0 ds.

(** The number nearest to [m * 10 ^ e10] for [0 <= m], carrying the sign
    [neg]: the value a decimal literal denotes (correctly rounded, as V8
    computes it). *)
Definition ofDecimal (neg : bool) (m e10 : Z) : number :=
  if Z.eqb m 0 then S754_zero neg
  else if Z.leb 0 e10
  then binary_normalize prec emax (cond_Zopp neg (m * 10 ^ e10)) 0 false
  else let '(q, e, l) := SFdiv_core_binary prec emax m 0 (10 ^ (- e10)) 0 in
       binary_round_aux prec emax neg q e l.

Definition span (p : char -> bool) (s : jsstring) : jsstring * jsstring :=
  (takeWhile p s, dropWhile p s).

Definition isChar (a : ascii) (c : char) : bool := N.eqb c (N_of_ascii a).

(** A leading sign: [(negative, rest)]. *)
Definition readSign (s : jsstring) : bool * jsstring :=
  match s with
  | c :: r => if isChar "-" c then (true, r)
              else if isChar "+" c then (false, r)
              else (false, s)
  | [] => (false, [])
  end.

(** The ExponentPart of a decimal literal, when one starts here: [e] or [E],
    an optional sign and at least one digit. *)
Definition readExponent (s : jsstring) : Z :=
  match s with
  | c :: r =>
      if isChar "e" c || isChar "E" c then
        let '(neg, r1) := readSign r in
        match takeWhile isDigit r1 with
        | [] => 0
        | ds => cond_Zopp neg (decval ds)
        end
      else 0
  | [] => 0
  end.

(** [parseFloat(s)]: the longest prefix of the string, after its leading white
    space, that is a StrDecimalLiteral; NaN when there is none. *)
Definition parseFloat (input : jsstring) : number :=
  let '(neg, s1) := readSign (trimStart input) in
  if startsWith s1 (js "Infinity") then S754_infinity neg
  else
    let '(ip, s2) := span isDigit s1 in
    let '(fp, s3) :=
      match s2 with
      | c :: r => if isChar "." c then span isDigit r else ([], s2)
      | [] => ([], [])
      end in
    match ip ++ fp with
    | [] => NaN
    | ds => ofDecimal neg (decval ds) (readExponent s3 - Z.of_nat (length fp))
    end.

(** [parseFloat(parts[i])] where the index may lie past the end of the array:
    [undefined] converts to the string "undefined", which parses to NaN. *)
Definition parseFloatAt (parts : list jsstring) (i : nat) : number :=
  match nth_error parts i with
  | Some s => parseFloat s
  | None => NaN
  end.

(** The value of a digit in a radix up to 36; [None] for any other unit. *)
Definition radixDigit (radix : Z) (c : char) : option Z :=
  let v :=
    if N.leb 48 c && N.leb c 57 then Z.of_N c - 48
    else if N.leb 97 c && N.leb c 122 then Z.of_N c - 87
    else if N.leb 65 c && N.leb c 90 then Z.of_N c - 55
    else 36 in
  if Z.ltb v radix then Some v else None.

Fixpoint radixValAcc (radix : Z) (acc : option Z) (s : jsstring) : option Z :=
  match s with
  | [] => acc
  | c :: r =>
      match radixDigit radix c with
      | Some v =>
          radixValAcc radix
            (Some (radix * match acc with Some a => a | None => 0 end + v)) r
      | None => acc
      end
  end.

(** The integer [parseInt(s, radix)] reads, as sign and magnitude; [None]
    stands for NaN.  [radix = 0] is the call without a radix. *)
Definition parseIntMath (input : jsstring) (radix : Z) : option (bool * Z) :=
  let '(neg, s1) := readSign (trimStart input) in
  if negb (Z.eqb radix 0) && (Z.ltb radix 2 || Z.ltb 36 radix) then None
  else
    let strip := Z.eqb radix 0 || Z.eqb radix 16 in
    let r0 := if Z.eqb radix 0 then 10 else radix in
    let '(r1, s2) :=
      if strip && (startsWith s1 (js "0x") || startsWith s1 (js "0X"))
      then (16, skipn 2 s1) else (r0, s1) in
    match radixValAcc r1 None s2 with
    | Some v => Some (neg, v)
    | None => None
    end.

(** [parseInt(s, radix)]: the number nearest to the integer read, which is
    what V8 returns also for digit runs too long to be exact. *)
Definition parseInt (input : jsstring) (radix : Z) : number :=
  match parseIntMath input radix with
  | None => NaN
  | Some (neg, v) => if Z.eqb v 0 then S754_zero neg else ofZ (cond_Zopp neg v)
  end.

(** Decimal numeral of a natural number. *)
Fixpoint uintUnits (u : Decimal.uint) : jsstring :=
  match u with
  | Decimal.Nil => []
  | Decimal.D0 r => 48%N :: uintUnits r
  | Decimal.D1 r => 49%N :: uintUnits r
  | Decimal.D2 r => 50%N :: uintUnits r
  | Decimal.D3 r => 51%N :: uintUnits r
  | Decimal.D4 r => 52%N :: uintUnits r
  | Decimal.D5 r => 53%N :: uintUnits r
  | Decimal.D6 r => 54%N :: uintUnits r
  | Decimal.D7 r => 55%N :: uintUnits r
  | Decimal.D8 r => 56%N :: uintUnits r
  | Decimal.D9 r => 57%N :: uintUnits r
  end.

Definition decimal (z : Z) : jsstring :=
  match z with
  | Z0 => js "0"
  | Zpos p => uintUnits (Pos.to_uint p)
  | Zneg p => js "-" ++ uintUnits (Pos.to_uint p)
  end.

(** Number::toString on NaN, the infinities, the zeros and every integral
    value: its decimal numeral, which is what ECMAScript prints for an integral
    number below 10^21 in magnitude.  The conversions of this program only meet
    such values: an array length, [parseInt] of two characters, the floor of a
    64-bit byte count.  A fractional value is printed here by its integer
    part. *)
Definition toString (x : number) : jsstring :=
  match x with
  | S754_nan => js "NaN"
  | S754_infinity false => js "Infinity"
  | S754_infinity true => js "-Infinity"
  | S754_zero _ => js "0"
  | S754_finite s m e =>
      let mag := if Z.leb 0 e then Z.shiftl (Zpos m) e else Z.shiftr (Zpos m) (- e) in
      decimal (cond_Zopp s mag)
  end.

(** *** Number::toString on every number

    For a positive finite [x] ECMAScript prints the digits of the integers
    [n], [k], [s] with [10^(k-1) <= s < 10^k] such that [s * 10^(n-k)] reads
    back as [x] and [k] is as small as possible; among several such [s] the
    engines take the one nearest to [x]. *)

(** [m * 2^e < 10^n], for a mantissa [0 < m]. *)
Definition belowPow10 (m e n : Z) : bool :=
  Z.ltb (m * 2 ^ Z.max e 0 * 10 ^ Z.max (- n) 0)
        (2 ^ Z.max (- e) 0 * 10 ^ Z.max n 0).

(** The least [n], counting up from the start, with [m * 2^e < 10^n]. *)
Fixpoint decimalExponent (fuel : nat) (m e n : Z) : Z :=
  match fuel with
  | O => n
  | S f => if belowPow10 m e n then n else decimalExponent f m e (n + 1)
  end.

(** [s * 10^(n-k)] reads back as [x]. *)
Definition readsBack (x : number) (n k s : Z) : bool :=
  SFeqb (ofDecimal false s (n - k)) x.

(** The [k]-digit candidate for [x = m * 2^e] with [10^(n-1) <= x < 10^n]:
    of the two integers around [x * 10^(k-n)], the nearer one that reads back
    as [x] (the even one on a tie), as [(n, s)].  The upper neighbour [10^k]
    is the [k]-digit integer [10^(k-1)] one decimal place higher. *)
Definition digitsAt (x : number) (m e n k : Z) : option (Z * Z) :=
  let num := m * 2 ^ Z.max e 0 * 10 ^ Z.max (k - n) 0 in
  let den := 2 ^ Z.max (- e) 0 * 10 ^ Z.max (n - k) 0 in
  let lo := num / den in
  let below := (n, lo) in
  let above := if Z.eqb (lo + 1) (10 ^ k) then (n + 1, 10 ^ (k - 1)) else (n, lo + 1) in
  let okBelow := readsBack x (fst below) k (snd below) in
  let okAbove := readsBack x (fst above) k (snd above) in
  if okBelow && okAbove then
    match 2 * num ?= (2 * lo + 1) * den with
    | Lt => Some below
    | Gt => Some above
    | Eq => if Z.even lo then Some below else Some above
    end
  else if okBelow then Some below
  else if okAbove then Some above
  else None.

(** The shortest digits: the first [k], counting up, that has a candidate, as
    [(n, k, s)].  Seventeen digits always suffice for binary64, so the search
    never runs out of fuel. *)
Fixpoint shortestDigits (fuel : nat) (x : number) (m e n k : Z) : Z * Z * Z :=
  match fuel with
  | O => (n, k, m)
  | S f =>
      match digitsAt x m e n k with
      | Some (n', s) => (n', k, s)
      | None => shortestDigits f x m e n (k + 1)
      end
  end.

Definition zeros (n : Z) : jsstring := repeat 48%N (Z.to_nat n).

(** The notation ECMAScript chooses for the digits [s] (there are [k] of them)
    of a value in [10^(n-1), 10^n). *)
Definition notation (n k s : Z) : jsstring :=
  let ds := decimal s in
  if Z.leb k n && Z.leb n 21 then ds ++ zeros (n - k)
  else if Z.ltb 0 n && Z.leb n 21
  then firstn (Z.to_nat n) ds ++ js "." ++ skipn (Z.to_nat n) ds
  else if Z.ltb (-6) n && Z.leb n 0 then js "0." ++ zeros (- n) ++ ds
  else
    let sign := if Z.ltb (n - 1) 0 then js "-" else js "+" in
    if Z.eqb k 1 then ds ++ js "e" ++ sign ++ decimal (Z.abs (n - 1))
    else firstn 1 ds ++ js "." ++ skipn 1 ds
         ++ js "e" ++ sign ++ decimal (Z.abs (n - 1)).

(** [x.toString()], and what a template literal or [Array.prototype.join]
    makes of a number. *)
Definition Number_toString (x : number) : jsstring :=
  match x with
  | S754_nan => js "NaN"
  | S754_zero _ => js "0"
  | S754_infinity s => if s then js "-Infinity" else js "Infinity"
  | S754_finite sg m e =>
      let n0 := decimalExponent 640 (Zpos m) e (-324) in
      let '(n, k, s) := shortestDigits 20 (S754_finite false m e) (Zpos m) e n0 1 in
      (if sg then js "-" else []) ++ notation n k s
  end.

End Num.

(* ===================================================================== *)
(** ** The world a handler runs in: file system and process facts *)
(* ===================================================================== *)

Module Host.
Import JS Num.

(** A thrown value. *)
Inductive exn := Error (message : jsstring).

(** A computation that returns ([inr]) or throws ([inl]). *)
Definition result : Type -> Type := sum exn.

(** What the handlers read from an [fs.Stats] object. *)
Record Stats := { isFile : bool }.

(** What the handlers read from an [fs.StatFs] object. *)
Record StatFs := { blocks : number; bsize : number; bavail : number }.

(** One state of the file system, as the four [fs] calls of the source see
    it.  [existsSync] never throws; the other three may. *)
Record FS := {
  existsSync : jsstring -> bool;
  statSync : jsstring -> result Stats;
  readFileSync : jsstring -> result jsstring;
  statfsSync : jsstring -> result StatFs
}.

(** An entry of [os.networkInterfaces()]. *)
Record NetAddr := { family : jsstring; internal : bool; address : jsstring }.

(** The resolving process's own readings ([os.*]).  Byte counts are unsigned
    64-bit readings that the runtime hands over as numbers; [cpus] lists the
    model of each logical CPU; [networkInterfaces] lists the interfaces in key
    order. *)
Record OS := {
  totalmemBytes : N;
  freememBytes : N;
  cpus : list jsstring;
  loadavg : number * number * number;
  hostname : jsstring;
  networkInterfaces : list (jsstring * list NetAddr)
}.

(** The readings of the process that only the second route asks for:
    [os.uptime()], [os.type()], [os.release()] and [os.arch()]. *)
Record Platform := {
  uptime : number;
  type : jsstring;
  release : jsstring;
  arch : jsstring
}.

Definition totalmem (os : OS) : number := ofZ (Z.of_N (totalmemBytes os)).
Definition freemem (os : OS) : number := ofZ (Z.of_N (freememBytes os)).

(** [s && s.length > 0] on a string. *)
Definition nonEmpty (s : jsstring) : bool :=
  negb (isEmpty s) && Nat.ltb 0 (JS.length s).

(** [content && content.trim().length > 0] *)
Definition hasText (content : jsstring) : bool :=
  negb (isEmpty content) && Nat.ltb 0 (JS.length (trim content)).

(** [try { body } catch { }] around a block that either returns a value from
    the enclosing function ([Some]) or falls through ([None]). *)
Definition tryBlock {A} (body : result (option A)) : result (option A) :=
  catch body (fun _ => ret None).

Definition TAB : char := 9%N.

(** [Math.floor(bytes / 1024)] spliced into a template literal. *)
Definition kBText (bytes : number) : jsstring :=
  toString (Math_floor (div bytes (ofZ 1024))).

End Host.

(* ===================================================================== *)
(** ** First route document: memory, CPU and disk metrics *)
(* ===================================================================== *)

Module Metrics.
Import JS Num Host.

Definition HOST_ROOT : jsstring := js "/host".

Definition isHostMounted (fs : FS) : bool :=
  existsSync fs (HOST_ROOT ++ js "/proc") &&
  existsSync fs (HOST_ROOT ++ js "/sys") &&
  existsSync fs (HOST_ROOT ++ js "/etc").

(** The block the source repeats for each of its three candidates: when the
    path exists and is a regular file whose content has text, return the
    trimmed content. *)
Definition readCandidate (fs : FS) (p : jsstring) : result (option jsstring) :=
  if existsSync fs p then
    stats <- statSync fs p ;;
    if isFile stats then
      content <- readFileSync fs p ;;
      if hasText content then ret (Some (trim content)) else ret None
    else ret None
  else ret None.

Definition PROC1_ROOT : jsstring := js "/proc/1/root".

Definition readHostFile (fs : FS) (path : jsstring)
    (fallback : unit -> result jsstring) : result jsstring :=
  r1 <- (if existsSync fs PROC1_ROOT
         then tryBlock (readCandidate fs (PROC1_ROOT ++ path))
         else ret None) ;;
  match r1 with
  | Some text => ret text
  | None =>
      let hostPath := HOST_ROOT ++ path in
      r2 <- (if isHostMounted fs
             then tryBlock (readCandidate fs hostPath)
             else ret None) ;;
      match r2 with
      | Some text => ret text
      | None =>
          r3 <- tryBlock (readCandidate fs path) ;;
          match r3 with
          | Some text => ret text
          | None => fallback tt
          end
      end
  end.

(** *** CPU identity and count *)

Definition upperUnit (c : char) : char :=
  if N.leb 97 c && N.leb c 122 then (c - 32)%N else c.

(** A literal of a case-insensitive regular expression at the start of the
    string: the rest of the string when it matches. *)
Fixpoint stripPrefixCI (p s : jsstring) : option jsstring :=
  match p, s with
  | [], _ => Some s
  | x :: p', y :: s' =>
      if N.eqb (upperUnit x) (upperUnit y) then stripPrefixCI p' s' else None
  | _ :: _, [] => None
  end.

Definition isSeparator (c : char) : bool := isChar ":" c || isChar "=" c.

Definition startsWithSeparator (s : jsstring) : bool :=
  match s with c :: _ => isSeparator c | [] => false end.

(** [s.match(/^processor\s*[:=]/i)] *)
Definition matchProcessorSep (s : jsstring) : bool :=
  match stripPrefixCI (js "processor") s with
  | Some r => startsWithSeparator (dropWhile isWhiteSpace r)
  | None => false
  end.

(** [s.match(/^processor\s+\d+/i)] *)
Definition matchProcessorIndex (s : jsstring) : bool :=
  match stripPrefixCI (js "processor") s with
  | Some (c :: r) =>
      isWhiteSpace c &&
      match dropWhile isWhiteSpace r with d :: _ => isDigit d | [] => false end
  | _ => false
  end.

(** [line.match(/^model\s+name\s*[:=]/i)] *)
Definition matchModelName (s : jsstring) : bool :=
  match stripPrefixCI (js "model") s with
  | Some (c :: r) =>
      isWhiteSpace c &&
      match stripPrefixCI (js "name") (dropWhile isWhiteSpace r) with
      | Some r' => startsWithSeparator (dropWhile isWhiteSpace r')
      | None => false
      end
  | _ => false
  end.

(** The filter of [processorLines]. *)
Definition isProcessorLine (line : jsstring) : bool :=
  let trimmed := trim line in
  startsWith trimmed (js "processor") &&
  (matchProcessorSep trimmed || matchProcessorIndex trimmed).

(** Line terminators, which [.] does not match. *)
Definition isLineTerminator (c : char) : bool :=
  N.eqb c 10 || N.eqb c 13 || N.eqb c 8232 || N.eqb c 8233.

Definition notLineTerminator (c : char) : bool := negb (isLineTerminator c).

(** [\s*(.+)] at the start of [r]: the white-space run is taken whole unless
    the group would then be empty, in which case it gives back units until the
    group can start; the group runs up to the next line terminator. *)
Fixpoint groupAfterRun (r : jsstring) : option jsstring :=
  match r with
  | [] => None
  | c :: r' =>
      if isWhiteSpace c then
        match groupAfterRun r' with
        | Some g => Some g
        | None => if notLineTerminator c
                  then Some (takeWhile notLineTerminator r) else None
        end
      else Some (takeWhile notLineTerminator r)
  end.

(** [s.match(/[:=]\s*(.+)/)]: group 1 of the leftmost match. *)
Fixpoint matchModelValue (s : jsstring) : option jsstring :=
  match s with
  | [] => None
  | c :: r =>
      if isSeparator c then
        match groupAfterRun r with
        | Some g => Some g
        | None => matchModelValue r
        end
      else matchModelValue r
  end.

(** [s.split(/[:=]/)] *)
Fixpoint splitSep (cur : jsstring) (s : jsstring) : list jsstring :=
  match s with
  | [] => [cur]
  | c :: r => if isSeparator c then cur :: splitSep [] r
              else splitSep (cur ++ [c]) r
  end.

Definition orUnknown (model : jsstring) : jsstring :=
  if isEmpty model then js "Unknown" else model.

Definition modelOf (ls : list jsstring) : jsstring :=
  let modelLine :=
    find (fun line =>
            let lower := toLowerCase line in
            includes lower (js "model name") ||
            (includes lower (js "model") && includes lower (js "name")) ||
            matchModelName line) ls in
  let modelLine :=
    match modelLine with
    | Some _ => modelLine
    | None => find matchModelName ls
    end in
  let modelLine :=
    match modelLine with
    | Some _ => modelLine
    | None =>
        find (fun line =>
                includes line (js "Hardware") || includes line (js "Processor") ||
                includes line (js "CPU implementer")) ls
    end in
  match modelLine with
  | Some line =>
      if isEmpty line then js "Unknown"
      else
        match matchModelValue line with
        | Some g => trim g
        | None =>
            let parts := splitSep [] line in
            if Nat.ltb 1 (List.length parts)
            then trim (join (js ":") (skipn 1 parts))
            else trim line
        end
  | None => js "Unknown"
  end.

Record CpuInfo := { model : jsstring; count : number }.

(** The text the fallback producer of [getHostCPUInfo] builds. *)
Definition cpuInfoFallback (os : OS) : jsstring :=
  match cpus os with
  | m :: _ => js "model name" ++ [TAB] ++ js ": " ++ m ++ [LF]
              ++ js "processor" ++ [TAB] ++ js ": 0"
  | [] => []
  end.

(** The count when no processor line was found. *)
Definition countWithoutProcessorLines (os : OS) (ls : list jsstring) : number :=
  let count := ofNat 0 in
  let count :=
    match find (fun line => includes (toLowerCase line) (js "cpu(s)")) ls with
    | Some cpuCountLine =>
        match matchDigits cpuCountLine with
        | Some d => parseInt d 0
        | None => count
        end
    | None => count
    end in
  if strictEq count zero then ofNat (List.length (cpus os)) else count.

(** The body of [getHostCPUInfo] once the text is read. *)
Definition cpuInfoOf (os : OS) (cpuInfo : jsstring) : CpuInfo :=
  if nonEmpty cpuInfo then
    let ls := lines cpuInfo in
    let model := modelOf ls in
    let processorLines := filter isProcessorLine ls in
    let count := ofNat (List.length processorLines) in
    let count :=
      if strictEq count zero then countWithoutProcessorLines os ls else count in
    {| model := orUnknown model; count := orElse count (ofZ 1) |}
  else
    {| model := match cpus os with
                | m :: _ => orUnknown m
                | [] => js "Unknown"
                end;
       count := ofNat (List.length (cpus os)) |}.

Definition getHostCPUInfo (fs : FS) (os : OS) : result CpuInfo :=
  cpuInfo <- readHostFile fs (js "/proc/cpuinfo")
               (fun _ => ret (cpuInfoFallback os)) ;;
  ret (cpuInfoOf os cpuInfo).

(** *** Memory *)

Record Memory := { total : number; free : number; available : number }.

(** The text the fallback producer of [getHostMemory] builds. *)
Definition memInfoFallback (os : OS) : jsstring :=
  js "MemTotal: " ++ kBText (totalmem os) ++ js " kB" ++ [LF]
  ++ js "MemAvailable: " ++ kBText (freemem os) ++ js " kB" ++ [LF]
  ++ js "MemFree: " ++ kBText (freemem os) ++ js " kB".

(** One labelled line: when the line was found and holds digits, the value
    becomes [parseInt(digits) * 1024]; otherwise it keeps what it had. *)
Definition kBValue (line : option jsstring) (current : number) : number :=
  match line with
  | Some l =>
      match matchDigits l with
      | Some d => mul (parseInt d 0) (ofZ 1024)
      | None => current
      end
  | None => current
  end.

(** The body of [getHostMemory] once the text is read. *)
Definition memoryOf (os : OS) (memInfo : jsstring) : Memory :=
  let total := totalmem os in
  let free := freemem os in
  let available := freemem os in
  if nonEmpty memInfo then
    let ls := lines memInfo in
    let totalLine := find (fun line => startsWith line (js "MemTotal")) ls in
    let availableLine := find (fun line => startsWith line (js "MemAvailable")) ls in
    let freeLine := find (fun line => startsWith line (js "MemFree")) ls in
    {| total := kBValue totalLine total;
       free := kBValue freeLine free;
       available := kBValue availableLine available |}
  else {| total := total; free := free; available := available |}.

Definition getHostMemory (fs : FS) (os : OS) : result Memory :=
  memInfo <- readHostFile fs (js "/proc/meminfo")
               (fun _ => ret (memInfoFallback os)) ;;
  ret (memoryOf os memInfo).

(** *** CPU utilisation *)

(** The body of the [try] of [getHostCPUUsage] once the stat text is read:
    [Some] is the value it returns, [None] is falling through to the load
    average. *)
Definition usageOfStat (stat : jsstring) : option number :=
  if nonEmpty stat then
    match find (fun line => startsWith line (js "cpu ")) (lines stat) with
    | Some cpuLine =>
        let parts := fields (trim cpuLine) in
        if Nat.leb 5 (List.length parts) then
          let user := orElse (parseFloatAt parts 1) zero in
          let nice := orElse (parseFloatAt parts 2) zero in
          let system := orElse (parseFloatAt parts 3) zero in
          let idle := orElse (parseFloatAt parts 4) zero in
          let iowait := orElse (parseFloatAt parts 5) zero in
          let irq := orElse (parseFloatAt parts 6) zero in
          let softirq := orElse (parseFloatAt parts 7) zero in
          let steal := orElse (parseFloatAt parts 8) zero in
          let totalIdle := add idle iowait in
          let totalNonIdle :=
            add (add (add (add (add user nice) system) irq) softirq) steal in
          let total := add totalIdle totalNonIdle in
          if gt total zero then
            let usage := mul (div totalNonIdle total) (ofZ 100) in
            Some (Math_min (Math_max usage zero) (ofZ 100))
          else None
        else None
    | None => None
    end
  else None.

Definition getHostCPUUsage (fs : FS) (os : OS) : result number :=
  r <- tryBlock (stat <- readHostFile fs (js "/proc/stat") (fun _ => ret []) ;;
                 ret (usageOfStat stat)) ;;
  match r with
  | Some usage => ret usage
  | None =>
      let '(load1, _, _) := loadavg os in
      info <- getHostCPUInfo fs os ;;
      let cpuCount := count info in
      let loadPercent := mul (div load1 cpuCount) (ofZ 100) in
      ret (Math_min loadPercent (ofZ 100))
  end.

(** *** Disk *)

Definition rootPath (fs : FS) : jsstring :=
  if existsSync fs PROC1_ROOT then js "/proc/1/root/" else js "/".

Definition getHostDiskUsage (fs : FS) : result number :=
  r <- tryBlock
         (let rootPath := rootPath fs in
          tryBlock
            (stats <- statfsSync fs rootPath ;;
             let total := mul (blocks stats) (bsize stats) in
             let free := mul (bavail stats) (bsize stats) in
             let used := sub total free in
             let usage := mul (div used total) (ofZ 100) in
             ret (Some (Math_min (Math_max usage zero) (ofZ 100))))) ;;
  match r with
  | Some usage => ret usage
  | None => ret zero
  end.

(** *** The snapshot *)

Record MemorySection :=
  { mem_total : number; mem_free : number; mem_available : number; mem_used : number }.
Record CpuSection := { cpu_count : number; cpu_usage : number }.
Record DiskSection :=
  { disk_total : number; disk_used : number; disk_free : number; disk_usage : number }.

Record Snapshot := {
  memory : MemorySection;
  cpu : CpuSection;
  disk : DiskSection;
  hostMounted : bool
}.

(** What the handler answers: the snapshot, or the status-500 error document. *)
Inductive Response := Ok200 (body : Snapshot) | Error500.

(** The three disk byte counts of the handler: [(total, used, free)]. *)
Definition diskBytes (fs : FS) : result (number * number * number) :=
  catch
    (let rootPath := rootPath fs in
     stats <- statfsSync fs rootPath ;;
     let diskTotal := mul (blocks stats) (bsize stats) in
     let diskFree := mul (bavail stats) (bsize stats) in
     let diskUsed := sub diskTotal diskFree in
     ret (diskTotal, diskUsed, diskFree))
    (fun _ => ret (zero, zero, zero)).

Definition snapshot (fs : FS) (os : OS) : result Snapshot :=
  let hostMounted := isHostMounted fs in
  memory <- getHostMemory fs os ;;
  cpuInfo <- getHostCPUInfo fs os ;;
  cpuUsage <- getHostCPUUsage fs os ;;
  diskUsage <- getHostDiskUsage fs ;;
  '(diskTotal, diskUsed, diskFree) <- diskBytes fs ;;
  ret {| memory := {| mem_total := total memory;
                      mem_free := free memory;
                      mem_available := available memory;
                      mem_used := sub (total memory) (available memory) |};
         cpu := {| cpu_count := count cpuInfo; cpu_usage := cpuUsage |};
         disk := {| disk_total := diskTotal; disk_used := diskUsed;
                    disk_free := diskFree; disk_usage := diskUsage |};
         hostMounted := hostMounted |}.

Definition GET (fs : FS) (os : OS) : Response :=
  match snapshot fs os with
  | inr body => Ok200 body
  | inl _ => Error500
  end.

End Metrics.

(* ===================================================================== *)
(** ** Second route document: identity facts *)
(* ===================================================================== *)

Module Identity.
Import JS Num Host.

Definition HOST_ROOT : jsstring := js "/host".

Definition isHostMounted (fs : FS) : bool :=
  existsSync fs (HOST_ROOT ++ js "/proc") &&
  existsSync fs (HOST_ROOT ++ js "/sys") &&
  existsSync fs (HOST_ROOT ++ js "/etc").

(** The block the source repeats for its two candidates. *)
Definition readCandidate (fs : FS) (p : jsstring) : result (option jsstring) :=
  if existsSync fs p then
    content <- readFileSync fs p ;;
    if hasText content then ret (Some (trim content)) else ret None
  else ret None.

Definition readHostFile (fs : FS) (path : jsstring)
    (fallback : unit -> result jsstring) : result jsstring :=
  let hostPath := HOST_ROOT ++ path in
  r1 <- (if isHostMounted fs
         then tryBlock (readCandidate fs hostPath)
         else ret None) ;;
  match r1 with
  | Some text => ret text
  | None =>
      r2 <- tryBlock (readCandidate fs path) ;;
      match r2 with
      | Some text => ret text
      | None => fallback tt
      end
  end.

(** *** Memory *)

Record Memory := { total : number; free : number }.

Definition memInfoFallback (os : OS) : jsstring :=
  js "MemTotal: " ++ kBText (totalmem os) ++ js " kB" ++ [LF]
  ++ js "MemAvailable: " ++ kBText (freemem os) ++ js " kB".

Definition kBValue (line : option jsstring) (current : number) : number :=
  match line with
  | Some l =>
      match matchDigits l with
      | Some d => mul (parseInt d 0) (ofZ 1024)
      | None => current
      end
  | None => current
  end.

(** [a || b] on the results of two [find] calls: a found line that is the
    empty string is falsy. *)
Definition orLine (a b : option jsstring) : option jsstring :=
  match a with
  | Some l => if isEmpty l then b else a
  | None => b
  end.

(** The body of [getHostMemory] once the text is read. *)
Definition memoryOf (os : OS) (memInfo : jsstring) : Memory :=
  let total := totalmem os in
  let free := freemem os in
  if nonEmpty memInfo then
    let ls := lines memInfo in
    let totalLine := find (fun line => startsWith line (js "MemTotal")) ls in
    let freeLine :=
      orLine (find (fun line => startsWith line (js "MemAvailable")) ls)
             (find (fun line => startsWith line (js "MemFree")) ls) in
    {| total := kBValue totalLine total; free := kBValue freeLine free |}
  else {| total := total; free := free |}.

Definition getHostMemory (fs : FS) (os : OS) : result Memory :=
  memInfo <- readHostFile fs (js "/proc/meminfo")
               (fun _ => ret (memInfoFallback os)) ;;
  ret (memoryOf os memInfo).

(** *** Hostname *)

Definition isHexDigit (c : char) : bool :=
  isDigit c || (N.leb 97 c && N.leb c 102) || (N.leb 65 c && N.leb c 70).

(** [s.match(/^[0-9a-f]{12}$/i)] *)
Definition matchContainerId (s : jsstring) : bool :=
  Nat.eqb (JS.length s) 12 && forallb isHexDigit s.

Definition getHostHostname (fs : FS) (os : OS) : result jsstring :=
  name <- readHostFile fs (js "/etc/hostname") (fun _ => ret (hostname os)) ;;
  if nonEmpty name then
    if matchContainerId name then ret (hostname os) else ret name
  else ret (hostname os).

(** *** Default gateway *)

(** [parts[i]] where [undefined] never reaches a use: the guards on
    [parts.length] come first. *)
Definition part (parts : list jsstring) (i : nat) : jsstring := nth i parts [].

(** The four numbers read from the gateway field, joined by dots. *)
Definition dottedOfHex (gatewayHex : jsstring) : jsstring :=
  join (js ".")
    [ toString (parseInt (substring gatewayHex 6 8) 16);
      toString (parseInt (substring gatewayHex 4 6) 16);
      toString (parseInt (substring gatewayHex 2 4) 16);
      toString (parseInt (substring gatewayHex 0 2) 16) ].

(** One turn of the loop over the routing lines: [Some ip] is [return ip]. *)
Definition routeOfLine (line : jsstring) : option jsstring :=
  let parts := fields (trim line) in
  if Nat.leb 3 (List.length parts) && eqb (part parts 1) (js "00000000") then
    let gatewayHex := part parts 2 in
    if negb (isEmpty gatewayHex) && Nat.eqb (JS.length gatewayHex) 8 then
      let ip := dottedOfHex gatewayHex in
      if negb (eqb ip (js "0.0.0.0")) then Some ip else None
    else None
  else None.

Fixpoint scanRoutes (ls : list jsstring) : option jsstring :=
  match ls with
  | [] => None
  | line :: rest =>
      match routeOfLine line with
      | Some ip => Some ip
      | None => scanRoutes rest
      end
  end.

Fixpoint scanAddresses (iface : list NetAddr) : option jsstring :=
  match iface with
  | [] => None
  | addr :: rest =>
      if eqb (family addr) (js "IPv4") && negb (internal addr)
      then Some (address addr)
      else scanAddresses rest
  end.

Fixpoint scanInterfaces (ifaces : list (jsstring * list NetAddr)) : option jsstring :=
  match ifaces with
  | [] => None
  | (_, iface) :: rest =>
      match scanAddresses iface with
      | Some a => Some a
      | None => scanInterfaces rest
      end
  end.

Definition NOT_AVAILABLE : jsstring := js "Non disponible".

Definition getHostIP (fs : FS) (os : OS) : result jsstring :=
  r <- tryBlock (route <- readHostFile fs (js "/proc/net/route") (fun _ => ret []) ;;
                 if nonEmpty route then ret (scanRoutes (lines route))
                 else ret None) ;;
  match r with
  | Some ip => ret ip
  | None =>
      match scanInterfaces (networkInterfaces os) with
      | Some a => ret a
      | None => ret NOT_AVAILABLE
      end
  end.

(** *** CPU identity and count *)

(** [line.match(/^model\s+name\s*:/i)] *)
Definition matchModelNameColon (s : jsstring) : bool :=
  match Metrics.stripPrefixCI (js "model") s with
  | Some (c :: r) =>
      isWhiteSpace c &&
      match Metrics.stripPrefixCI (js "name") (dropWhile isWhiteSpace r) with
      | Some r' =>
          match dropWhile isWhiteSpace r' with
          | c' :: _ => isChar ":" c'
          | [] => false
          end
      | None => false
      end
  | _ => false
  end.

(** The predicate of the first [find] of [getHostCPUInfo]. *)
Definition isModelLine (line : jsstring) : bool :=
  includes (toLowerCase line) (js "model name") ||
  includes line (js "Model") ||
  matchModelNameColon line.

(** The predicate of its second [find], for ARM documents. *)
Definition isArmModelLine (line : jsstring) : bool :=
  includes line (js "Hardware") || includes line (js "Processor") ||
  includes line (js "CPU implementer").

(** The filter of [processorLines]. *)
Definition isProcessorLine (line : jsstring) : bool :=
  startsWith (trim line) (js "processor") || Metrics.matchProcessorSep line.

Definition modelOf (ls : list jsstring) : jsstring :=
  let modelLine := find isModelLine ls in
  let modelLine := orLine modelLine (find isArmModelLine ls) in
  match modelLine with
  | Some line =>
      if isEmpty line then js "Unknown"
      else
        let parts := Metrics.splitSep [] line in
        if Nat.ltb 1 (List.length parts)
        then trim (join (js ":") (skipn 1 parts))
        else trim line
  | None => js "Unknown"
  end.

Record CpuInfo := { model : jsstring; count : number }.

(** The text the fallback producer of [getHostCPUInfo] builds. *)
Definition cpuInfoFallback (os : OS) : jsstring :=
  match cpus os with
  | m :: _ => js "model name" ++ [TAB] ++ js ": " ++ m ++ [LF]
              ++ js "processor" ++ [TAB] ++ js ": 0"
  | [] => []
  end.

(** The body of [getHostCPUInfo] once the text is read. *)
Definition cpuInfoOf (os : OS) (cpuInfo : jsstring) : CpuInfo :=
  if nonEmpty cpuInfo then
    let ls := lines cpuInfo in
    let model := modelOf ls in
    let processorLines := filter isProcessorLine ls in
    let count :=
      if Nat.ltb 0 (List.length processorLines)
      then ofNat (List.length processorLines)
      else ofNat (List.length (cpus os)) in
    {| model := Metrics.orUnknown model; count := count |}
  else
    {| model := match cpus os with
                | m :: _ => Metrics.orUnknown m
                | [] => js "Unknown"
                end;
       count := ofNat (List.length (cpus os)) |}.

Definition getHostCPUInfo (fs : FS) (os : OS) : result CpuInfo :=
  cpuInfo <- readHostFile fs (js "/proc/cpuinfo")
               (fun _ => ret (cpuInfoFallback os)) ;;
  ret (cpuInfoOf os cpuInfo).

(** *** Uptime *)

(** Group 1 of [s.match(re)] for the pattern of [getHostUptime]: at the start
    of the string, one or more digits, a point when one follows, and the
    digits after it. *)
Definition matchLeadingNumber (s : jsstring) : option jsstring :=
  match takeWhile isDigit s with
  | [] => None
  | ip =>
      match dropWhile isDigit s with
      | c :: r => if isChar "." c then Some (ip ++ [c] ++ takeWhile isDigit r)
                  else Some ip
      | [] => Some ip
      end
  end.

(** The body of [getHostUptime] once the text is read. *)
Definition uptimeOf (pf : Platform) (text : jsstring) : number :=
  if nonEmpty text then
    match matchLeadingNumber text with
    | Some g => parseFloat g
    | None => uptime pf
    end
  else uptime pf.

Definition getHostUptime (fs : FS) (pf : Platform) : result number :=
  text <- readHostFile fs (js "/proc/uptime")
            (fun _ => ret (Number_toString (uptime pf))) ;;
  ret (uptimeOf pf text).

(** *** Operating system *)

Definition notWhiteSpace (c : char) : bool := negb (isWhiteSpace c).

(** [s.match(/Linux version ([^\s]+)/)]: group 1 of the leftmost match. *)
Fixpoint matchLinuxVersion (s : jsstring) : option jsstring :=
  match s with
  | [] => None
  | _ :: r =>
      let here :=
        if startsWith s (js "Linux version ")
        then takeWhile notWhiteSpace (skipn 14 s) else [] in
      match here with
      | [] => matchLinuxVersion r
      | g => Some g
      end
  end.

Definition QUOTE : char := 34%N.

Definition notQuote (c : char) : bool := negb (N.eqb c QUOTE).

(** The pretty-name pattern where the string starts: the literal
    [PRETTY_NAME=], a double quote when one follows, and as group 1 the
    longest run of units other than a double quote, which must not be empty
    (when it is empty behind a quote, giving the quote back does not help:
    the group cannot start on it). *)
Definition prettyNameHere (s : jsstring) : option jsstring :=
  if startsWith s (js "PRETTY_NAME=") then
    let rest := skipn 12 s in
    let afterQuote :=
      match rest with
      | c :: r => if N.eqb c QUOTE then r else rest
      | [] => []
      end in
    match takeWhile notQuote afterQuote with
    | [] => None
    | g => Some g
    end
  else None.

(** Group 1 of the leftmost match of the pretty-name pattern. *)
Fixpoint matchPrettyName (s : jsstring) : option jsstring :=
  match s with
  | [] => None
  | _ :: r =>
      match prettyNameHere s with
      | Some g => Some g
      | None => matchPrettyName r
      end
  end.

(** Digits, a point and digits where the string starts. *)
Definition versionHere (s : jsstring) : option jsstring :=
  match takeWhile isDigit s with
  | [] => None
  | ip =>
      match dropWhile isDigit s with
      | c :: r =>
          if isChar "." c then
            match takeWhile isDigit r with
            | [] => None
            | fp => Some (ip ++ [c] ++ fp)
            end
          else None
      | [] => None
      end
  end.

(** [s.match(/(\d+\.\d+)/)]: group 1 of the leftmost match. *)
Fixpoint matchVersion (s : jsstring) : option jsstring :=
  match s with
  | [] => None
  | _ :: r =>
      match versionHere s with
      | Some g => Some g
      | None => matchVersion r
      end
  end.

Record OsInfo := { os_type : jsstring; os_release : jsstring }.

(** The body of [getHostOS] once the two texts are read. *)
Definition osOf (pf : Platform) (osRelease procVersion : jsstring) : OsInfo :=
  let type0 := type pf in
  let release0 := release pf in
  let '(type1, release1) :=
    if nonEmpty procVersion && negb (includes procVersion (js "linuxkit")) then
      match matchLinuxVersion procVersion with
      | Some v => (js "Linux", v)
      | None => (type0, release0)
      end
    else (type0, release0) in
  let '(type2, release2) :=
    if negb (isEmpty osRelease) && includes osRelease (js "PRETTY_NAME") then
      match matchPrettyName osRelease with
      | Some prettyName =>
          (js "Linux",
           if isEmpty procVersion || includes procVersion (js "linuxkit") then
             if includes prettyName (js "Ubuntu") then
               match matchVersion prettyName with
               | Some v => js "Ubuntu " ++ v
               | None => prettyName
               end
             else if includes prettyName (js "Debian") then prettyName
             else prettyName
           else release1)
      | None => (type1, release1)
      end
    else (type1, release1) in
  {| os_type := type2; os_release := release2 |}.

Definition getHostOS (fs : FS) (pf : Platform) : result OsInfo :=
  osRelease <- readHostFile fs (js "/etc/os-release") (fun _ => ret []) ;;
  procVersion <- readHostFile fs (js "/proc/version") (fun _ => ret []) ;;
  ret (osOf pf osRelease procVersion).

(** *** Load average *)

(** [os.loadavg().join(" ")] *)
Definition loadAvgFallback (os : OS) : jsstring :=
  let '(load1, load5, load15) := loadavg os in
  join (js " ") [Number_toString load1; Number_toString load5; Number_toString load15].

(** The body of [getHostLoadAvg] once the text is read. *)
Definition loadAvgOf (os : OS) (loadAvg : jsstring) : list number :=
  let '(load1, load5, load15) := loadavg os in
  if nonEmpty loadAvg then
    let parts := fields loadAvg in
    if Nat.leb 3 (List.length parts) then
      [ orElse (parseFloat (part parts 0)) zero;
        orElse (parseFloat (part parts 1)) zero;
        orElse (parseFloat (part parts 2)) zero ]
    else [load1; load5; load15]
  else [load1; load5; load15].

Definition getHostLoadAvg (fs : FS) (os : OS) : result (list number) :=
  loadAvg <- readHostFile fs (js "/proc/loadavg")
               (fun _ => ret (loadAvgFallback os)) ;;
  ret (loadAvgOf os loadAvg).

(** *** Architecture *)

(** What the flags line decides, when it decides. *)
Definition archOfFlags (ls : list jsstring) : option jsstring :=
  match find (fun line => includes line (js "flags") || includes line (js "Features")) ls with
  | Some flagsLine =>
      if isEmpty flagsLine then None
      else if includes flagsLine (js "lm") || includes flagsLine (js "x86_64")
      then Some (js "x64")
      else if includes flagsLine (js "aarch64") then Some (js "arm64")
      else None
  | None => None
  end.

(** What the processor line decides, when it decides. *)
Definition archOfProcessor (ls : list jsstring) : option jsstring :=
  match find (fun line => includes line (js "Processor") ||
                          includes line (js "CPU architecture") ||
                          includes line (js "CPU implementer")) ls with
  | Some processorLine =>
      if isEmpty processorLine then None
      else if includes processorLine (js "aarch64") || includes processorLine (js "ARMv8")
      then Some (js "arm64")
      else if includes processorLine (js "armv7") || includes processorLine (js "ARMv7")
      then Some (js "arm")
      else None
  | None => None
  end.

(** The body of [getHostArch] once the text is read. *)
Definition archOf (pf : Platform) (cpuInfo : jsstring) : jsstring :=
  if nonEmpty cpuInfo then
    let ls := lines cpuInfo in
    match archOfFlags ls with
    | Some a => a
    | None =>
        match archOfProcessor ls with
        | Some a => a
        | None => arch pf
        end
    end
  else arch pf.

Definition getHostArch (fs : FS) (pf : Platform) : result jsstring :=
  cpuInfo <- readHostFile fs (js "/proc/cpuinfo") (fun _ => ret []) ;;
  ret (archOf pf cpuInfo).

(** *** The identity document *)

Record Snapshot := {
  doc_os_type : jsstring;
  doc_os_release : jsstring;
  doc_os_arch : jsstring;
  doc_cpu_model : jsstring;
  doc_cpu_count : number;
  doc_memory_total : number;
  doc_memory_free : number;
  doc_memory_used : number;
  doc_uptime : number;
  doc_hostname : jsstring;
  doc_localIP : jsstring;
  doc_loadAvg : list number;
  doc_hostMounted : bool
}.

(** What the handler answers: the document, or the status-500 error
    document. *)
Inductive Response := Ok200 (body : Snapshot) | Error500.

Definition snapshot (fs : FS) (os : OS) (pf : Platform) : result Snapshot :=
  let hostMounted := isHostMounted fs in
  cpuInfo <- getHostCPUInfo fs os ;;
  memory <- getHostMemory fs os ;;
  uptime <- getHostUptime fs pf ;;
  hostname <- getHostHostname fs os ;;
  osInfo <- getHostOS fs pf ;;
  loadAvg <- getHostLoadAvg fs os ;;
  arch <- getHostArch fs pf ;;
  localIP <- getHostIP fs os ;;
  ret {| doc_os_type := os_type osInfo;
         doc_os_release := os_release osInfo;
         doc_os_arch := arch;
         doc_cpu_model := model cpuInfo;
         doc_cpu_count := count cpuInfo;
         doc_memory_total := total memory;
         doc_memory_free := free memory;
         doc_memory_used := sub (total memory) (free memory);
         doc_uptime := uptime;
         doc_hostname := hostname;
         doc_localIP := localIP;
         doc_loadAvg := loadAvg;
         doc_hostMounted := hostMounted |}.

Definition GET (fs : FS) (os : OS) (pf : Platform) : Response :=
  match snapshot fs os pf with
  | inr body => Ok200 body
  | inl _ => Error500
  end.

End Identity.

(* ===================================================================== *)
(** ** Concrete worlds *)
(* ===================================================================== *)

Module Fixtures.
Import JS Num Host.

(** What a path of a concrete file system holds. *)
Inductive node :=
  | Directory
  | Regular (content : jsstring)
  | Unreadable            (* a regular file whose read throws *)
  | Broken.               (* an entry whose stat throws *)

Fixpoint lookup (entries : list (jsstring * node)) (p : jsstring) : option node :=
  match entries with
  | [] => None
  | (q, n) :: rest => if eqb q p then Some n else lookup rest p
  end.

Definition ENOENT : exn := Error (js "ENOENT").
Definition EACCES : exn := Error (js "EACCES").
Definition EISDIR : exn := Error (js "EISDIR").

(** The file system that holds exactly [entries]; [disk] answers the block
    statistics query. *)
Definition mkFS (entries : list (jsstring * node))
    (disk : jsstring -> result StatFs) : FS :=
  {| existsSync := fun p => match lookup entries p with Some _ => true | None => false end;
     statSync := fun p =>
       match lookup entries p with
       | Some Directory => inr {| isFile := false |}
       | Some (Regular _) | Some Unreadable => inr {| isFile := true |}
       | Some Broken => inl EACCES
       | None => inl ENOENT
       end;
     readFileSync := fun p =>
       match lookup entries p with
       | Some (Regular c) => inr c
       | Some Directory => inl EISDIR
       | Some Unreadable | Some Broken => inl EACCES
       | None => inl ENOENT
       end;
     statfsSync := disk |}.

Definition noDisk : jsstring -> result StatFs := fun _ => inl ENOENT.

(** A process with [n] bytes of free memory out of 8 GiB, [k] logical CPUs and
    an idle load. *)
Definition mkOS (freeBytes : N) (k : nat) : OS :=
  {| totalmemBytes := 8589934592;
     freememBytes := freeBytes;
     cpus := repeat (js "Generic CPU") k;
     loadavg := (zero, zero, zero);
     hostname := js "build-host";
     networkInterfaces :=
       [ (js "lo", [ {| family := js "IPv4"; internal := true; address := js "127.0.0.1" |} ]);
         (js "eth0", [ {| family := js "IPv6"; internal := false; address := js "fe80::1" |};
                       {| family := js "IPv4"; internal := false; address := js "172.17.0.2" |} ]) ] |}.

(** The same process under a one-minute load average of [load]. *)
Definition withLoad (load : number) (os : OS) : OS :=
  {| totalmemBytes := totalmemBytes os;
     freememBytes := freememBytes os;
     cpus := cpus os;
     loadavg := (load, load, load);
     hostname := hostname os;
     networkInterfaces := networkInterfaces os |}.

(** The same process with the loopback interface only. *)
Definition isolated (os : OS) : OS :=
  {| totalmemBytes := totalmemBytes os;
     freememBytes := freememBytes os;
     cpus := cpus os;
     loadavg := loadavg os;
     hostname := hostname os;
     networkInterfaces :=
       [ (js "lo", [ {| family := js "IPv4"; internal := true;
                        address := js "127.0.0.1" |} ]) ] |}.

(** Text with line feeds: the lines joined by "\n". *)
Definition text (ls : list jsstring) : jsstring := join [LF] ls.

Definition hostnameText : jsstring := text [js "db-primary"; js ""].

(** A host mount that lacks [/host/sys]: only the host tier holds the file. *)
Definition fsPartialMount : FS :=
  mkFS [ (js "/host/proc", Directory);
         (js "/host/etc", Directory);
         (js "/host/etc/hostname", Regular hostnameText) ] noDisk.

(** A complete host mount, with a container-local hostname file as well. *)
Definition fsHostMounted : FS :=
  mkFS [ (js "/host/proc", Directory);
         (js "/host/sys", Directory);
         (js "/host/etc", Directory);
         (js "/host/etc/hostname", Regular hostnameText);
         (js "/etc/hostname", Regular (text [js "a1b2c3d4e5f6"; js ""])) ] noDisk.

(** Every candidate is there and none can be used: the entry below the
    process root cannot be inspected, the file under the host mount cannot be
    read, and the container's own file holds white space only. *)
Definition fsHostile : FS :=
  mkFS [ (js "/proc/1/root", Directory);
         (js "/proc/1/root/etc/hostname", Broken);
         (js "/host/proc", Directory);
         (js "/host/sys", Directory);
         (js "/host/etc", Directory);
         (js "/host/etc/hostname", Unreadable);
         (js "/etc/hostname", Regular (js "  " ++ [LF])) ] noDisk.

(** A container that only has its own hostname file, holding a container id. *)
Definition fsContainer : FS :=
  mkFS [ (js "/etc/hostname", Regular (text [js "a1b2c3d4e5f6"; js ""])) ] noDisk.



(** A routing table whose first default route carries eight units that are
    not all hexadecimal digits. *)
Definition fsLooseRoutes : FS :=
  mkFS [ (js "/proc/net/route",
          Regular (text [ js "Iface Destination Gateway Flags";
                          js "eth3 00000000 0x0A00fe 0003";
                          js "eth4 00000000 0202000A 0003";
                          js "" ])) ] noDisk.


(** The meminfo document of the specification's example. *)
Definition fsMeminfo : FS :=
  mkFS [ (js "/proc/meminfo",
          Regular (text [ js "MemTotal: 1048576 kB";
                          js "MemAvailable: 524288 kB"; js "" ])) ] noDisk.

(** A meminfo document without a MemAvailable line, as kernels before 3.14
    write it. *)
Definition fsOldKernel : FS :=
  mkFS [ (js "/proc/meminfo",
          Regular (text [ js "MemTotal: 1048576 kB";
                          js "MemFree: 262144 kB"; js "" ])) ] noDisk.

(** A meminfo document that reports more available than total memory. *)
Definition fsOvercommitted : FS :=
  mkFS [ (js "/proc/meminfo",
          Regular (text [ js "MemTotal: 1024 kB";
                          js "MemAvailable: 2048 kB"; js "" ])) ] noDisk.

(** The stat document of the specification's example. *)
Definition fsStat : FS :=
  mkFS [ (js "/proc/stat",
          Regular (text [ js "cpu 100 0 50 800 50 0 0 0";
                          js "cpu0 100 0 50 800 50 0 0 0"; js "" ])) ] noDisk.

(** A stat document whose summary line stops after three counters. *)
Definition fsShortStat : FS :=
  mkFS [ (js "/proc/stat", Regular (text [ js "cpu 100 0 50"; js "" ])) ] noDisk.

(** A cpuinfo document with no processor entry and a summary line. *)
Definition fsCpuSummary : FS :=
  mkFS [ (js "/proc/cpuinfo",
          Regular (text [ js "Architecture: x86_64"; js "CPU(s): 4"; js "" ])) ] noDisk.

(** Nothing is readable anywhere. *)
Definition fsEmpty : FS := mkFS [] noDisk.

(** The root file system reports zero blocks, as a RAM-backed root does. *)
Definition fsZeroBlocks : FS :=
  mkFS [] (fun _ => inr {| blocks := ofZ 0; bsize := ofZ 4096; bavail := ofZ 0 |}).

(** A root file system of 1000 blocks of 4096 bytes, 250 of them available. *)
Definition fsDisk : FS :=
  mkFS [] (fun _ => inr {| blocks := ofZ 1000; bsize := ofZ 4096; bavail := ofZ 250 |}).

Definition constantFallback (s : jsstring) : unit -> result jsstring :=
  fun _ => inr s.

(** The further readings of a process that has been up for a day and half a
    second. *)
Definition platform : Platform :=
  {| uptime := binary_normalize prec emax 172801 (-1) false;
     type := js "Linux";
     release := js "6.1.0-18-amd64";
     arch := js "x64" |}.

Definition quoted (s : jsstring) : jsstring := [Identity.QUOTE] ++ s ++ [Identity.QUOTE].

(** A line of a cpuinfo document: label, tab, colon, space, value. *)
Definition entry (label value : jsstring) : jsstring :=
  label ++ [TAB] ++ js ": " ++ value.

Definition fsUptime : FS :=
  mkFS [ (js "/proc/uptime", Regular (text [js "351735.47 234388.90"; js ""])) ] noDisk.

Definition fsLoadavg : FS :=
  mkFS [ (js "/proc/loadavg", Regular (text [js "0.52 0.58 0.59 1/467 12345"; js ""])) ] noDisk.

Definition osReleaseText : jsstring :=
  text [ js "NAME=" ++ quoted (js "Ubuntu");
         js "VERSION_ID=" ++ quoted (js "22.04");
         js "PRETTY_NAME=" ++ quoted (js "Ubuntu 22.04.3 LTS");
         js "ID=ubuntu";
         js "" ].

(** A host mount that shows the host's kernel version and release file. *)
Definition fsUbuntuHost : FS :=
  mkFS [ (js "/host/proc", Directory);
         (js "/host/sys", Directory);
         (js "/host/etc", Directory);
         (js "/host/proc/version",
          Regular (text [js "Linux version 5.15.0-91-generic (buildd@lcy02-amd64-045) #101-Ubuntu SMP";
                         js ""]));
         (js "/host/etc/os-release", Regular osReleaseText) ] noDisk.

(** A container under a linuxkit kernel with the image's release file. *)
Definition fsLinuxkit : FS :=
  mkFS [ (js "/proc/version",
          Regular (text [js "Linux version 5.15.49-linuxkit (root@buildkitsandbox) #1 SMP";
                         js ""]));
         (js "/etc/os-release", Regular osReleaseText) ] noDisk.

(** The cpuinfo document of a machine with two logical x86-64 CPUs. *)
Definition cpuinfoText : jsstring :=
  text [ entry (js "processor") (js "0");
         entry (js "model") (js "85");
         entry (js "model name") (js "Intel(R) Xeon(R) CPU @ 2.20GHz");
         entry (js "flags") (js "fpu vme de pse lm");
         js "";
         entry (js "processor") (js "1");
         entry (js "model") (js "85");
         entry (js "model name") (js "Intel(R) Xeon(R) CPU @ 2.20GHz");
         entry (js "flags") (js "fpu vme de pse lm");
         js "" ].

Definition fsCpuinfo : FS :=
  mkFS [ (js "/proc/cpuinfo", Regular cpuinfoText) ] noDisk.

(** A cpuinfo document whose model value holds both separators. *)
Definition fsCpuinfoSeparators : FS :=
  mkFS [ (js "/proc/cpuinfo",
          Regular (text [ entry (js "model name") (js "Custom SoC rev=2 core:A"); js "" ])) ]
       noDisk.

(** A meminfo document with both the MemFree and the MemAvailable line. *)
Definition fsMeminfoBoth : FS :=
  mkFS [ (js "/proc/meminfo",
          Regular (text [ js "MemTotal: 1048576 kB";
                          js "MemFree: 262144 kB";
                          js "MemAvailable: 524288 kB"; js "" ])) ] noDisk.

End Fixtures.

(* ===================================================================== *)
(** ** Vocabulary of the properties *)
(* ===================================================================== *)

Module Props.
Import JS Num Host.

(** The three candidate locations of a logical file, in priority order. *)
Inductive Tier := ProcessRoot | HostMount | Local.

Definition tierPath (t : Tier) (path : jsstring) : jsstring :=
  match t with
  | ProcessRoot => Metrics.PROC1_ROOT ++ path
  | HostMount => Metrics.HOST_ROOT ++ path
  | Local => path
  end.

(** Priority: a smaller rank is tried earlier. *)
Definition rank (t : Tier) : nat :=
  match t with ProcessRoot => 0 | HostMount => 1 | Local => 2 end.

(** The path holds a readable regular file whose content [c] is more than
    white space. *)
Definition holdsText (fs : FS) (p c : jsstring) : Prop :=
  existsSync fs p = true /\
  (exists st, statSync fs p = inr st /\ isFile st = true) /\
  readFileSync fs p = inr c /\
  trim c <> [].

(** The condition under which the source looks at a tier at all. *)
Definition gateOpen (fs : FS) (t : Tier) : Prop :=
  match t with
  | ProcessRoot => existsSync fs Metrics.PROC1_ROOT = true
  | HostMount => Metrics.isHostMounted fs = true
  | Local => True
  end.

(** The tier is looked at and holds text [c]. *)
Definition usable (fs : FS) (t : Tier) (path c : jsstring) : Prop :=
  gateOpen fs t /\ holdsText fs (tierPath t path) c.

(** What one candidate block of the first route yields once its [try] has
    swallowed every throw. *)
Definition candidateText (fs : FS) (p : jsstring) : option jsstring :=
  if existsSync fs p then
    match statSync fs p with
    | inr st =>
        if isFile st then
          match readFileSync fs p with
          | inr c => if hasText c then Some (trim c) else None
          | inl _ => None
          end
        else None
    | inl _ => None
    end
  else None.

Definition gateb (fs : FS) (t : Tier) : bool :=
  match t with
  | ProcessRoot => existsSync fs Metrics.PROC1_ROOT
  | HostMount => Metrics.isHostMounted fs
  | Local => true
  end.

(** What a tier contributes: its trimmed text when it is looked at and holds
    some. *)
Definition tierText (fs : FS) (t : Tier) (path : jsstring) : option jsstring :=
  if gateb fs t then candidateText fs (tierPath t path) else None.

(** *** Numbers *)

(** The number is a zero, a finite value or an infinity of sign [s] (so it is
    not NaN). *)
Definition hasSign (s : bool) (x : number) : Prop :=
  match x with
  | S754_zero s' | S754_infinity s' | S754_finite s' _ _ => s' = s
  | S754_nan => False
  end.

(** The number is finite and not zero, or infinite, with sign [s]. *)
Definition nonzeroWithSign (s : bool) (x : number) : Prop :=
  match x with
  | S754_finite s' _ _ | S754_infinity s' => s' = s
  | _ => False
  end.

(** How far rounding shifts the mantissa [m] held at exponent [e] to the
    right. *)
Definition shift (m e : Z) : Z :=
  Z.max 0 (fexp prec emax (Zdigits2 m + e) - e)%Z.

(** A number the arithmetic can produce: NaN, a zero, an infinity, or a finite
    value with a canonical mantissa. *)
Definition valid (x : number) : Prop := valid_binary prec emax x = true.

(** A non-empty run of decimal digits. *)
Definition isNumeral (ds : jsstring) : Prop :=
  ds <> [] /\ forallb isDigit ds = true.

(** What the parsers test on a unit, checked on a decimal digit. *)
Definition digitParsed (c : char) : bool :=
  implb (isDigit c)
    (negb (isWhiteSpace c) && negb (isChar "-" c) && negb (isChar "+" c)
     && negb (isChar "x" c) && negb (isChar "X" c) && negb (isChar "I" c)
     && match radixDigit 10 c with
        | Some v => Z.eqb v (digitVal c) && Z.leb 0 v
        | None => false
        end).

(** *** Documents *)

(** [line] is the first line of [doc] that starts with [prefix]. *)
Definition firstLine (prefix doc line : jsstring) : Prop :=
  exists pre post,
    lines doc = pre ++ line :: post /\
    startsWith line prefix = true /\
    forall l, In l pre -> startsWith l prefix = false.

(** No line of [doc] starts with [prefix]. *)
Definition noLine (prefix doc : jsstring) : Prop :=
  forall l, In l (lines doc) -> startsWith l prefix = false.

Definition blank (pad : jsstring) : Prop := forallb isWhiteSpace pad = true.

(** A line of a meminfo document: label, colon, padding, a natural number of
    kilobytes and the unit. *)
Definition memLine (label pad : jsstring) (kB : Z) : jsstring :=
  label ++ js ":" ++ pad ++ decimal kB ++ js " kB".

(** *** CPU utilisation, in the words of the specification *)

(** The counter at a position of the summary line; an absent one counts 0. *)
Definition counter (cs : list Z) (i : nat) : number := ofZ (nth i cs 0%Z).

(** busy_total = user + nice + system + irq + softirq + steal *)
Definition busyTotal (cs : list Z) : number :=
  add (add (add (add (add (counter cs 0) (counter cs 1)) (counter cs 2))
                (counter cs 5)) (counter cs 6)) (counter cs 7).

(** idle_total = idle + iowait *)
Definition idleTotal (cs : list Z) : number := add (counter cs 3) (counter cs 4).

Definition denominator (cs : list Z) : number := add (busyTotal cs) (idleTotal cs).

(** Clamping to [0, 100]. *)
Definition clamp (x : number) : number := Math_min (Math_max x zero) (ofZ 100).

(** usage% = busy_total / (busy_total + idle_total) * 100, clamped *)
Definition specUsage (cs : list Z) : number :=
  clamp (mul (div (busyTotal cs) (denominator cs)) (ofZ 100)).

(** load_average[1min] / logical_cpu_count * 100, clamped to 100 only *)
Definition loadUsage (os : OS) (cpuCount : number) : number :=
  let '(load1, _, _) := loadavg os in
  Math_min (mul (div load1 cpuCount) (ofZ 100)) (ofZ 100).

(** *** Disk, in the words of the specification *)

Definition diskOf (fs : FS) : Metrics.DiskSection :=
  match statfsSync fs (Metrics.rootPath fs) with
  | inr st =>
      let total := mul (blocks st) (bsize st) in
      let free := mul (bavail st) (bsize st) in
      let used := sub total free in
      {| Metrics.disk_total := total;
         Metrics.disk_used := used;
         Metrics.disk_free := free;
         Metrics.disk_usage := clamp (mul (div used total) (ofZ 100)) |}
  | inl _ =>
      {| Metrics.disk_total := zero; Metrics.disk_used := zero;
         Metrics.disk_free := zero; Metrics.disk_usage := zero |}
  end.

(** *** Second route *)

(** The path holds a readable entry whose content [c] is more than white
    space (the second route does not ask whether it is a regular file). *)
Definition holdsPlainText (fs : FS) (p c : jsstring) : Prop :=
  existsSync fs p = true /\ readFileSync fs p = inr c /\ trim c <> [].

Definition plainText (fs : FS) (p : jsstring) : option jsstring :=
  if existsSync fs p then
    match readFileSync fs p with
    | inr c => if hasText c then Some (trim c) else None
    | inl _ => None
    end
  else None.

(** [c] is the content of the candidate the second route settles on: the file
    under the host mount when the mount is available and the file has text,
    otherwise the container's own file. *)
Definition selected (fs : FS) (path c : jsstring) : Prop :=
  (Identity.isHostMounted fs = true /\
   holdsPlainText fs (Identity.HOST_ROOT ++ path) c)
  \/ ((Identity.isHostMounted fs = false \/
       forall c', ~ holdsPlainText fs (Identity.HOST_ROOT ++ path) c')
      /\ holdsPlainText fs path c).

(** A hexadecimal digit, either case. *)
Definition HexChar (c : char) : Prop :=
  (48 <= c <= 57)%N \/ (97 <= c <= 102)%N \/ (65 <= c <= 70)%N.

(** Twelve hexadecimal digits and nothing else. *)
Definition Hex12 (s : jsstring) : Prop :=
  JS.length s = 12 /\ Forall HexChar s.

(** The value of a hexadecimal digit. *)
Definition hexVal (c : char) : option Z :=
  if N.leb 48 c && N.leb c 57 then Some (Z.of_N c - 48)%Z
  else if N.leb 97 c && N.leb c 102 then Some (Z.of_N c - 87)%Z
  else if N.leb 65 c && N.leb c 70 then Some (Z.of_N c - 55)%Z
  else None.

Definition octet (hi lo : char) : option Z :=
  match hexVal hi, hexVal lo with
  | Some h, Some l => Some (16 * h + l)%Z
  | _, _ => None
  end.

(** The four octets of an eight-digit gateway field, most significant first:
    the byte pairs at offsets [6:8], [4:6], [2:4], [0:2]. *)
Definition gatewayOctets (g : jsstring) : option (Z * Z * Z * Z) :=
  match g with
  | [c0; c1; c2; c3; c4; c5; c6; c7] =>
      match octet c6 c7, octet c4 c5, octet c2 c3, octet c0 c1 with
      | Some a, Some b, Some c, Some d => Some (a, b, c, d)
      | _, _, _, _ => None
      end
  | _ => None
  end.

(** Dotted-decimal notation. *)
Definition dotted (o : Z * Z * Z * Z) : jsstring :=
  let '(a, b, c, d) := o in
  decimal a ++ js "." ++ decimal b ++ js "." ++ decimal c ++ js "." ++ decimal d.


(** [String(parseInt(pair, 16))] on every pair of ASCII units, against the
    octet the pair denotes. *)
Definition octetPrinted (hi lo : char) : bool :=
  match octet hi lo with
  | Some v => eqb (toString (parseInt [hi; lo] 16)) (decimal v)
  | None => true
  end.

(** The first non-internal IPv4 address among all interfaces. *)
Definition firstExternalIPv4 (os : OS) : option jsstring :=
  option_map address
    (List.find (fun a => eqb (family a) (js "IPv4") && negb (internal a))
       (flat_map snd (networkInterfaces os))).

(** *** The gateway field as the resolver reads it

    The resolver does not ask whether the eight units of the third field are
    hexadecimal digits: it hands each byte pair to [parseInt(pair, 16)] and
    prints what comes back. *)

(** What [parseInt(pair, 16)] reads from a pair that does not start with white
    space: an optional sign and the leading hexadecimal digits.  [None] stands
    for NaN: no digit, or the prefix [0x] with nothing behind it. *)
Definition pairValue (hi lo : char) : option Z :=
  match hexVal hi with
  | Some h =>
      if N.eqb hi 48 && (isChar "x" lo || isChar "X" lo) then None
      else match hexVal lo with
           | Some l => Some (16 * h + l)%Z
           | None => Some h
           end
  | None =>
      if isChar "-" hi then option_map Z.opp (hexVal lo)
      else if isChar "+" hi then hexVal lo
      else None
  end.

(** What is printed for a pair: the decimal numeral of its value, or "NaN". *)
Definition pairText (hi lo : char) : jsstring :=
  match pairValue hi lo with
  | Some v => decimal v
  | None => js "NaN"
  end.

(** What is printed for an eight-unit gateway field: the texts of the byte
    pairs at offsets [6:8], [4:6], [2:4], [0:2], joined by dots. *)
Definition gatewayText (g : jsstring) : jsstring :=
  match g with
  | [c0; c1; c2; c3; c4; c5; c6; c7] =>
      pairText c6 c7 ++ js "." ++ pairText c4 c5 ++ js "."
      ++ pairText c2 c3 ++ js "." ++ pairText c0 c1
  | _ => []
  end.

(** A line the gateway scan skips: fewer than three fields, a second field
    other than "00000000", a third field that is not eight units long, or one
    that prints as 0.0.0.0. *)
Definition skipped (line : jsstring) : Prop :=
  match fields (trim line) with
  | _ :: dest :: g :: _ =>
      dest <> js "00000000" \/ JS.length g <> 8 \/ gatewayText g = js "0.0.0.0"
  | _ => True
  end.

(** *** Further documents of the second route *)

(** No digit comes next. *)
Definition noDigitAhead (s : jsstring) : Prop :=
  match s with c :: _ => isDigit c = false | [] => True end.

(** White space or nothing comes next. *)
Definition wordEnds (s : jsstring) : Prop :=
  match s with c :: _ => isWhiteSpace c = true | [] => True end.

(** A text made of whole lines: empty, or ending in a line feed. *)
Definition wholeLines (s : jsstring) : Prop :=
  s = [] \/ exists r, s = r ++ [LF].

(** [line] is the first line of [doc] that satisfies [p]. *)
Definition firstWhere (p : jsstring -> bool) (doc line : jsstring) : Prop :=
  exists pre post,
    lines doc = pre ++ line :: post /\
    p line = true /\
    forall l, In l pre -> p l = false.

(** The predicate of the first [find] of the first route's
    [getHostCPUInfo]. *)
Definition namesModel (line : jsstring) : bool :=
  let lower := toLowerCase line in
  includes lower (js "model name") ||
  (includes lower (js "model") && includes lower (js "name")) ||
  Metrics.matchModelName line.

(** What splitting at [:] and [=] and joining with [:] makes of a unit. *)
Definition colonForEquals (c : char) : char :=
  if isChar "=" c then N_of_ascii ":" else c.

(** The three load averages of the process as an array. *)
Definition loadavgList (os : OS) : list number :=
  let '(load1, load5, load15) := loadavg os in [load1; load5; load15].

(** The number is NaN or at most 100. *)
Definition atMost100 (x : number) : Prop :=
  isNaN x = true \/ le x (ofZ 100) = true.

(** The number is NaN or lies in [0, 100]. *)
Definition percentage (x : number) : Prop :=
  isNaN x = true \/ (le zero x = true /\ le x (ofZ 100) = true).

End Props.

(* ===================================================================== *)
(** ** Facts about strings *)
(* ===================================================================== *)

Import JS Num Host.

Lemma eqb_eq (a b : jsstring) : eqb a b = true <-> a = b.
Proof.
  revert b; induction a as [|x a IH]; intros [|y b]; simpl; split; intros H;
    try reflexivity; try discriminate.
  - apply andb_true_iff in H as [H1 H2]. apply N.eqb_eq in H1.
    apply IH in H2. now subst.
  - injection H as -> ->. rewrite N.eqb_refl. simpl. now apply IH.
Qed.

Lemma eqb_refl (a : jsstring) : eqb a a = true.
Proof. now apply eqb_eq. Qed.

Lemma hasText_true (c : jsstring) : hasText c = true <-> trim c <> [].
Proof.
  unfold hasText. split.
  - intros H. apply andb_true_iff in H as [_ H]. apply Nat.ltb_lt in H.
    intros E. rewrite E in H. simpl in H. lia.
  - intros H. apply andb_true_iff. split.
    + destruct c; [exfalso; apply H; reflexivity | reflexivity].
    + apply Nat.ltb_lt. destruct (trim c); [congruence | simpl; lia].
Qed.

Lemma hasText_false (c : jsstring) : hasText c = false <-> trim c = [].
Proof.
  split; intros H.
  - destruct (trim c) eqn:E; [reflexivity|].
    assert (hasText c = true) by (apply hasText_true; congruence). congruence.
  - destruct (hasText c) eqn:E; [|reflexivity].
    apply hasText_true in E. contradiction.
Qed.

(* ===================================================================== *)
(** ** Source selection, first route *)
(* ===================================================================== *)

Lemma tryBlock_returns {A} (body : result (option A)) :
  tryBlock body = inr (match body with inr v => v | inl _ => None end).
Proof. destruct body; reflexivity. Qed.

Lemma readCandidate_caught (fs : FS) (p : jsstring) :
  tryBlock (Metrics.readCandidate fs p) = inr (Props.candidateText fs p).
Proof.
  rewrite tryBlock_returns. f_equal.
  unfold Metrics.readCandidate, Props.candidateText.
  destruct (existsSync fs p); [|reflexivity].
  destruct (statSync fs p) as [e|st]; simpl; [reflexivity|].
  destruct (isFile st); [|reflexivity].
  destruct (readFileSync fs p) as [e|c]; simpl; [reflexivity|].
  destruct (hasText c); reflexivity.
Qed.

Lemma candidateText_holds (fs : FS) (p t : jsstring) :
  Props.candidateText fs p = Some t <->
  exists c, Props.holdsText fs p c /\ t = trim c.
Proof.
  unfold Props.candidateText, Props.holdsText. split.
  - destruct (existsSync fs p); [|discriminate].
    destruct (statSync fs p) as [e|st]; [discriminate|].
    destruct (isFile st) eqn:F; [|discriminate].
    destruct (readFileSync fs p) as [e|c]; [discriminate|].
    destruct (hasText c) eqn:T; [|discriminate].
    intros [= <-]. exists c. apply hasText_true in T. eauto 10.
  - intros (c & (E & (st & S & F) & R & T) & ->).
    rewrite E, S, F, R. apply hasText_true in T. now rewrite T.
Qed.

Lemma candidateText_none (fs : FS) (p : jsstring) :
  Props.candidateText fs p = None <-> forall c, ~ Props.holdsText fs p c.
Proof.
  split.
  - intros N c H.
    assert (Props.candidateText fs p = Some (trim c))
      by (apply candidateText_holds; eauto).
    congruence.
  - intros H. destruct (Props.candidateText fs p) as [t|] eqn:E; [|reflexivity].
    apply candidateText_holds in E as (c & Hc & _). now apply H in Hc.
Qed.

Lemma gateb_open (fs : FS) (t : Props.Tier) :
  Props.gateb fs t = true <-> Props.gateOpen fs t.
Proof. destruct t; simpl; tauto. Qed.

Lemma tierText_usable (fs : FS) (t : Props.Tier) (path x : jsstring) :
  Props.tierText fs t path = Some x <->
  exists c, Props.usable fs t path c /\ x = trim c.
Proof.
  unfold Props.tierText, Props.usable. split.
  - destruct (Props.gateb fs t) eqn:G; [|discriminate].
    intros H. apply candidateText_holds in H as (c & H & ->).
    exists c. apply gateb_open in G. auto.
  - intros (c & (G & H) & ->). apply gateb_open in G. rewrite G.
    apply candidateText_holds. eauto.
Qed.

Lemma tierText_unusable (fs : FS) (t : Props.Tier) (path : jsstring) :
  Props.tierText fs t path = None <-> forall c, ~ Props.usable fs t path c.
Proof.
  split.
  - intros N c H.
    assert (Props.tierText fs t path = Some (trim c))
      by (apply tierText_usable; eauto).
    congruence.
  - intros H. destruct (Props.tierText fs t path) as [x|] eqn:E; [|reflexivity].
    apply tierText_usable in E as (c & Hc & _). now apply H in Hc.
Qed.

(** The three blocks of [readHostFile], with every throw already swallowed:
    the tiers are consulted in the order process root, host mount, local. *)
Lemma readHostFile_tiers (fs : FS) (path : jsstring) fallback :
  Metrics.readHostFile fs path fallback =
  match Props.tierText fs Props.ProcessRoot path with
  | Some t => inr t
  | None =>
      match Props.tierText fs Props.HostMount path with
      | Some t => inr t
      | None =>
          match Props.tierText fs Props.Local path with
          | Some t => inr t
          | None => fallback tt
          end
      end
  end.
Proof.
  unfold Metrics.readHostFile, Props.tierText, Props.gateb, Props.tierPath.
  rewrite !readCandidate_caught.
  generalize (Props.candidateText fs (Metrics.PROC1_ROOT ++ path)) as c1.
  generalize (Props.candidateText fs (Metrics.HOST_ROOT ++ path)) as c2.
  generalize (Props.candidateText fs path) as c3.
  intros c3 c2 c1.
  destruct (existsSync fs Metrics.PROC1_ROOT), (Metrics.isHostMounted fs),
    c1, c2, c3; reflexivity.
Qed.

(** C2. [readHostFile] never raises on its own: for every path, fallback
    producer and file-system state (whatever throws, is missing, is not a
    regular file or holds only white space), it returns the non-empty trimmed
    text of one of the three candidates, or else no candidate is usable and
    its outcome is exactly the outcome of the fallback producer. *)
Theorem readHostFile_never_raises :
  forall (fs : FS) (path : jsstring) (fallback : unit -> result jsstring),
    (exists t c, Props.usable fs t path c /\
                 Metrics.readHostFile fs path fallback = inr (trim c))
    \/ ((forall t c, ~ Props.usable fs t path c) /\
        Metrics.readHostFile fs path fallback = fallback tt).
Proof.
  intros fs path fallback. rewrite readHostFile_tiers.
  destruct (Props.tierText fs Props.ProcessRoot path) as [x|] eqn:E1.
  { apply tierText_usable in E1 as (c & U & ->). left. eauto. }
  destruct (Props.tierText fs Props.HostMount path) as [x|] eqn:E2.
  { apply tierText_usable in E2 as (c & U & ->). left. eauto. }
  destruct (Props.tierText fs Props.Local path) as [x|] eqn:E3.
  { apply tierText_usable in E3 as (c & U & ->). left. eauto. }
  right. split; [|reflexivity].
  intros [] c; now apply tierText_unusable.
Qed.

(** Throws and blank content are passed over silently: with a process-root
    entry whose inspection throws, a host file whose read throws and a local
    file of white space, the fallback producer answers. *)
Lemma readHostFile_unusable_candidates_example :
  Metrics.readHostFile Fixtures.fsHostile (js "/etc/hostname")
    (Fixtures.constantFallback (js "fallback")) = inr (js "fallback").
Proof. reflexivity. Qed.

(** C1, as amended.  When a tier is looked at (the process-root tier when
    [/proc/1/root] exists, the host-mount tier when the availability check
    passes, the local tier always) and holds a readable regular file with
    text, and no tier of higher priority is usable, [readHostFile] returns that
    file's trimmed content, whatever the tiers of lower priority hold. *)
Theorem readHostFile_first_usable_tier :
  forall (fs : FS) (path : jsstring) (fallback : unit -> result jsstring)
         (t : Props.Tier) (c : jsstring),
    Props.usable fs t path c ->
    (forall t' c', Props.rank t' < Props.rank t -> ~ Props.usable fs t' path c') ->
    Metrics.readHostFile fs path fallback = inr (trim c).
Proof.
  intros fs path fallback t c U H. rewrite readHostFile_tiers.
  assert (Ht : Props.tierText fs t path = Some (trim c))
    by (apply tierText_usable; eauto).
  assert (Hn : forall t', Props.rank t' < Props.rank t ->
                          Props.tierText fs t' path = None).
  { intros t' L. apply tierText_unusable. intros c'. now apply H. }
  destruct t; simpl in Hn.
  - now rewrite Ht.
  - rewrite (Hn Props.ProcessRoot) by (simpl; lia). now rewrite Ht.
  - rewrite (Hn Props.ProcessRoot), (Hn Props.HostMount) by (simpl; lia).
    now rewrite Ht.
Qed.

Lemma readHostFile_first_usable_tier_witness :
  Metrics.readHostFile Fixtures.fsHostMounted (js "/etc/hostname")
    (Fixtures.constantFallback (js "fallback")) = inr (js "db-primary").
Proof.
  apply (readHostFile_first_usable_tier Fixtures.fsHostMounted (js "/etc/hostname")
           (Fixtures.constantFallback (js "fallback")) Props.HostMount
           Fixtures.hostnameText).
  - split; [reflexivity|].
    split; [reflexivity|]. split; [exists {| isFile := true |}; split; reflexivity|].
    split; [reflexivity | discriminate].
  - intros [] c' L [G _]; simpl in L; try lia. discriminate G.
Defined.

(** C1, as stated, fails: the host-mount tier alone holds a readable file with
    text, yet the availability check does not pass ([/host/sys] is missing),
    so the file is not read and the fallback producer answers. *)
Lemma readHostFile_host_tier_counterexample :
  Props.holdsText Fixtures.fsPartialMount
    (Props.tierPath Props.HostMount (js "/etc/hostname")) Fixtures.hostnameText
  /\ (forall t c, t <> Props.HostMount ->
        ~ Props.holdsText Fixtures.fsPartialMount
            (Props.tierPath t (js "/etc/hostname")) c)
  /\ Metrics.readHostFile Fixtures.fsPartialMount (js "/etc/hostname")
       (Fixtures.constantFallback (js "fallback")) = inr (js "fallback")
  /\ trim Fixtures.hostnameText <> js "fallback".
Proof.
  split; [|split; [|split]].
  - split; [reflexivity|]. split; [exists {| isFile := true |}; split; reflexivity|].
    split; [reflexivity | discriminate].
  - intros [] c N [E _]; [discriminate E | congruence | discriminate E].
  - reflexivity.
  - discriminate.
Qed.

(* ===================================================================== *)
(** ** Source selection, second route *)
(* ===================================================================== *)

Lemma Identity_readCandidate_caught (fs : FS) (p : jsstring) :
  tryBlock (Identity.readCandidate fs p) = inr (Props.plainText fs p).
Proof.
  rewrite tryBlock_returns. f_equal.
  unfold Identity.readCandidate, Props.plainText.
  destruct (existsSync fs p); [|reflexivity].
  destruct (readFileSync fs p) as [e|c]; simpl; [reflexivity|].
  destruct (hasText c); reflexivity.
Qed.

Lemma plainText_holds (fs : FS) (p t : jsstring) :
  Props.plainText fs p = Some t <->
  exists c, Props.holdsPlainText fs p c /\ t = trim c.
Proof.
  unfold Props.plainText, Props.holdsPlainText. split.
  - destruct (existsSync fs p); [|discriminate].
    destruct (readFileSync fs p) as [e|c]; [discriminate|].
    destruct (hasText c) eqn:T; [|discriminate].
    intros [= <-]. exists c. apply hasText_true in T. auto.
  - intros (c & (E & R & T) & ->).
    rewrite E, R. apply hasText_true in T. now rewrite T.
Qed.

Lemma plainText_none (fs : FS) (p : jsstring) :
  Props.plainText fs p = None <-> forall c, ~ Props.holdsPlainText fs p c.
Proof.
  split.
  - intros N c H.
    assert (Props.plainText fs p = Some (trim c))
      by (apply plainText_holds; eauto).
    congruence.
  - intros H. destruct (Props.plainText fs p) as [t|] eqn:E; [|reflexivity].
    apply plainText_holds in E as (c & Hc & _). now apply H in Hc.
Qed.

Lemma Identity_readHostFile_tiers (fs : FS) (path : jsstring) fallback :
  Identity.readHostFile fs path fallback =
  match (if Identity.isHostMounted fs
         then Props.plainText fs (Identity.HOST_ROOT ++ path) else None) with
  | Some t => inr t
  | None =>
      match Props.plainText fs path with
      | Some t => inr t
      | None => fallback tt
      end
  end.
Proof.
  unfold Identity.readHostFile. rewrite !Identity_readCandidate_caught.
  generalize (Props.plainText fs (Identity.HOST_ROOT ++ path)) as c1.
  generalize (Props.plainText fs path) as c2. intros c2 c1.
  destruct (Identity.isHostMounted fs), c1, c2; reflexivity.
Qed.

Lemma Identity_readHostFile_selected (fs : FS) (path c : jsstring) fallback :
  Props.selected fs path c ->
  Identity.readHostFile fs path fallback = inr (trim c).
Proof.
  intros S. rewrite Identity_readHostFile_tiers.
  destruct S as [[M H] | [N H]].
  - rewrite M.
    assert (E : Props.plainText fs (Identity.HOST_ROOT ++ path) = Some (trim c))
      by (apply plainText_holds; eauto).
    now rewrite E.
  - assert (E : Props.plainText fs path = Some (trim c))
      by (apply plainText_holds; eauto).
    destruct N as [N|N].
    + now rewrite N, E.
    + apply plainText_none in N. rewrite N.
      destruct (Identity.isHostMounted fs); now rewrite E.
Qed.

(** When the fallback producer returns, so does [readHostFile]. *)
Lemma Identity_readHostFile_returns (fs : FS) (path s : jsstring) :
  exists doc, Identity.readHostFile fs path (fun _ => inr s) = inr doc.
Proof.
  rewrite Identity_readHostFile_tiers.
  destruct (if Identity.isHostMounted fs then _ else _); [eauto|].
  destruct (Props.plainText fs path); eauto.
Qed.

Lemma Metrics_readHostFile_returns (fs : FS) (path s : jsstring) :
  exists doc, Metrics.readHostFile fs path (fun _ => inr s) = inr doc.
Proof.
  rewrite readHostFile_tiers.
  destruct (Props.tierText fs Props.ProcessRoot path); [eauto|].
  destruct (Props.tierText fs Props.HostMount path); [eauto|].
  destruct (Props.tierText fs Props.Local path); eauto.
Qed.

Lemma trim_holds_nonEmpty (c : jsstring) : trim c <> [] -> nonEmpty (trim c) = true.
Proof.
  intros H. unfold nonEmpty. destruct (trim c); [congruence | reflexivity].
Qed.

(* ===================================================================== *)
(** ** Hostname *)
(* ===================================================================== *)

Lemma isHexDigit_HexChar (c : char) : Identity.isHexDigit c = true <-> Props.HexChar c.
Proof.
  unfold Identity.isHexDigit, Props.HexChar, isDigit.
  rewrite !orb_true_iff, !andb_true_iff, !N.leb_le. tauto.
Qed.

Lemma matchContainerId_Hex12 (s : jsstring) :
  Identity.matchContainerId s = true <-> Props.Hex12 s.
Proof.
  unfold Identity.matchContainerId, Props.Hex12.
  rewrite andb_true_iff, Nat.eqb_eq, forallb_forall, Forall_forall.
  split; intros [L H]; split; auto; intros c Hc; apply isHexDigit_HexChar; auto.
Qed.

(** C7. Whatever content [c] the hostname file that is read holds, the
    resolver answers the process's own hostname when the trimmed content is
    twelve hexadecimal digits, and the trimmed content itself otherwise. *)
Theorem getHostHostname_rejects_container_id :
  forall (fs : FS) (os : OS) (c : jsstring),
    Props.selected fs (js "/etc/hostname") c ->
    (Props.Hex12 (trim c) -> Identity.getHostHostname fs os = inr (hostname os)) /\
    (~ Props.Hex12 (trim c) -> Identity.getHostHostname fs os = inr (trim c)).
Proof.
  intros fs os c S.
  assert (T : trim c <> []).
  { destruct S as [[_ (_ & _ & T)] | [_ (_ & _ & T)]]; exact T. }
  unfold Identity.getHostHostname.
  rewrite (Identity_readHostFile_selected fs _ c _ S). simpl.
  rewrite (trim_holds_nonEmpty _ T).
  destruct (Identity.matchContainerId (trim c)) eqn:M; split; intros H.
  - reflexivity.
  - apply matchContainerId_Hex12 in M. contradiction.
  - apply matchContainerId_Hex12 in H. congruence.
  - reflexivity.
Qed.

Lemma getHostHostname_rejects_container_id_witness :
  Identity.getHostHostname Fixtures.fsContainer (Fixtures.mkOS 1000 2)
  = inr (js "build-host").
Proof.
  apply (getHostHostname_rejects_container_id Fixtures.fsContainer
           (Fixtures.mkOS 1000 2) (Fixtures.text [js "a1b2c3d4e5f6"; js ""])).
  - right. split; [left; reflexivity|].
    split; [reflexivity|]. split; [reflexivity | discriminate].
  - apply matchContainerId_Hex12. reflexivity.
Defined.

(* ===================================================================== *)
(** ** Default gateway *)
(* ===================================================================== *)

(** A property of code units that is checked on every ASCII unit holds of
    every ASCII unit. *)
Lemma ascii_units_cases (P : N -> bool) :
  forallb P (map N.of_nat (seq 0 128)) = true ->
  forall c, (c < 128)%N -> P c = true.
Proof.
  intros H c L. rewrite forallb_forall in H. apply H.
  apply in_map_iff. exists (N.to_nat c). split; [apply N2Nat.id|].
  apply in_seq. lia.
Qed.

Lemma hexVal_ascii (c : char) (v : Z) : Props.hexVal c = Some v -> (c < 128)%N.
Proof.
  unfold Props.hexVal.
  destruct (N.leb_spec c 57); [lia|]. rewrite andb_false_r.
  destruct (N.leb_spec c 102); [lia|]. rewrite andb_false_r.
  destruct (N.leb_spec c 70); [lia|]. rewrite andb_false_r. discriminate.
Qed.

Lemma octetPrinted_all :
  forallb (fun hi => forallb (Props.octetPrinted hi) (map N.of_nat (seq 0 128)))
    (map N.of_nat (seq 0 128)) = true.
Proof. vm_compute. reflexivity. Qed.

Lemma parseInt_octet (hi lo : char) (v : Z) :
  Props.octet hi lo = Some v ->
  toString (parseInt [hi; lo] 16) = decimal v.
Proof.
  intros H.
  assert (Hhi : (hi < 128)%N).
  { unfold Props.octet in H. destruct (Props.hexVal hi) eqn:E; [|discriminate].
    eapply hexVal_ascii; eauto. }
  assert (Hlo : (lo < 128)%N).
  { unfold Props.octet in H. destruct (Props.hexVal hi); [|discriminate].
    destruct (Props.hexVal lo) eqn:E; [|discriminate].
    eapply hexVal_ascii; eauto. }
  pose proof (ascii_units_cases _ octetPrinted_all hi Hhi) as H1. simpl in H1.
  pose proof (ascii_units_cases _ H1 lo Hlo) as H2.
  unfold Props.octetPrinted in H2. rewrite H in H2. now apply eqb_eq.
Qed.

Lemma gatewayOctets_length (g : jsstring) o :
  Props.gatewayOctets g = Some o -> JS.length g = 8.
Proof.
  unfold Props.gatewayOctets.
  destruct g as [|c0 [|c1 [|c2 [|c3 [|c4 [|c5 [|c6 [|c7 [|c8 g]]]]]]]]];
    try discriminate. reflexivity.
Qed.

(** The four byte pairs at offsets [6:8], [4:6], [2:4], [0:2], each read as a
    hexadecimal number and printed in decimal. *)
Lemma dottedOfHex_octets (g : jsstring) o :
  Props.gatewayOctets g = Some o ->
  Identity.dottedOfHex g = Props.dotted o.
Proof.
  unfold Props.gatewayOctets.
  destruct g as [|c0 [|c1 [|c2 [|c3 [|c4 [|c5 [|c6 [|c7 [|c8 g]]]]]]]]];
    try discriminate.
  destruct (Props.octet c6 c7) as [a|] eqn:Ea; [|discriminate].
  destruct (Props.octet c4 c5) as [b|] eqn:Eb; [|discriminate].
  destruct (Props.octet c2 c3) as [c|] eqn:Ec; [|discriminate].
  destruct (Props.octet c0 c1) as [d|] eqn:Ed; [|discriminate].
  intros [= <-]. unfold Identity.dottedOfHex, Props.dotted.
  change (substring [c0; c1; c2; c3; c4; c5; c6; c7] 6 8) with [c6; c7].
  change (substring [c0; c1; c2; c3; c4; c5; c6; c7] 4 6) with [c4; c5].
  change (substring [c0; c1; c2; c3; c4; c5; c6; c7] 2 4) with [c2; c3].
  change (substring [c0; c1; c2; c3; c4; c5; c6; c7] 0 2) with [c0; c1].
  rewrite (parseInt_octet _ _ _ Ea), (parseInt_octet _ _ _ Eb),
    (parseInt_octet _ _ _ Ec), (parseInt_octet _ _ _ Ed).
  reflexivity.
Qed.



(** The nested loops over interfaces and addresses find the first address, in
    interface order, that is IPv4 and not internal. *)
Lemma scanInterfaces_first (ifaces : list (jsstring * list NetAddr)) :
  Identity.scanInterfaces ifaces =
  option_map address
    (List.find (fun a => eqb (family a) (js "IPv4") && negb (internal a))
       (flat_map snd ifaces)).
Proof.
  induction ifaces as [|[name iface] rest IH]; [reflexivity|].
  cbn [Identity.scanInterfaces flat_map snd].
  induction iface as [|a iface IHa].
  - cbn [Identity.scanAddresses app]. exact IH.
  - cbn [Identity.scanAddresses app List.find].
    destruct (eqb (family a) (js "IPv4") && negb (internal a)); [reflexivity|].
    exact IHa.
Qed.

Lemma getHostIP_scan (fs : FS) (os : OS) (route : jsstring) :
  Identity.readHostFile fs (js "/proc/net/route") (fun _ => ret []) = inr route ->
  Identity.getHostIP fs os =
  inr match (if nonEmpty route then Identity.scanRoutes (lines route) else None) with
      | Some ip => ip
      | None => match Props.firstExternalIPv4 os with
                | Some a => a
                | None => Identity.NOT_AVAILABLE
                end
      end.
Proof.
  intros R. unfold Identity.getHostIP. rewrite R.
  unfold Props.firstExternalIPv4. rewrite <- scanInterfaces_first.
  simpl. destruct (nonEmpty route); simpl.
  - destruct (Identity.scanRoutes (lines route)); simpl; [reflexivity|].
    destruct (Identity.scanInterfaces (networkInterfaces os)); reflexivity.
  - destruct (Identity.scanInterfaces (networkInterfaces os)); reflexivity.
Qed.

(** Without a readable routing table the answer is the first non-internal
    IPv4 address of the process, and the sentinel when there is none. *)
Lemma getHostIP_fallback_examples :
  Identity.getHostIP Fixtures.fsEmpty (Fixtures.mkOS 1000 2) = inr (js "172.17.0.2")
  /\ Identity.getHostIP Fixtures.fsEmpty (Fixtures.isolated (Fixtures.mkOS 1000 2))
     = inr (js "Non disponible").
Proof. split; reflexivity. Qed.


(* ===================================================================== *)
(** ** Facts about numbers *)
(* ===================================================================== *)

Local Open Scope Z_scope.

Lemma shr_1_nonneg (r : shr_record) : 0 <= shr_m r -> 0 <= shr_m (shr_1 r).
Proof.
  destruct r as [m b s]. destruct m as [|[p|p|]|[p|p|]]; simpl; lia.
Qed.

Lemma iter_shr_1_nonneg (p : positive) :
  forall r, 0 <= shr_m r -> 0 <= shr_m (iter_pos shr_1 p r).
Proof.
  induction p as [p IH|p IH|]; intros r H; simpl.
  - apply IH, IH. now apply shr_1_nonneg.
  - now apply IH, IH.
  - now apply shr_1_nonneg.
Qed.

Lemma shr_nonneg (r : shr_record) (e n : Z) :
  0 <= shr_m r -> 0 <= shr_m (fst (shr r e n)).
Proof.
  intros H. destruct n; simpl; auto. now apply iter_shr_1_nonneg.
Qed.

Lemma shr_record_of_loc_m (m : Z) (l : location) : shr_m (shr_record_of_loc m l) = m.
Proof. destruct l as [|[]]; reflexivity. Qed.

Lemma shr_fexp_nonneg (m e : Z) (l : location) :
  0 <= m -> 0 <= shr_m (fst (shr_fexp prec emax m e l)).
Proof.
  intros H. unfold shr_fexp. apply shr_nonneg. now rewrite shr_record_of_loc_m.
Qed.

Lemma round_nearest_even_nonneg (m : Z) (l : location) :
  0 <= m -> 0 <= round_nearest_even m l.
Proof.
  intros H. destruct l as [|[]]; simpl; try lia. destruct (Z.even m); lia.
Qed.

(** Rounding a non-negative mantissa never yields NaN and keeps the sign. *)
Lemma binary_round_aux_hasSign (sx : bool) (mx ex : Z) (lx : location) :
  0 <= mx -> Props.hasSign sx (binary_round_aux prec emax sx mx ex lx).
Proof.
  intros H. unfold binary_round_aux.
  pose proof (shr_fexp_nonneg mx ex lx H) as H1.
  destruct (shr_fexp prec emax mx ex lx) as [mrs' e']. simpl in H1.
  pose proof (shr_fexp_nonneg _ e' loc_Exact
                (round_nearest_even_nonneg _ (loc_of_shr_record mrs') H1)) as H2.
  destruct (shr_fexp prec emax _ e' loc_Exact) as [mrs'' e'']. simpl in H2.
  unfold Props.hasSign.
  destruct (shr_m mrs'') as [|m|m]; [reflexivity| |lia].
  destruct (e'' <=? emax - prec); reflexivity.
Qed.

Lemma binary_round_hasSign (sx : bool) (m : positive) (e : Z) :
  Props.hasSign sx (binary_round prec emax sx m e).
Proof.
  unfold binary_round. destruct (shl_align m e _) as [mz ez].
  apply binary_round_aux_hasSign. lia.
Qed.

Lemma ofZ_hasSign (z : Z) : 0 <= z -> Props.hasSign false (ofZ z).
Proof.
  intros H. unfold ofZ, binary_normalize. destruct z; [exact eq_refl| |lia].
  apply binary_round_hasSign.
Qed.

(** [x || 0] leaves the number of a natural as it is. *)
Lemma orElse_ofZ (z : Z) : 0 <= z -> orElse (ofZ z) zero = ofZ z.
Proof.
  intros H. pose proof (ofZ_hasSign z H) as S. unfold orElse.
  destruct (ofZ z) as [s|s| |s m e]; simpl in *; subst; try reflexivity; contradiction.
Qed.

Lemma add_comm (x y : number) : add x y = add y x.
Proof.
  unfold add.
  destruct x as [[]|[]| |sx mx ex], y as [[]|[]| |sy my ey]; try reflexivity.
  simpl. rewrite (Z.min_comm ey ex). f_equal. apply Z.add_comm.
Qed.

(* ===================================================================== *)
(** ** Rounding *)
(* ===================================================================== *)

Lemma digits2_pos_size (p : positive) : digits2_pos p = Pos.size p.
Proof. induction p; simpl; congruence. Qed.

Lemma digits_log2 (p : positive) : Zpos (digits2_pos p) = Z.log2 (Zpos p) + 1.
Proof. rewrite digits2_pos_size. destruct p; simpl; lia. Qed.

Lemma Zdigits2_log2 (m : Z) : 0 < m -> Zdigits2 m = Z.log2 m + 1.
Proof. destruct m; try lia. intros _. apply digits_log2. Qed.

Lemma shr_1_half (r : shr_record) : 0 <= shr_m r -> shr_m (shr_1 r) = shr_m r / 2.
Proof.
  destruct r as [m b s]. destruct m as [|p|p]; intros H; try (simpl in H; lia).
  - reflexivity.
  - rewrite <- Z.div2_div. destruct p; reflexivity.
Qed.

Lemma div_pow2_twice (a x y : Z) :
  0 <= x -> 0 <= y -> a / 2 ^ x / 2 ^ y = a / 2 ^ (x + y).
Proof.
  intros X Y. rewrite Z.pow_add_r by assumption.
  apply Z.div_div; [apply Z.pow_nonzero; lia | apply Z.pow_pos_nonneg; lia].
Qed.

Lemma iter_shr_1_div (p : positive) :
  forall r, 0 <= shr_m r -> shr_m (iter_pos shr_1 p r) = shr_m r / 2 ^ Zpos p.
Proof.
  induction p as [p IH|p IH|]; intros r H; cbn [iter_pos].
  - rewrite IH, IH, shr_1_half by
      (try apply iter_shr_1_nonneg; try apply shr_1_nonneg; assumption).
    change (shr_m r / 2) with (shr_m r / 2 ^ 1).
    rewrite !div_pow2_twice by lia. f_equal. f_equal. lia.
  - rewrite IH, IH by (try apply iter_shr_1_nonneg; assumption).
    rewrite !div_pow2_twice by lia. f_equal. f_equal. lia.
  - rewrite shr_1_half by assumption. reflexivity.
Qed.

(** Shifting a mantissa right: the exponent moves up by the shift and the
    mantissa is divided by the matching power of two. *)
Lemma shr_spec (r : shr_record) (e n : Z) :
  0 <= shr_m r ->
  shr_m (fst (shr r e n)) = shr_m r / 2 ^ Z.max 0 n /\
  snd (shr r e n) = e + Z.max 0 n.
Proof.
  intros H. destruct n as [|p|p]; cbn [shr fst snd].
  - change (Z.max 0 0) with 0. rewrite Z.div_1_r. lia.
  - replace (Z.max 0 (Zpos p)) with (Zpos p) by lia.
    split; [now apply iter_shr_1_div | reflexivity].
  - replace (Z.max 0 (Zneg p)) with 0 by lia. rewrite Z.div_1_r. lia.
Qed.


Lemma shr_fexp_spec (m e : Z) (l : location) :
  0 <= m ->
  shr_m (fst (shr_fexp prec emax m e l)) = m / 2 ^ Props.shift m e /\
  snd (shr_fexp prec emax m e l) = e + Props.shift m e.
Proof.
  intros H. unfold shr_fexp, Props.shift.
  pose proof (shr_spec (shr_record_of_loc m l) e
                (fexp prec emax (Zdigits2 m + e) - e)) as S.
  rewrite shr_record_of_loc_m in S. now apply S.
Qed.

Lemma fexp_unfold (x : Z) : fexp prec emax x = Z.max (x - 53) (-1074).
Proof. reflexivity. Qed.

Lemma log2_pow2_le (m : Z) : 0 < m -> 2 ^ Z.log2 m <= m < 2 ^ (Z.log2 m + 1).
Proof. intros H. apply (Z.log2_spec m H). Qed.

Lemma shift_nonneg (m e : Z) : 0 <= Props.shift m e.
Proof. unfold Props.shift. lia. Qed.

Lemma div_pow2_positive (m n : Z) :
  0 < m -> 0 <= n -> n <= Z.log2 m -> 0 < m / 2 ^ n.
Proof.
  intros M N L. apply Z.div_str_pos. split; [apply Z.pow_pos_nonneg; lia|].
  apply Z.le_trans with (2 ^ Z.log2 m); [|apply (log2_pow2_le m M)].
  apply Z.pow_le_mono_r; [lia | exact L].
Qed.

(** A positive mantissa at an exponent not below [emin] stays positive under
    the shift that rounding applies. *)
Lemma shift_keeps_positive (m e : Z) :
  0 < m -> -1074 <= e -> 0 < m / 2 ^ Props.shift m e.
Proof.
  intros M E. apply div_pow2_positive; [exact M | apply shift_nonneg|].
  unfold Props.shift. rewrite fexp_unfold, (Zdigits2_log2 m M).
  pose proof (Z.log2_nonneg m). lia.
Qed.

Lemma log2_div_pow2 (m n : Z) :
  0 < m -> 0 <= n -> n <= Z.log2 m -> Z.log2 (m / 2 ^ n) = Z.log2 m - n.
Proof.
  intros M N L. rewrite <- Z.shiftr_div_pow2 by assumption.
  rewrite Z.log2_shiftr by assumption. lia.
Qed.

(** After the shift the exponent is the canonical one of the original value,
    and the shifted mantissa, when it is positive, is canonical at it. *)
Lemma shift_canonical (m e : Z) :
  0 < m -> e <= fexp prec emax (Zdigits2 m + e) ->
  e + Props.shift m e = fexp prec emax (Zdigits2 m + e) /\
  (m / 2 ^ Props.shift m e = 0 -> e + Props.shift m e = -1074) /\
  (0 < m / 2 ^ Props.shift m e ->
   fexp prec emax (Zdigits2 (m / 2 ^ Props.shift m e) + (e + Props.shift m e)) = e + Props.shift m e).
Proof.
  intros M P.
  assert (E : e + Props.shift m e = fexp prec emax (Zdigits2 m + e)) by (unfold Props.shift; lia).
  split; [exact E|]. rewrite ?fexp_unfold, (Zdigits2_log2 m M) in *.
  pose proof (Z.log2_nonneg m) as L0. split.
  - intros Z0. destruct (Z_le_gt_dec (Props.shift m e) (Z.log2 m)) as [L|L]; [|lia].
    pose proof (div_pow2_positive m _ M (shift_nonneg m e) L). lia.
  - intros Q. assert (L : Props.shift m e <= Z.log2 m).
    { destruct (Z_le_gt_dec (Props.shift m e) (Z.log2 m)) as [L|L]; [exact L|].
      exfalso. rewrite Z.div_small in Q; [lia|]. split; [lia|].
      apply Z.lt_le_trans with (2 ^ (Z.log2 m + 1)); [apply (log2_pow2_le m M)|].
      apply Z.pow_le_mono_r; lia. }
    rewrite (Zdigits2_log2 _ Q), ?fexp_unfold,
      (log2_div_pow2 m (Props.shift m e) M (shift_nonneg m e) L). lia.
Qed.

(** One shift of [binary_round_aux]: name its record and exponent and say what
    they are. *)
Ltac open_shr_fexp m e l S E r e' :=
  destruct (shr_fexp_spec m e l) as [S E]; [lia|];
  destruct (shr_fexp prec emax m e l) as [r e']; cbn [fst snd] in S, E.

Lemma round_nearest_even_bounds (m : Z) (l : location) :
  m <= round_nearest_even m l <= m + 1.
Proof. destruct l as [|[]]; simpl; try lia. destruct (Z.even m); lia. Qed.

Lemma fexp_monotone (x y : Z) : x <= y -> fexp prec emax x <= fexp prec emax y.
Proof. intros H. rewrite !fexp_unfold. lia. Qed.

Lemma fexp_lower (x : Z) : -1074 <= fexp prec emax x.
Proof. rewrite fexp_unfold. lia. Qed.

Lemma Zdigits2_monotone (x y : Z) : 0 < x -> x <= y -> Zdigits2 x <= Zdigits2 y.
Proof.
  intros X Y. rewrite !Zdigits2_log2 by lia.
  pose proof (Z.log2_le_mono x y Y). lia.
Qed.

(** A rounded float is a valid binary64 value when the rounding starts from a
    positive mantissa whose exponent is not above the canonical one. *)
Lemma binary_round_aux_valid (sx : bool) (m e : Z) (l : location) :
  0 < m -> e <= fexp prec emax (Zdigits2 m + e) ->
  valid_binary prec emax (binary_round_aux prec emax sx m e l) = true.
Proof.
  intros M P. unfold binary_round_aux.
  open_shr_fexp m e l S1 E1 r1 e1.
  destruct (shift_canonical m e M P) as (C1 & C2 & C3).
  rewrite <- S1, <- E1 in C2, C3. rewrite <- E1 in C1.
  assert (N1 : 0 <= shr_m r1).
  { rewrite S1. apply Z.div_pos; [lia | apply Z.pow_pos_nonneg; [lia|apply shift_nonneg]]. }
  pose proof (round_nearest_even_bounds (shr_m r1) (loc_of_shr_record r1)) as B.
  set (m2 := round_nearest_even (shr_m r1) (loc_of_shr_record r1)) in *.
  open_shr_fexp m2 e1 loc_Exact S2 E2 r2 e2.
  destruct (Z.eq_dec m2 0) as [Z2|Z2].
  - rewrite Z2 in S2. rewrite Z.div_0_l in S2
      by (apply Z.pow_nonzero; [lia | apply shift_nonneg]).
    rewrite S2. reflexivity.
  - assert (M2 : 0 < m2) by lia.
    assert (P2 : e1 <= fexp prec emax (Zdigits2 m2 + e1)).
    { destruct (Z.eq_dec (shr_m r1) 0) as [Z1|Z1].
      - rewrite (C2 Z1). apply fexp_lower.
      - rewrite <- C3 at 1 by lia. apply fexp_monotone.
        pose proof (Zdigits2_monotone (shr_m r1) m2). lia. }
    destruct (shift_canonical m2 e1 M2 P2) as (_ & _ & C4).
    rewrite <- S2, <- E2 in C4.
    assert (Q : 0 < shr_m r2).
    { rewrite S2. apply shift_keeps_positive; [exact M2|].
      rewrite C1. apply fexp_lower. }
    specialize (C4 Q).
    destruct (shr_m r2) as [|p|p] eqn:R2; try lia.
    destruct (e2 <=? emax - prec) eqn:L; [|reflexivity].
    cbn [valid_binary]. unfold bounded, canonical_mantissa.
    rewrite L, andb_true_r. apply Z.eqb_eq. exact C4.
Qed.

Lemma shl_align_spec (m : positive) (e e' : Z) :
  Zpos (fst (shl_align m e e')) = Zpos m * 2 ^ (e - Z.min e e') /\
  snd (shl_align m e e') = Z.min e e'.
Proof.
  unfold shl_align. destruct (e' - e) as [|d|d] eqn:D; cbn [fst snd].
  - replace (Z.min e e') with e by lia. rewrite Z.sub_diag. lia.
  - replace (Z.min e e') with e by lia. rewrite Z.sub_diag. lia.
  - replace (Z.min e e') with e' by lia.
    replace (e - e') with (Zpos d) by lia.
    change (Pos.iter xO m d) with (shift_pos d m).
    rewrite shift_pos_correct. change (Z.pow_pos 2 d) with (2 ^ Zpos d). lia.
Qed.

Lemma Zdigits2_mul_pow2 (m k : Z) :
  0 < m -> 0 <= k -> Zdigits2 (m * 2 ^ k) = Zdigits2 m + k.
Proof.
  intros M K.
  assert (0 < m * 2 ^ k) by (apply Z.mul_pos_pos; [lia | apply Z.pow_pos_nonneg; lia]).
  rewrite !Zdigits2_log2 by assumption. rewrite Z.log2_mul_pow2 by assumption. lia.
Qed.

Lemma binary_round_valid (sx : bool) (m : positive) (e : Z) :
  valid_binary prec emax (binary_round prec emax sx m e) = true.
Proof.
  unfold binary_round.
  destruct (shl_align_spec m e (fexp prec emax (Zpos (digits2_pos m) + e))) as [A B].
  destruct (shl_align m e _) as [mz ez]. cbn [fst snd] in A, B.
  apply binary_round_aux_valid; [lia|].
  rewrite A, Zdigits2_mul_pow2 by lia.
  change (Zdigits2 (Zpos m)) with (Zpos (digits2_pos m)).
  set (f := fexp prec emax (Zpos (digits2_pos m) + e)) in *.
  replace (Zpos (digits2_pos m) + (e - Z.min e f) + ez)
    with (Zpos (digits2_pos m) + e) by lia.
  fold f. lia.
Qed.

Lemma ofZ_valid (z : Z) : Props.valid (ofZ z).
Proof.
  unfold Props.valid, ofZ, binary_normalize. destruct z; [reflexivity| |]; apply binary_round_valid.
Qed.


Lemma binary_round_aux_nonzero (sx : bool) (m e : Z) (l : location) :
  0 < m -> -1074 <= e ->
  Props.nonzeroWithSign sx (binary_round_aux prec emax sx m e l).
Proof.
  intros M E. unfold binary_round_aux.
  open_shr_fexp m e l S1 E1 r1 e1.
  pose proof (shift_keeps_positive m e M E) as Q1. rewrite <- S1 in Q1.
  pose proof (shift_nonneg m e) as N1.
  pose proof (round_nearest_even_bounds (shr_m r1) (loc_of_shr_record r1)) as B.
  set (m2 := round_nearest_even (shr_m r1) (loc_of_shr_record r1)) in *.
  open_shr_fexp m2 e1 loc_Exact S2 E2 r2 e2.
  assert (Q2 : 0 < shr_m r2).
  { rewrite S2. apply shift_keeps_positive; lia. }
  destruct (shr_m r2) as [|p|p]; try lia.
  destruct (e2 <=? emax - prec); reflexivity.
Qed.

Lemma binary_round_nonzero (sx : bool) (m : positive) (e : Z) :
  -1074 <= e -> Props.nonzeroWithSign sx (binary_round prec emax sx m e).
Proof.
  intros E. unfold binary_round.
  destruct (shl_align_spec m e (fexp prec emax (Zpos (digits2_pos m) + e))) as [A B].
  destruct (shl_align m e _) as [mz ez]. cbn [fst snd] in A, B.
  apply binary_round_aux_nonzero; [lia|].
  pose proof (fexp_lower (Zpos (digits2_pos m) + e)). lia.
Qed.

Lemma canonical_bounds (m : positive) (e : Z) :
  canonical_mantissa prec emax m e = true ->
  -1074 <= e /\ Zpos m < 2 ^ 53 /\ (-1074 < e -> 2 ^ 52 <= Zpos m).
Proof.
  unfold canonical_mantissa. intros C. apply Z.eqb_eq in C.
  rewrite fexp_unfold, digits_log2 in C.
  split; [lia|]. split.
  - apply Z.log2_lt_pow2; lia.
  - intros E. apply Z.log2_le_pow2; lia.
Qed.

Lemma valid_finite (s : bool) (m : positive) (e : Z) :
  valid_binary prec emax (S754_finite s m e) = true ->
  canonical_mantissa prec emax m e = true.
Proof.
  cbn [valid_binary]. unfold bounded. intros H.
  now apply andb_true_iff in H as [H _].
Qed.

(** Of two canonical mantissas, the one with the smaller exponent is the
    smaller number. *)
Lemma aligned_lt (m1 m2 : positive) (e1 e2 : Z) :
  canonical_mantissa prec emax m1 e1 = true ->
  canonical_mantissa prec emax m2 e2 = true ->
  e1 < e2 ->
  Zpos (fst (shl_align m1 e1 (Z.min e1 e2))) < Zpos (fst (shl_align m2 e2 (Z.min e1 e2))).
Proof.
  intros C1 C2 L.
  destruct (canonical_bounds _ _ C1) as (E1 & U1 & _).
  destruct (canonical_bounds _ _ C2) as (_ & _ & L2).
  destruct (shl_align_spec m1 e1 (Z.min e1 e2)) as [A1 _].
  destruct (shl_align_spec m2 e2 (Z.min e1 e2)) as [A2 _].
  rewrite A1, A2. replace (Z.min e1 (Z.min e1 e2)) with e1 by lia.
  replace (Z.min e2 (Z.min e1 e2)) with e1 by lia.
  rewrite Z.sub_diag, Z.mul_1_r.
  assert (2 ^ 1 <= 2 ^ (e2 - e1)) by (apply Z.pow_le_mono_r; lia).
  specialize (L2 ltac:(lia)).
  apply Z.lt_le_trans with (2 ^ 52 * 2 ^ 1); [exact U1|].
  apply Z.mul_le_mono_nonneg; lia.
Qed.

Lemma aligned_same (m : positive) (e : Z) :
  fst (shl_align m e (Z.min e e)) = m.
Proof. unfold shl_align. rewrite Z.min_id, Z.sub_diag. reflexivity. Qed.

Lemma mul_valid (x y : number) :
  Props.valid x -> Props.valid y -> Props.valid (mul x y).
Proof.
  unfold Props.valid. intros X Y. unfold mul.
  destruct x as [sx|sx| |sx mx ex], y as [sy|sy| |sy my ey]; try reflexivity.
  cbn [SFmul]. apply binary_round_aux_valid; [lia|].
  apply valid_finite in X, Y. unfold canonical_mantissa in X, Y.
  apply Z.eqb_eq in X, Y. rewrite fexp_unfold, digits_log2 in X, Y.
  rewrite fexp_unfold, Zdigits2_log2 by lia. rewrite Pos2Z.inj_mul.
  pose proof (Z.log2_mul_below (Zpos mx) (Zpos my)).
  pose proof (Z.log2_nonneg (Zpos mx)). pose proof (Z.log2_nonneg (Zpos my)).
  lia.
Qed.

Lemma binary_normalize_valid (z e : Z) (s : bool) :
  valid_binary prec emax (binary_normalize prec emax z e s) = true.
Proof. destruct z; [reflexivity| |]; apply binary_round_valid. Qed.

Lemma lt_nonzeroWithSign (x : number) :
  Props.nonzeroWithSign true x -> lt x zero = true.
Proof. destruct x as [s|s| |s m e]; cbn; intros H; subst; try reflexivity; contradiction. Qed.

(** The difference of two valid numbers is negative when the first is below
    the second: a difference is never rounded to zero. *)
Lemma sub_negative (t a : number) :
  Props.valid t -> Props.valid a ->
  lt t a = true -> lt (sub t a) zero = true.
Proof.
  unfold Props.valid. intros VT VA L. apply lt_nonzeroWithSign.
  destruct t as [st|st| |st mt et], a as [sa|sa| |sa ma ea];
    try (destruct st; discriminate L);
    try (destruct sa; discriminate L);
    try (destruct st, sa; try discriminate L; reflexivity);
    try discriminate L.
  apply valid_finite in VT, VA.
  destruct (canonical_bounds _ _ VT) as (ET & _).
  destruct (canonical_bounds _ _ VA) as (EA & _).
  unfold sub. cbn [SFsub].
  set (Mt := fst (shl_align mt et (Z.min et ea))).
  set (Ma := fst (shl_align ma ea (Z.min et ea))).
  assert (N : cond_Zopp st (Zpos Mt) - cond_Zopp sa (Zpos Ma) < 0).
  { unfold lt, SFltb in L. cbn [SFcompare] in L.
    destruct st, sa; cbn [cond_Zopp]; try discriminate L; try lia.
    - destruct (Z.compare_spec et ea) as [E|E|E]; try discriminate L.
      + subst ea. unfold Mt, Ma. rewrite !aligned_same.
        destruct (Pos.compare_cont Eq mt ma) eqn:C; try discriminate L.
        assert (H : (ma < mt)%positive) by (apply Pos.compare_gt_iff; exact C).
        apply Pos2Z.pos_lt_pos in H. lia.
      + pose proof (aligned_lt ma mt ea et VA VT E) as A.
        rewrite (Z.min_comm ea et) in A. fold Mt Ma in A. lia.
    - destruct (Z.compare_spec et ea) as [E|E|E]; try discriminate L.
      + subst ea. unfold Mt, Ma. rewrite !aligned_same.
        destruct (Pos.compare_cont Eq mt ma) eqn:C; try discriminate L.
        pose proof (Pos2Z.pos_lt_pos mt ma C). lia.
      + pose proof (aligned_lt mt ma et ea VT VA E) as A. fold Mt Ma in A. lia. }
  destruct (cond_Zopp st (Zpos Mt) - cond_Zopp sa (Zpos Ma)) as [|p|p] eqn:D; try lia.
  cbn [binary_normalize]. apply binary_round_nonzero. lia.
Qed.

(* ===================================================================== *)
(** ** Order of numbers *)
(* ===================================================================== *)


Lemma SFcompare_antisym (x y : number) :
  SFcompare y x = option_map CompOpp (SFcompare x y).
Proof.
  destruct x as [sx|sx| |sx mx ex], y as [sy|sy| |sy my ey]; cbn;
    try reflexivity; try (destruct sx; reflexivity); try (destruct sy; reflexivity);
    try (destruct sx, sy; reflexivity).
  destruct sx, sy; try reflexivity; f_equal.
  - rewrite (Z.compare_antisym ex ey).
    destruct (ex ?= ey); cbn; try reflexivity.
    rewrite (Pos.compare_cont_antisym mx my Eq). reflexivity.
  - rewrite (Z.compare_antisym ex ey).
    destruct (ex ?= ey); cbn; try reflexivity.
    rewrite (Pos.compare_cont_antisym mx my Eq). reflexivity.
Qed.

(** When neither number is NaN, [y < x] failing means [x <= y]. *)
Lemma not_lt_le (x y : number) :
  isNaN x = false -> isNaN y = false -> lt y x = false -> le x y = true.
Proof.
  intros X Y. unfold lt, le, SFltb, SFleb. rewrite (SFcompare_antisym x y).
  destruct x as [sx|sx| |sx mx ex], y as [sy|sy| |sy my ey]; try discriminate;
    destruct (SFcompare _ _) as [[]|] eqn:C; cbn; try reflexivity; try discriminate;
    cbn in C; try discriminate C; destruct sx; try destruct sy; discriminate C.
Qed.

(** Clamping hands NaN through and puts every other number into [0, 100]. *)
Lemma clamp_range (x : number) :
  (isNaN x = true /\ Props.clamp x = NaN) \/
  (isNaN x = false /\ le zero (Props.clamp x) = true /\
   le (Props.clamp x) (ofZ 100) = true).
Proof.
  destruct x as [[]|[]| |[] m e]; try (right; repeat split; reflexivity);
    try (left; split; reflexivity).
  right. split; [reflexivity|].
  unfold Props.clamp.
  change (Math_max (S754_finite false m e) zero) with (S754_finite false m e).
  unfold Math_min. cbn [isNaN orb].
  change (ofZ 100) with (S754_finite false 7036874417766400 (-46)).
  cbv iota.
  destruct (lt (S754_finite false 7036874417766400 (-46)) (S754_finite false m e)) eqn:L.
  - split; reflexivity.
  - split; [reflexivity|]. now apply not_lt_le.
Qed.

(* ===================================================================== *)
(** ** Numerals *)
(* ===================================================================== *)

Lemma digitParsed_all : forallb Props.digitParsed (map N.of_nat (seq 0 128)) = true.
Proof. vm_compute. reflexivity. Qed.

Lemma isDigit_ascii (c : char) : isDigit c = true -> (c < 128)%N.
Proof.
  unfold isDigit. rewrite andb_true_iff, !N.leb_le. lia.
Qed.

Lemma digit_facts (c : char) :
  isDigit c = true ->
  isWhiteSpace c = false /\ isChar "-" c = false /\ isChar "+" c = false /\
  isChar "x" c = false /\ isChar "X" c = false /\ isChar "I" c = false /\
  radixDigit 10 c = Some (digitVal c) /\ 0 <= digitVal c.
Proof.
  intros D. pose proof (ascii_units_cases _ digitParsed_all c (isDigit_ascii c D)) as H.
  unfold Props.digitParsed in H. rewrite D in H. cbn [implb] in H.
  destruct (radixDigit 10 c) as [v|] eqn:R; [|now rewrite andb_false_r in H].
  rewrite !andb_true_iff, !negb_true_iff, Z.eqb_eq, Z.leb_le in H.
  destruct H as ((((((W & M) & P) & X1) & X2) & I) & E & V). subst v.
  repeat split; assumption.
Qed.

Lemma takeWhile_all (p : char -> bool) (s : jsstring) :
  forallb p s = true -> takeWhile p s = s.
Proof.
  induction s as [|c s IH]; simpl; [reflexivity|].
  intros H. apply andb_true_iff in H as [-> H]. now rewrite IH.
Qed.

Lemma dropWhile_all (p : char -> bool) (s : jsstring) :
  forallb p s = true -> dropWhile p s = [].
Proof.
  induction s as [|c s IH]; simpl; [reflexivity|].
  intros H. apply andb_true_iff in H as [-> H]. now apply IH.
Qed.

Lemma decvalAcc_nonneg (ds : jsstring) :
  forall acc, 0 <= acc -> forallb isDigit ds = true -> 0 <= decvalAcc acc ds.
Proof.
  induction ds as [|d ds IH]; intros acc A H; cbn [decvalAcc]; [assumption|].
  cbn [forallb] in H. apply andb_true_iff in H as [D H].
  apply IH; [|assumption].
  destruct (digit_facts d D) as (_ & _ & _ & _ & _ & _ & _ & V). lia.
Qed.

Lemma decval_nonneg (ds : jsstring) : forallb isDigit ds = true -> 0 <= decval ds.
Proof. apply decvalAcc_nonneg. lia. Qed.

Lemma radixValAcc_digits (ds : jsstring) :
  forall acc, forallb isDigit ds = true ->
              radixValAcc 10 (Some acc) ds = Some (decvalAcc acc ds).
Proof.
  induction ds as [|d ds IH]; intros acc H; cbn [radixValAcc decvalAcc];
    [reflexivity|].
  cbn [forallb] in H. apply andb_true_iff in H as [D H].
  destruct (digit_facts d D) as (_ & _ & _ & _ & _ & _ & R & _).
  rewrite R. now apply IH.
Qed.

Lemma startsWith_first (a : ascii) (rest : string) (d : char) (s : jsstring) :
  isChar a d = false -> startsWith (d :: s) (js (String a rest)) = false.
Proof.
  intros H. unfold isChar in H.
  change (js (String a rest)) with (N_of_ascii a :: js rest).
  cbn [startsWith]. now rewrite N.eqb_sym, H.
Qed.

Lemma startsWith_second (a b : ascii) (d : char) (s : jsstring) :
  (forall d' r, s = d' :: r -> isChar b d' = false) ->
  startsWith (d :: s) (js (String a (String b EmptyString))) = false.
Proof.
  intros H.
  change (js (String a (String b EmptyString))) with [N_of_ascii a; N_of_ascii b].
  destruct s as [|d' r]; cbn [startsWith]; [apply andb_false_r|].
  specialize (H d' r eq_refl). unfold isChar in H.
  rewrite (N.eqb_sym (N_of_ascii b)), H. apply andb_false_r.
Qed.

(** [parseInt] of a numeral is the number nearest to its value. *)
Lemma parseInt_numeral (ds : jsstring) :
  Props.isNumeral ds -> parseInt ds 0 = ofZ (decval ds).
Proof.
  intros [NE H]. destruct ds as [|d ds]; [congruence|].
  pose proof H as H'. simpl in H'. apply andb_true_iff in H' as [D Hds].
  destruct (digit_facts d D) as (W & M & P & X1 & X2 & _ & R & V).
  unfold parseInt, parseIntMath.
  assert (T : trimStart (d :: ds) = d :: ds) by (simpl; now rewrite W).
  rewrite T. unfold readSign. rewrite M, P.
  assert (S0 : startsWith (d :: ds) (js "0x") = false).
  { apply startsWith_second. intros d' r E. subst ds.
    cbn [forallb] in Hds. apply andb_true_iff in Hds as [D' _].
    now destruct (digit_facts d' D') as (_ & _ & _ & X & _). }
  assert (S1 : startsWith (d :: ds) (js "0X") = false).
  { apply startsWith_second. intros d' r E. subst ds.
    cbn [forallb] in Hds. apply andb_true_iff in Hds as [D' _].
    now destruct (digit_facts d' D') as (_ & _ & _ & _ & X & _). }
  rewrite S0, S1. cbn [Z.eqb negb andb orb].
  cbn [radixValAcc]. rewrite R. rewrite (radixValAcc_digits ds _ Hds).
  change (decvalAcc (10 * 0 + digitVal d) ds) with (decval (d :: ds)).
  destruct (Z.eqb_spec (decval (d :: ds)) 0) as [E|E]; [now rewrite E|].
  reflexivity.
Qed.

(** [parseFloat] of a numeral is the number nearest to its value. *)
Lemma parseFloat_numeral (ds : jsstring) :
  Props.isNumeral ds -> parseFloat ds = ofZ (decval ds).
Proof.
  intros [NE H]. destruct ds as [|d ds]; [congruence|].
  pose proof H as H'. simpl in H'. apply andb_true_iff in H' as [D Hds].
  destruct (digit_facts d D) as (W & M & P & _ & _ & I & _ & _).
  unfold parseFloat.
  assert (T : trimStart (d :: ds) = d :: ds) by (simpl; now rewrite W).
  rewrite T. unfold readSign. rewrite M, P.
  assert (S0 : startsWith (d :: ds) (js "Infinity") = false).
  { apply (startsWith_first "I"). exact I. }
  rewrite S0. unfold span. rewrite (takeWhile_all _ _ H), (dropWhile_all _ _ H).
  rewrite app_nil_r. cbn [readExponent JS.length List.length Z.of_nat Z.sub].
  unfold ofDecimal. cbn [Z.leb Z.compare Z.pow Z.pow_pos Pos.iter].
  destruct (Z.eqb_spec (decval (d :: ds)) 0) as [E|E]; [now rewrite E|].
  cbn [cond_Zopp]. now rewrite Z.mul_1_r.
Qed.

Lemma uintUnits_digits (u : Decimal.uint) : forallb isDigit (uintUnits u) = true.
Proof. induction u; simpl; auto. Qed.

Lemma decvalAcc_uint (u : Decimal.uint) :
  forall acc : positive,
    decvalAcc (Zpos acc) (uintUnits u) = Zpos (Pos.of_uint_acc u acc).
Proof.
  induction u; intros acc; cbn [uintUnits decvalAcc Pos.of_uint_acc];
    try reflexivity;
    match goal with
    | |- decvalAcc ?a _ = Zpos (Pos.of_uint_acc _ ?b) =>
        replace a with (Zpos b) by (unfold digitVal; simpl Z.of_N; lia)
    end; apply IHu.
Qed.

Lemma decval_uint (u : Decimal.uint) :
  decval (uintUnits u) = Z.of_N (Pos.of_uint u).
Proof.
  unfold decval.
  induction u; cbn [uintUnits decvalAcc Pos.of_uint]; try reflexivity;
    try exact IHu;
    match goal with
    | |- decvalAcc ?a _ = Z.of_N (Npos (Pos.of_uint_acc _ ?b)) =>
        change a with (Zpos b)
    end; apply decvalAcc_uint.
Qed.

(** Printing a natural and reading it back. *)
Lemma decval_decimal (z : Z) : 0 <= z -> decval (decimal z) = z.
Proof.
  intros H. destruct z as [|p|p]; [reflexivity| |lia].
  unfold decimal. rewrite decval_uint, DecimalPos.Unsigned.of_to. reflexivity.
Qed.

Lemma decimal_numeral (z : Z) : 0 <= z -> Props.isNumeral (decimal z).
Proof.
  intros H. destruct z as [|p|p]; [split; [discriminate | reflexivity]| |lia].
  split; [|apply uintUnits_digits]. unfold decimal.
  pose proof (DecimalPos.Unsigned.to_uint_nonnil p) as N.
  destruct (Pos.to_uint p); simpl; congruence.
Qed.

Lemma parseFloat_decimal (z : Z) : 0 <= z -> parseFloat (decimal z) = ofZ z.
Proof.
  intros H. rewrite parseFloat_numeral by now apply decimal_numeral.
  now rewrite decval_decimal.
Qed.

Lemma parseInt_decimal (z : Z) : 0 <= z -> parseInt (decimal z) 0 = ofZ z.
Proof.
  intros H. rewrite parseInt_numeral by now apply decimal_numeral.
  now rewrite decval_decimal.
Qed.

(* ===================================================================== *)
(** ** Lines of a document *)
(* ===================================================================== *)

Lemma find_first {A} (p : A -> bool) (pre post : list A) (x : A) :
  p x = true -> (forall y, In y pre -> p y = false) ->
  List.find p (pre ++ x :: post) = Some x.
Proof.
  intros Hx Hpre. induction pre as [|y pre IH]; simpl.
  - now rewrite Hx.
  - rewrite (Hpre y) by (now left). apply IH. intros z Hz. apply Hpre. now right.
Qed.

Lemma find_none {A} (p : A -> bool) (l : list A) :
  (forall y, In y l -> p y = false) -> List.find p l = None.
Proof.
  induction l as [|y l IH]; intros H; simpl; [reflexivity|].
  rewrite (H y) by (now left). apply IH. intros z Hz. apply H. now right.
Qed.

Lemma firstLine_find (prefix doc line : jsstring) :
  Props.firstLine prefix doc line ->
  find (fun l => startsWith l prefix) (lines doc) = Some line.
Proof.
  intros (pre & post & L & S & P). unfold find. rewrite L. now apply find_first.
Qed.

Lemma noLine_find (prefix doc : jsstring) :
  Props.noLine prefix doc ->
  find (fun l => startsWith l prefix) (lines doc) = None.
Proof. intros H. unfold find. now apply find_none. Qed.

(** A document with a non-empty line is not empty. *)
Lemma firstLine_nonEmpty (prefix doc line : jsstring) :
  Props.firstLine prefix doc line -> line <> [] -> nonEmpty doc = true.
Proof.
  intros (pre & post & L & _) NE. destruct doc; [|reflexivity].
  exfalso. destruct pre as [|x [|y pre]]; simpl in L; try discriminate.
  injection L as <- _. congruence.
Qed.

Lemma whiteSpace_not_digit (c : char) : isWhiteSpace c = true -> isDigit c = false.
Proof.
  intros W. destruct (isDigit c) eqn:D; [|reflexivity].
  destruct (digit_facts c D) as (W' & _). congruence.
Qed.

Lemma matchDigits_skip (pre s : jsstring) :
  forallb (fun c => negb (isDigit c)) pre = true ->
  matchDigits (pre ++ s) = matchDigits s.
Proof.
  intros H. unfold matchDigits. f_equal.
  induction pre as [|c pre IH]; [reflexivity|]. simpl in *.
  apply andb_true_iff in H as [-> H]. now apply IH.
Qed.

(** The first run of digits of a line that spells a number after text without
    digits, and goes on with a unit that is not a digit. *)
Lemma matchDigits_numeral (ds : jsstring) (c : char) (post : jsstring) :
  Props.isNumeral ds -> isDigit c = false ->
  matchDigits (ds ++ c :: post) = Some ds.
Proof.
  intros [NE H] C. destruct ds as [|d ds]; [congruence|].
  unfold matchDigits. cbn [forallb] in H. apply andb_true_iff in H as [D H].
  cbn [app dropWhile]. rewrite D. cbn [negb takeWhile]. rewrite D. f_equal. f_equal.
  induction ds as [|d' ds IH]; cbn [app takeWhile forallb] in *.
  - now rewrite C.
  - apply andb_true_iff in H as [-> H]. f_equal. apply IH; [discriminate | assumption].
Qed.

Lemma matchDigits_memLine (label pad : jsstring) (kB : Z) :
  forallb (fun c => negb (isDigit c)) label = true ->
  Props.blank pad -> 0 <= kB ->
  matchDigits (Props.memLine label pad kB) = Some (decimal kB).
Proof.
  intros L B K. unfold Props.memLine.
  rewrite matchDigits_skip by assumption.
  change (js ":" ++ pad ++ decimal kB ++ js " kB")
    with ((58%N :: pad) ++ decimal kB ++ 32%N :: js "kB").
  rewrite matchDigits_skip.
  - apply matchDigits_numeral; [now apply decimal_numeral | reflexivity].
  - cbn [forallb]. apply andb_true_iff. split; [reflexivity|].
    unfold Props.blank in B. rewrite forallb_forall in *. intros c Hc.
    rewrite (whiteSpace_not_digit c); [reflexivity | now apply B].
Qed.

Lemma kBValue_memLine (label pad : jsstring) (kB : Z) (current : number) :
  forallb (fun c => negb (isDigit c)) label = true ->
  Props.blank pad -> 0 <= kB ->
  Metrics.kBValue (Some (Props.memLine label pad kB)) current
  = mul (ofZ kB) (ofZ 1024).
Proof.
  intros L B K. unfold Metrics.kBValue.
  rewrite matchDigits_memLine by assumption. now rewrite parseInt_decimal.
Qed.

Lemma memLine_nonEmpty (label pad : jsstring) (kB : Z) :
  label <> [] -> Props.memLine label pad kB <> [].
Proof. intros H. unfold Props.memLine. destruct label; [congruence | discriminate]. Qed.

(* ===================================================================== *)
(** ** The handlers return *)
(* ===================================================================== *)

Section Handlers.

Variable fs : FS.
Variable os : OS.

Lemma getHostMemory_value (doc : jsstring) :
  Metrics.readHostFile fs (js "/proc/meminfo")
    (fun _ => ret (Metrics.memInfoFallback os)) = inr doc ->
  Metrics.getHostMemory fs os = inr (Metrics.memoryOf os doc).
Proof. intros R. unfold Metrics.getHostMemory. now rewrite R. Qed.

Lemma getHostCPUInfo_value (doc : jsstring) :
  Metrics.readHostFile fs (js "/proc/cpuinfo")
    (fun _ => ret (Metrics.cpuInfoFallback os)) = inr doc ->
  Metrics.getHostCPUInfo fs os = inr (Metrics.cpuInfoOf os doc).
Proof. intros R. unfold Metrics.getHostCPUInfo. now rewrite R. Qed.

Lemma getHostCPUInfo_returns :
  exists info, Metrics.getHostCPUInfo fs os = inr info.
Proof.
  destruct (Metrics_readHostFile_returns fs (js "/proc/cpuinfo")
              (Metrics.cpuInfoFallback os)) as [doc R].
  exists (Metrics.cpuInfoOf os doc). now apply getHostCPUInfo_value.
Qed.

Lemma getHostCPUUsage_value (stat : jsstring) (info : Metrics.CpuInfo) :
  Metrics.readHostFile fs (js "/proc/stat") (fun _ => ret []) = inr stat ->
  Metrics.getHostCPUInfo fs os = inr info ->
  Metrics.getHostCPUUsage fs os =
  inr match Metrics.usageOfStat stat with
      | Some usage => usage
      | None => Props.loadUsage os (Metrics.count info)
      end.
Proof.
  intros R I. unfold Metrics.getHostCPUUsage, Props.loadUsage. rewrite R. simpl.
  destruct (Metrics.usageOfStat stat); simpl; [reflexivity|].
  destruct (loadavg os) as [[load1 load5] load15]. now rewrite I.
Qed.

Lemma getHostDiskUsage_value :
  Metrics.getHostDiskUsage fs = inr (Metrics.disk_usage (Props.diskOf fs)).
Proof.
  unfold Metrics.getHostDiskUsage, Props.diskOf.
  destruct (statfsSync fs (Metrics.rootPath fs)); reflexivity.
Qed.

Lemma diskBytes_value :
  Metrics.diskBytes fs =
  inr (Metrics.disk_total (Props.diskOf fs), Metrics.disk_used (Props.diskOf fs),
       Metrics.disk_free (Props.diskOf fs)).
Proof.
  unfold Metrics.diskBytes, Props.diskOf.
  destruct (statfsSync fs (Metrics.rootPath fs)); reflexivity.
Qed.

(** The handler never answers the error document: the snapshot is made of
    what the four resolvers return. *)
Lemma GET_snapshot :
  exists memDoc cpuDoc usage,
    Metrics.readHostFile fs (js "/proc/meminfo")
      (fun _ => ret (Metrics.memInfoFallback os)) = inr memDoc /\
    Metrics.readHostFile fs (js "/proc/cpuinfo")
      (fun _ => ret (Metrics.cpuInfoFallback os)) = inr cpuDoc /\
    Metrics.getHostCPUUsage fs os = inr usage /\
    Metrics.GET fs os =
    Metrics.Ok200
      {| Metrics.memory :=
           let m := Metrics.memoryOf os memDoc in
           {| Metrics.mem_total := Metrics.total m;
              Metrics.mem_free := Metrics.free m;
              Metrics.mem_available := Metrics.available m;
              Metrics.mem_used := sub (Metrics.total m) (Metrics.available m) |};
         Metrics.cpu :=
           {| Metrics.cpu_count := Metrics.count (Metrics.cpuInfoOf os cpuDoc);
              Metrics.cpu_usage := usage |};
         Metrics.disk := Props.diskOf fs;
         Metrics.hostMounted := Metrics.isHostMounted fs |}.
Proof.
  destruct (Metrics_readHostFile_returns fs (js "/proc/meminfo")
              (Metrics.memInfoFallback os)) as [memDoc RM].
  destruct (Metrics_readHostFile_returns fs (js "/proc/cpuinfo")
              (Metrics.cpuInfoFallback os)) as [cpuDoc RC].
  destruct (Metrics_readHostFile_returns fs (js "/proc/stat") []) as [stat RS].
  pose proof (getHostCPUInfo_value cpuDoc RC) as I.
  pose proof (getHostCPUUsage_value stat _ RS I) as U.
  eexists memDoc, cpuDoc, _. split; [exact RM|]. split; [exact RC|].
  split; [exact U|].
  unfold Metrics.GET, Metrics.snapshot.
  rewrite (getHostMemory_value memDoc RM), I, U,
    getHostDiskUsage_value, diskBytes_value.
  destruct (Props.diskOf fs). reflexivity.
Qed.

End Handlers.

(* ===================================================================== *)
(** ** Memory *)
(* ===================================================================== *)

Lemma memoryOf_total (os : OS) (doc pad : jsstring) (kB : Z) :
  Props.firstLine (js "MemTotal") doc (Props.memLine (js "MemTotal") pad kB) ->
  Props.blank pad -> 0 <= kB ->
  Metrics.total (Metrics.memoryOf os doc) = mul (ofZ kB) (ofZ 1024).
Proof.
  intros F B K. unfold Metrics.memoryOf.
  rewrite (firstLine_nonEmpty _ _ _ F) by (apply memLine_nonEmpty; discriminate).
  cbn [Metrics.total]. rewrite (firstLine_find _ _ _ F).
  now apply kBValue_memLine.
Qed.

Lemma memoryOf_available (os : OS) (doc pad : jsstring) (kB : Z) :
  Props.firstLine (js "MemAvailable") doc (Props.memLine (js "MemAvailable") pad kB) ->
  Props.blank pad -> 0 <= kB ->
  Metrics.available (Metrics.memoryOf os doc) = mul (ofZ kB) (ofZ 1024).
Proof.
  intros F B K. unfold Metrics.memoryOf.
  rewrite (firstLine_nonEmpty _ _ _ F) by (apply memLine_nonEmpty; discriminate).
  cbn [Metrics.available]. rewrite (firstLine_find _ _ _ F).
  now apply kBValue_memLine.
Qed.

(** C3. For every meminfo document that is read, whose MemTotal line carries
    [t] kB and whose MemAvailable line carries [a] kB, the snapshot reports
    total = t * 1024, available = a * 1024 and used = total - available (in
    the arithmetic of JavaScript numbers).  The witness is the document of the
    specification: 1048576 kB and 524288 kB give 1073741824, 536870912 and
    536870912 bytes. *)
Theorem snapshot_memory_bytes :
  forall (fs : FS) (os : OS) (doc padT padA : jsstring) (t a : Z),
    Metrics.readHostFile fs (js "/proc/meminfo")
      (fun _ => ret (Metrics.memInfoFallback os)) = inr doc ->
    Props.firstLine (js "MemTotal") doc (Props.memLine (js "MemTotal") padT t) ->
    Props.firstLine (js "MemAvailable") doc
      (Props.memLine (js "MemAvailable") padA a) ->
    Props.blank padT -> Props.blank padA -> 0 <= t -> 0 <= a ->
    exists body,
      Metrics.GET fs os = Metrics.Ok200 body /\
      Metrics.mem_total (Metrics.memory body) = mul (ofZ t) (ofZ 1024) /\
      Metrics.mem_available (Metrics.memory body) = mul (ofZ a) (ofZ 1024) /\
      Metrics.mem_used (Metrics.memory body)
      = sub (mul (ofZ t) (ofZ 1024)) (mul (ofZ a) (ofZ 1024)).
Proof.
  intros fs os doc padT padA t a R FT FA BT BA T A.
  destruct (GET_snapshot fs os) as (memDoc & cpuDoc & usage & RM & _ & _ & G).
  rewrite R in RM. injection RM as <-.
  eexists. split; [exact G|]. cbn.
  rewrite (memoryOf_total os doc padT t FT BT T),
    (memoryOf_available os doc padA a FA BA A). auto.
Qed.

Lemma snapshot_memory_bytes_witness :
  exists body,
    Metrics.GET Fixtures.fsMeminfo (Fixtures.mkOS 1000 2) = Metrics.Ok200 body /\
    Metrics.mem_total (Metrics.memory body) = ofZ 1073741824 /\
    Metrics.mem_available (Metrics.memory body) = ofZ 536870912 /\
    Metrics.mem_used (Metrics.memory body) = ofZ 536870912.
Proof.
  destruct (snapshot_memory_bytes Fixtures.fsMeminfo (Fixtures.mkOS 1000 2)
              (js "MemTotal: 1048576 kB" ++ [LF] ++ js "MemAvailable: 524288 kB")
              (js " ") (js " ") 1048576 524288)
    as (body & G & T & A & U).
  - reflexivity.
  - exists [], [js "MemAvailable: 524288 kB"].
    split; [reflexivity|]. split; [reflexivity|]. intros l [].
  - exists [js "MemTotal: 1048576 kB"], [].
    split; [reflexivity|]. split; [reflexivity|].
    intros l [<- | []]. reflexivity.
  - reflexivity.
  - reflexivity.
  - lia.
  - lia.
  - exists body. rewrite T, A, U. split; [exact G|]. repeat split; reflexivity.
Defined.

(** The second route resolves its free-memory figure from the MemFree line
    when no line starts with MemAvailable. *)
Lemma Identity_free_from_MemFree (fs : FS) (os : OS) (doc pad : jsstring) (f : Z) :
  Identity.readHostFile fs (js "/proc/meminfo")
    (fun _ => ret (Identity.memInfoFallback os)) = inr doc ->
  Props.noLine (js "MemAvailable") doc ->
  Props.firstLine (js "MemFree") doc (Props.memLine (js "MemFree") pad f) ->
  Props.blank pad -> 0 <= f ->
  exists m, Identity.getHostMemory fs os = inr m /\
            Identity.free m = mul (ofZ f) (ofZ 1024).
Proof.
  intros R N F B K. unfold Identity.getHostMemory. rewrite R.
  eexists. split; [reflexivity|]. unfold Identity.memoryOf.
  rewrite (firstLine_nonEmpty _ _ _ F) by (apply memLine_nonEmpty; discriminate).
  cbn [Identity.free]. rewrite (noLine_find _ _ N), (firstLine_find _ _ _ F).
  cbn [Identity.orLine]. apply (kBValue_memLine (js "MemFree") pad f);
    [reflexivity | assumption | assumption].
Qed.

(** The first route leaves [available] at the process's own free memory when
    no line starts with MemAvailable, whatever the MemFree line says. *)
Lemma Metrics_available_without_MemAvailable (fs : FS) (os : OS) (doc : jsstring) :
  Metrics.readHostFile fs (js "/proc/meminfo")
    (fun _ => ret (Metrics.memInfoFallback os)) = inr doc ->
  Props.noLine (js "MemAvailable") doc ->
  exists m, Metrics.getHostMemory fs os = inr m /\
            Metrics.available m = freemem os.
Proof.
  intros R N. rewrite (getHostMemory_value fs os doc R).
  eexists. split; [reflexivity|]. unfold Metrics.memoryOf.
  destruct (nonEmpty doc); [|reflexivity].
  cbn [Metrics.available]. now rewrite (noLine_find _ _ N).
Qed.

(** C4 at its failing input: the document holds "MemFree: 262144 kB" and no
    MemAvailable line.  The second route resolves 262144 * 1024 bytes from it;
    the first route reports the process's own free memory (1000 bytes here)
    as [available] instead. *)
Theorem available_not_from_MemFree :
  Identity.getHostMemory Fixtures.fsOldKernel (Fixtures.mkOS 1000 2)
  = inr {| Identity.total := ofZ 1073741824; Identity.free := ofZ 268435456 |}
  /\ Metrics.getHostMemory Fixtures.fsOldKernel (Fixtures.mkOS 1000 2)
     = inr {| Metrics.total := ofZ 1073741824;
              Metrics.free := ofZ 268435456;
              Metrics.available := ofZ 1000 |}
  /\ ofZ 1000 <> ofZ 268435456.
Proof. split; [reflexivity|]. split; [reflexivity | discriminate]. Qed.

(* ===================================================================== *)
(** ** CPU count *)
(* ===================================================================== *)

(** The example of the specification: no processor line and the summary line
    "CPU(s): 4" resolve to a count of 4. *)
Lemma getHostCPUInfo_summary_line :
  Metrics.getHostCPUInfo Fixtures.fsCpuSummary (Fixtures.mkOS 1000 2)
  = inr {| Metrics.model := js "Unknown"; Metrics.count := ofZ 4 |}.
Proof. reflexivity. Qed.

(** Rounding never ends below the canonical exponent of what it rounds. *)
Lemma binary_round_aux_exponent (sx : bool) (m e : Z) (l : location) :
  0 < m -> e <= fexp prec emax (Zdigits2 m + e) ->
  forall s' m' e',
    binary_round_aux prec emax sx m e l = S754_finite s' m' e' ->
    fexp prec emax (Zdigits2 m + e) <= e'.
Proof.
  intros M P s' m' e'. unfold binary_round_aux.
  open_shr_fexp m e l S1 E1 r1 e1.
  destruct (shift_canonical m e M P) as (C1 & _). rewrite <- E1 in C1.
  assert (N1 : 0 <= shr_m r1).
  { rewrite S1. apply Z.div_pos; [lia | apply Z.pow_pos_nonneg; [lia|apply shift_nonneg]]. }
  pose proof (round_nearest_even_bounds (shr_m r1) (loc_of_shr_record r1)) as B.
  set (m2 := round_nearest_even (shr_m r1) (loc_of_shr_record r1)) in *.
  destruct (shr_fexp_spec m2 e1 loc_Exact) as [_ E2]; [lia|].
  destruct (shr_fexp prec emax m2 e1 loc_Exact) as [r2 e2]. cbn [fst snd] in E2.
  pose proof (shift_nonneg m2 e1).
  destruct (shr_m r2) as [|p|p]; try discriminate.
  destruct (e2 <=? emax - prec); [|discriminate]. intros [= _ _ <-]. lia.
Qed.

Lemma binary_round_exponent (sx : bool) (m : positive) (e : Z) :
  forall s' m' e',
    binary_round prec emax sx m e = S754_finite s' m' e' ->
    fexp prec emax (Zpos (digits2_pos m) + e) <= e'.
Proof.
  intros s' m' e'. unfold binary_round.
  destruct (shl_align_spec m e (fexp prec emax (Zpos (digits2_pos m) + e))) as [A B].
  destruct (shl_align m e _) as [mz ez]. cbn [fst snd] in A, B.
  set (f := fexp prec emax (Zpos (digits2_pos m) + e)) in *.
  assert (D : Zdigits2 (Zpos mz) + ez = Zpos (digits2_pos m) + e).
  { rewrite A, Zdigits2_mul_pow2 by lia.
    change (Zdigits2 (Zpos m)) with (Zpos (digits2_pos m)). lia. }
  intros H. apply binary_round_aux_exponent in H; [|lia|].
  - rewrite D in H. exact H.
  - rewrite D. fold f. lia.
Qed.

(** The number of an integer that is at least 1 is truthy and not below 1. *)
Lemma ofZ_at_least_one (z : Z) :
  1 <= z -> truthy (ofZ z) = true /\ lt (ofZ z) (ofZ 1) = false.
Proof.
  intros H. destruct z as [|p|p]; try lia.
  unfold ofZ. cbn [binary_normalize].
  pose proof (binary_round_nonzero false p 0 ltac:(lia)) as NZ.
  pose proof (binary_round_valid false p 0) as V.
  pose proof (binary_round_exponent false p 0) as X.
  destruct (binary_round prec emax false p 0) as [s|s| |s m e];
    cbn in NZ; try contradiction; subst s; [split; reflexivity|].
  specialize (X false m e eq_refl).
  apply valid_finite in V. destruct (canonical_bounds _ _ V) as (_ & _ & L).
  rewrite fexp_unfold in X. pose proof (Pos2Z.is_pos (digits2_pos p)).
  split; [reflexivity|].
  change (binary_round prec emax false 1 0) with (S754_finite false 4503599627370496 (-52)).
  unfold lt, SFltb. cbn [SFcompare].
  destruct (Z.compare_spec e (-52)) as [E|E|E]; try reflexivity; try lia.
  specialize (L ltac:(lia)). change (2 ^ 52) with 4503599627370496 in L.
  destruct (Pos.compare_cont Eq m 4503599627370496) eqn:C; try reflexivity.
  pose proof (Pos2Z.pos_lt_pos m 4503599627370496 C). lia.
Qed.

(** [count || 1] on the number of a natural is never below 1. *)
Lemma orElse_one (z : Z) :
  0 <= z ->
  isNaN (orElse (ofZ z) (ofZ 1)) = false /\ lt (orElse (ofZ z) (ofZ 1)) (ofZ 1) = false.
Proof.
  intros H. destruct (Z.eq_dec z 0) as [->|N]; [split; reflexivity|].
  destruct (ofZ_at_least_one z ltac:(lia)) as [T L]. unfold orElse. rewrite T.
  split; [|exact L]. destruct (ofZ z); try reflexivity; discriminate T.
Qed.

Lemma takeWhile_forallb (p : char -> bool) (s : jsstring) :
  forallb p (takeWhile p s) = true.
Proof.
  induction s as [|c s IH]; [reflexivity|]. cbn [takeWhile].
  destruct (p c) eqn:E; [|reflexivity]. cbn [forallb]. now rewrite E.
Qed.

(** Group 1 of [/(\d+)/] is a numeral. *)
Lemma matchDigits_numeral_result (s d : jsstring) :
  matchDigits s = Some d -> Props.isNumeral d.
Proof.
  unfold matchDigits.
  assert (H : forall r, dropWhile (fun c => negb (isDigit c)) s = r ->
                        match r with [] => True | c :: _ => isDigit c = true end).
  { induction s as [|c s IH]; intros r; cbn [dropWhile].
    - now intros <-.
    - destruct (isDigit c) eqn:D; cbn [negb].
      + now intros <-.
      + apply IH. }
  specialize (H _ eq_refl).
  destruct (dropWhile (fun c => negb (isDigit c)) s) as [|c r]; [discriminate|].
  intros [= <-]. split.
  - cbn [takeWhile]. rewrite H. discriminate.
  - apply (takeWhile_forallb isDigit (c :: r)).
Qed.

(** Every value the count takes before its last [|| 1] is the number of a
    natural. *)
Lemma countWithoutProcessorLines_natural (os : OS) (ls : list jsstring) :
  exists z, 0 <= z /\ Metrics.countWithoutProcessorLines os ls = ofZ z.
Proof.
  unfold Metrics.countWithoutProcessorLines.
  set (c := match find _ ls with Some l => _ | None => _ end).
  assert (C : exists z, 0 <= z /\ c = ofZ z).
  { unfold c. destruct (find _ ls) as [l|]; [|exists 0; split; [lia|reflexivity]].
    destruct (matchDigits l) as [d|] eqn:D; [|exists 0; split; [lia|reflexivity]].
    apply matchDigits_numeral_result in D. exists (decval d).
    split; [apply decval_nonneg, D | now apply parseInt_numeral]. }
  destruct (strictEq c zero); [|exact C].
  exists (Z.of_nat (List.length (cpus os))). split; [lia | reflexivity].
Qed.

(** In the branch of [getHostCPUInfo] that reads a document, the resolved
    count is a number and is never less than 1. *)
Lemma cpuInfoOf_count_at_least_one (os : OS) (doc : jsstring) :
  nonEmpty doc = true ->
  isNaN (Metrics.count (Metrics.cpuInfoOf os doc)) = false /\
  lt (Metrics.count (Metrics.cpuInfoOf os doc)) (ofZ 1) = false.
Proof.
  intros NE. unfold Metrics.cpuInfoOf. rewrite NE. cbn [Metrics.count].
  set (n := ofNat (List.length (filter Metrics.isProcessorLine (lines doc)))).
  assert (C : exists z, 0 <= z /\
                (if strictEq n zero
                 then Metrics.countWithoutProcessorLines os (lines doc) else n) = ofZ z).
  { destruct (strictEq n zero).
    - apply countWithoutProcessorLines_natural.
    - eexists. split; [|reflexivity]. lia. }
  destruct C as (z & Z & ->). now apply orElse_one.
Qed.

(** When the document holds processor lines, the count is their number. *)
Lemma cpuInfoOf_counts_processor_lines (os : OS) (doc : jsstring) :
  nonEmpty doc = true ->
  filter Metrics.isProcessorLine (lines doc) <> [] ->
  Metrics.count (Metrics.cpuInfoOf os doc)
  = ofNat (List.length (filter Metrics.isProcessorLine (lines doc))).
Proof.
  intros NE F. unfold Metrics.cpuInfoOf. rewrite NE. cbn [Metrics.count].
  set (k := List.length (filter Metrics.isProcessorLine (lines doc))).
  assert (K : 1 <= Z.of_nat k).
  { unfold k. destruct (filter Metrics.isProcessorLine (lines doc));
      [congruence | cbn [List.length]; lia]. }
  destruct (ofZ_at_least_one _ K) as [T L]. unfold ofNat.
  assert (S : strictEq (ofZ (Z.of_nat k)) zero = false).
  { destruct (ofZ (Z.of_nat k)) as [s|s| |s m e]; try discriminate T;
      destruct s; reflexivity. }
  rewrite S. unfold orElse. now rewrite T.
Qed.

(** C6 at its failing input: no cpuinfo file is readable at any tier and the
    process itself lists no CPU.  The resolved count is 0, which is below 1:
    the last return of [getHostCPUInfo] lacks the [|| 1] that the return
    before it applies. *)
Theorem getHostCPUInfo_count_zero :
  Metrics.getHostCPUInfo Fixtures.fsEmpty (Fixtures.mkOS 1000 0)
  = inr {| Metrics.model := js "Unknown"; Metrics.count := zero |}
  /\ lt zero (ofZ 1) = true.
Proof. split; reflexivity. Qed.

(* ===================================================================== *)
(** ** Disk *)
(* ===================================================================== *)

(** The disk section of the snapshot: zeros when the block statistics query
    throws, the products and their difference when it returns; the handler
    answers the snapshot either way. *)
Lemma GET_disk (fs : FS) (os : OS) :
  exists body, Metrics.GET fs os = Metrics.Ok200 body /\
               Metrics.disk body = Props.diskOf fs.
Proof.
  destruct (GET_snapshot fs os) as (memDoc & cpuDoc & usage & _ & _ & _ & G).
  eexists. split; [exact G | reflexivity].
Qed.

Lemma GET_disk_example :
  Props.diskOf Fixtures.fsDisk
  = {| Metrics.disk_total := ofZ 4096000; Metrics.disk_used := ofZ 3072000;
       Metrics.disk_free := ofZ 1024000; Metrics.disk_usage := ofZ 75 |}.
Proof. reflexivity. Qed.

(** The disk usage that is reported is NaN or lies in [0, 100]. *)
Lemma diskOf_usage_range (fs : FS) :
  isNaN (Metrics.disk_usage (Props.diskOf fs)) = true \/
  (le zero (Metrics.disk_usage (Props.diskOf fs)) = true /\
   le (Metrics.disk_usage (Props.diskOf fs)) (ofZ 100) = true).
Proof.
  unfold Props.diskOf. destruct (statfsSync fs (Metrics.rootPath fs)) as [e|st];
    cbn [Metrics.disk_usage].
  - right. split; reflexivity.
  - destruct (clamp_range (mul (div (sub (mul (blocks st) (bsize st))
                                         (mul (bavail st) (bsize st)))
                                    (mul (blocks st) (bsize st))) (ofZ 100)))
      as [[_ ->] | (_ & A & B)]; [left; reflexivity | right; split; assumption].
Qed.

(** C9 at its failing input: the block statistics query succeeds and reports
    zero blocks.  Total, used and free are 0 and the usage is 0 / 0 * 100,
    which is NaN; [Math.max] and [Math.min] hand NaN through, so the reported
    usage is not a number in [0, 100]. *)
Theorem getHostDiskUsage_zero_blocks :
  Metrics.getHostDiskUsage Fixtures.fsZeroBlocks = inr NaN
  /\ Props.diskOf Fixtures.fsZeroBlocks
     = {| Metrics.disk_total := zero; Metrics.disk_used := zero;
          Metrics.disk_free := zero; Metrics.disk_usage := NaN |}.
Proof. split; reflexivity. Qed.

(* ===================================================================== *)
(** ** CPU utilisation *)
(* ===================================================================== *)

(** [parseFloat(parts[i]) || 0] on a summary line of natural counters: the
    counter at that position, 0 past the end of the line. *)
Lemma parseFloatAt_counter (label : jsstring) (cs : list Z) (i : nat) :
  Forall (fun c => 0 <= c) cs ->
  orElse (parseFloatAt (label :: map decimal cs) (S i)) zero = Props.counter cs i.
Proof.
  intros H. unfold parseFloatAt, Props.counter. cbn [nth_error].
  rewrite nth_error_map. destruct (nth_error cs i) as [c|] eqn:E; cbn [option_map].
  - assert (0 <= c).
    { rewrite Forall_forall in H. apply H. eapply nth_error_In; eauto. }
    rewrite (nth_error_nth _ _ _ E), parseFloat_decimal by assumption.
    now apply orElse_ofZ.
  - apply nth_error_None in E. rewrite nth_overflow by assumption. reflexivity.
Qed.

Lemma startsWith_nonEmpty (s p : jsstring) :
  startsWith s p = true -> p <> [] -> s <> [].
Proof. intros H P ->. destruct p; [congruence | discriminate]. Qed.

Lemma usageOfStat_counters (stat cpuLine : jsstring) (cs : list Z) :
  Props.firstLine (js "cpu ") stat cpuLine ->
  fields (trim cpuLine) = js "cpu" :: map decimal cs ->
  Forall (fun c => 0 <= c) cs ->
  Metrics.usageOfStat stat =
  if Nat.leb 4 (List.length cs) && gt (Props.denominator cs) zero
  then Some (Props.specUsage cs) else None.
Proof.
  intros F P C. unfold Metrics.usageOfStat.
  assert (NE : cpuLine <> []).
  { destruct F as (_ & _ & _ & S & _).
    apply (startsWith_nonEmpty _ _ S). discriminate. }
  rewrite (firstLine_nonEmpty _ _ _ F NE), (firstLine_find _ _ _ F), P.
  cbn [List.length]. rewrite length_map.
  change (Nat.leb 5 (S (List.length cs))) with (Nat.leb 4 (List.length cs)).
  destruct (Nat.leb 4 (List.length cs)); [|reflexivity]. cbn [andb].
  rewrite !(parseFloatAt_counter (js "cpu") cs) by assumption.
  rewrite (add_comm (add (Props.counter cs 3) (Props.counter cs 4))).
  unfold Props.specUsage, Props.clamp, Props.denominator, Props.busyTotal,
    Props.idleTotal.
  reflexivity.
Qed.

Lemma usageOfStat_no_summary (stat : jsstring) :
  Props.noLine (js "cpu ") stat -> Metrics.usageOfStat stat = None.
Proof.
  intros N. unfold Metrics.usageOfStat. destruct (nonEmpty stat); [|reflexivity].
  now rewrite (noLine_find _ _ N).
Qed.

(** The usage the formula gives is NaN or lies in [0, 100]. *)
Lemma specUsage_range (cs : list Z) :
  isNaN (Props.specUsage cs) = true \/
  (le zero (Props.specUsage cs) = true /\ le (Props.specUsage cs) (ofZ 100) = true).
Proof.
  unfold Props.specUsage.
  destruct (clamp_range (mul (div (Props.busyTotal cs) (Props.denominator cs)) (ofZ 100)))
    as [[_ ->] | (_ & A & B)]; [left; reflexivity | right; split; assumption].
Qed.

(** C5, as amended.  For every stat document that is read: when its summary
    line carries natural counters in the order user, nice, system, idle,
    iowait, irq, softirq, steal, at least the first four of them present and
    the absent ones among the last four counted as 0, and the denominator is
    positive, the usage is busy / (busy + idle) * 100 clamped to [0, 100];
    when the line has fewer than four counters, when the denominator is not
    positive or when no line starts with "cpu ", the usage is the one-minute
    load average divided by the resolved CPU count, times 100, clamped to at
    most 100 only.  The witness is the line of the specification, which
    gives 15. *)
Theorem getHostCPUUsage_formula :
  forall (fs : FS) (os : OS) (stat : jsstring),
    Metrics.readHostFile fs (js "/proc/stat") (fun _ => ret []) = inr stat ->
    exists info,
      Metrics.getHostCPUInfo fs os = inr info /\
      (forall cpuLine cs,
          Props.firstLine (js "cpu ") stat cpuLine ->
          fields (trim cpuLine) = js "cpu" :: map decimal cs ->
          Forall (fun c => 0 <= c) cs ->
          Metrics.getHostCPUUsage fs os =
          inr (if Nat.leb 4 (List.length cs) && gt (Props.denominator cs) zero
               then Props.specUsage cs
               else Props.loadUsage os (Metrics.count info))) /\
      (Props.noLine (js "cpu ") stat ->
       Metrics.getHostCPUUsage fs os = inr (Props.loadUsage os (Metrics.count info))).
Proof.
  intros fs os stat R. destruct (getHostCPUInfo_returns fs os) as [info I].
  exists info. split; [exact I|].
  rewrite (getHostCPUUsage_value fs os stat info R I). split.
  - intros cpuLine cs F P C. rewrite (usageOfStat_counters stat cpuLine cs F P C).
    destruct (Nat.leb 4 (List.length cs) && gt (Props.denominator cs) zero);
      reflexivity.
  - intros N. now rewrite (usageOfStat_no_summary stat N).
Qed.

Lemma getHostCPUUsage_formula_witness :
  Metrics.getHostCPUUsage Fixtures.fsStat (Fixtures.mkOS 1000 2) = inr (ofZ 15).
Proof.
  destruct (getHostCPUUsage_formula Fixtures.fsStat (Fixtures.mkOS 1000 2)
              (js "cpu 100 0 50 800 50 0 0 0" ++ [LF] ++ js "cpu0 100 0 50 800 50 0 0 0")
              eq_refl) as (info & _ & H & _).
  apply (H (js "cpu 100 0 50 800 50 0 0 0") [100; 0; 50; 800; 50; 0; 0; 0]).
  - exists [], [js "cpu0 100 0 50 800 50 0 0 0"].
    split; [reflexivity|]. split; [reflexivity|]. intros l [].
  - reflexivity.
  - repeat constructor; lia.
Defined.

(** Without a readable stat document the usage comes from the load average
    over the resolved CPU count (1 here, the single processor line of the
    fallback text): a load of 0.75 is 75, a load of 3 is cut at 100. *)
Lemma getHostCPUUsage_load_examples :
  Metrics.getHostCPUUsage Fixtures.fsEmpty
    (Fixtures.withLoad (div (ofZ 3) (ofZ 4)) (Fixtures.mkOS 1000 2)) = inr (ofZ 75)
  /\ Metrics.getHostCPUUsage Fixtures.fsEmpty
       (Fixtures.withLoad (ofZ 3) (Fixtures.mkOS 1000 2)) = inr (ofZ 100).
Proof. split; reflexivity. Qed.

(** C5, as stated, fails: the summary line "cpu 100 0 50" carries three
    counters; with the absent ones counted as 0 the formula gives
    150 / 150 * 100 = 100 and the denominator is positive, yet the resolver
    falls back to the load average, which is 0 here. *)
Lemma getHostCPUUsage_short_line_counterexample :
  Props.firstLine (js "cpu ") (js "cpu 100 0 50") (js "cpu 100 0 50")
  /\ fields (trim (js "cpu 100 0 50")) = js "cpu" :: map decimal [100; 0; 50]
  /\ gt (Props.denominator [100; 0; 50]) zero = true
  /\ Props.specUsage [100; 0; 50] = ofZ 100
  /\ Metrics.readHostFile Fixtures.fsShortStat (js "/proc/stat") (fun _ => ret [])
     = inr (js "cpu 100 0 50")
  /\ Metrics.getHostCPUUsage Fixtures.fsShortStat (Fixtures.mkOS 1000 2) = inr zero
  /\ zero <> ofZ 100.
Proof.
  split.
  { exists [], []. split; [reflexivity|]. split; [reflexivity|]. intros l []. }
  repeat split; try reflexivity. discriminate.
Qed.


(* ===================================================================== *)
(** ** Used memory *)
(* ===================================================================== *)

Lemma parseInt_valid (s : jsstring) (radix : Z) : Props.valid (parseInt s radix).
Proof.
  unfold Props.valid, parseInt. destruct (parseIntMath s radix) as [[neg v]|];
    [|reflexivity].
  destruct (v =? 0); [reflexivity | apply ofZ_valid].
Qed.

Create HintDb numbers.
#[local] Hint Resolve ofZ_valid mul_valid parseInt_valid : numbers.

Lemma kBValue_valid (line : option jsstring) (current : number) :
  Props.valid current -> Props.valid (Metrics.kBValue line current).
Proof.
  intros V. unfold Metrics.kBValue. destruct line as [l|]; [|exact V].
  destruct (matchDigits l); auto with numbers.
Qed.

Lemma memoryOf_valid (os : OS) (doc : jsstring) :
  Props.valid (Metrics.total (Metrics.memoryOf os doc)) /\
  Props.valid (Metrics.available (Metrics.memoryOf os doc)).
Proof.
  unfold Metrics.memoryOf, totalmem, freemem.
  destruct (nonEmpty doc); cbn [Metrics.total Metrics.available];
    split; auto using kBValue_valid with numbers.
Qed.

(** C10. The snapshot's used memory is total - available and nothing clamps
    it: in every world, when the resolved available memory exceeds the
    resolved total (each parsed from its own line, or taken from the process
    where the line is missing), the reported used memory is negative. *)
Theorem snapshot_used_negative :
  forall (fs : FS) (os : OS) (body : Metrics.Snapshot),
    Metrics.GET fs os = Metrics.Ok200 body ->
    lt (Metrics.mem_total (Metrics.memory body))
       (Metrics.mem_available (Metrics.memory body)) = true ->
    Metrics.mem_used (Metrics.memory body)
    = sub (Metrics.mem_total (Metrics.memory body))
          (Metrics.mem_available (Metrics.memory body))
    /\ lt (Metrics.mem_used (Metrics.memory body)) zero = true.
Proof.
  intros fs os body G L.
  destruct (GET_snapshot fs os) as (memDoc & cpuDoc & usage & _ & _ & _ & G').
  rewrite G in G'. injection G' as ->. cbn in *.
  split; [reflexivity|].
  destruct (memoryOf_valid os memDoc) as [VT VA].
  now apply sub_negative.
Qed.

Lemma snapshot_used_negative_witness :
  exists body,
    Metrics.GET Fixtures.fsOvercommitted (Fixtures.mkOS 1000 2) = Metrics.Ok200 body /\
    Metrics.mem_total (Metrics.memory body) = ofZ 1048576 /\
    Metrics.mem_available (Metrics.memory body) = ofZ 2097152 /\
    Metrics.mem_used (Metrics.memory body) = ofZ (-1048576) /\
    lt (Metrics.mem_used (Metrics.memory body)) zero = true.
Proof.
  destruct (Metrics.GET Fixtures.fsOvercommitted (Fixtures.mkOS 1000 2))
    as [body|] eqn:G; [|discriminate G].
  exists body. split; [reflexivity|].
  assert (T : Metrics.mem_total (Metrics.memory body) = ofZ 1048576)
    by (injection G as <-; reflexivity).
  assert (A : Metrics.mem_available (Metrics.memory body) = ofZ 2097152)
    by (injection G as <-; reflexivity).
  destruct (snapshot_used_negative _ _ body G) as [U N].
  - rewrite T, A. reflexivity.
  - split; [exact T|]. split; [exact A|]. split; [|exact N].
    rewrite U, T, A. reflexivity.
Defined.

(* ===================================================================== *)
(** ** The two tiers of the second route *)
(* ===================================================================== *)

(** When nothing can be settled on, the fallback producer answers, for the
    second route and for the first. *)
Lemma Identity_readHostFile_unselected (fs : FS) (path : jsstring) fallback :
  (forall c, ~ Props.selected fs path c) ->
  Identity.readHostFile fs path fallback = fallback tt.
Proof.
  intros U. rewrite Identity_readHostFile_tiers.
  assert (L : Props.plainText fs path = None).
  { destruct (Props.plainText fs path) as [t|] eqn:E; [|reflexivity].
    apply plainText_holds in E as (c & H & _).
    destruct (Identity.isHostMounted fs) eqn:M.
    - destruct (Props.plainText fs (Identity.HOST_ROOT ++ path)) as [t'|] eqn:E'.
      + apply plainText_holds in E' as (c' & H' & _).
        exfalso. apply (U c'). left. auto.
      + exfalso. apply (U c). right. split; [|exact H].
        right. now apply plainText_none.
    - exfalso. apply (U c). right. auto. }
  rewrite L.
  destruct (Identity.isHostMounted fs) eqn:M; [|reflexivity].
  destruct (Props.plainText fs (Identity.HOST_ROOT ++ path)) as [t'|] eqn:E'; [|reflexivity].
  apply plainText_holds in E' as (c' & H' & _).
  exfalso. apply (U c'). left. auto.
Qed.

Lemma Metrics_readHostFile_unusable (fs : FS) (path : jsstring) fallback :
  (forall t c, ~ Props.usable fs t path c) ->
  Metrics.readHostFile fs path fallback = fallback tt.
Proof.
  intros U. rewrite readHostFile_tiers.
  now rewrite !(proj2 (tierText_unusable fs _ path) (U _)).
Qed.

(** X1.  The second route's [readHostFile] settles on the file under the host
    mount when the mount check passes and that file can be read and holds
    text, and otherwise on the file at the path itself; it returns the trimmed
    content of the file it settles on.  When it can settle on neither (a path
    is missing, its read throws, as it does on a directory, or it holds white
    space only), its outcome is exactly the fallback producer's. *)
Theorem Identity_readHostFile_two_tiers :
  forall (fs : FS) (path : jsstring) (fallback : unit -> result jsstring),
    (exists c, Props.selected fs path c /\
               Identity.readHostFile fs path fallback = inr (trim c))
    \/ ((forall c, ~ Props.selected fs path c) /\
        Identity.readHostFile fs path fallback = fallback tt).
Proof.
  intros fs path fallback. rewrite Identity_readHostFile_tiers.
  unfold Props.selected.
  destruct (Identity.isHostMounted fs) eqn:M.
  - destruct (Props.plainText fs (Identity.HOST_ROOT ++ path)) as [t|] eqn:E1.
    + apply plainText_holds in E1 as (c & H & ->). left. exists c. auto.
    + destruct (Props.plainText fs path) as [t|] eqn:E2.
      * apply plainText_holds in E2 as (c & H & ->). left. exists c.
        split; [|reflexivity]. right. split; [|exact H].
        right. now apply plainText_none.
      * right. split; [|reflexivity].
        intros c [[_ H]|[_ H]]; revert H; now apply plainText_none.
  - destruct (Props.plainText fs path) as [t|] eqn:E2.
    + apply plainText_holds in E2 as (c & H & ->). left. exists c. auto.
    + right. split; [|reflexivity].
      intros c [[F _]|[_ H]]; [discriminate F|]. revert H. now apply plainText_none.
Qed.

(* ===================================================================== *)
(** ** CPU model and count on both routes *)
(* ===================================================================== *)

Lemma firstWhere_find (p : jsstring -> bool) (doc line : jsstring) :
  Props.firstWhere p doc line -> find p (lines doc) = Some line.
Proof.
  intros (pre & post & L & S & P). unfold find. rewrite L. now apply find_first.
Qed.

Lemma lines_nil : lines [] = [[]].
Proof. reflexivity. Qed.

Lemma firstWhere_nonEmpty (p : jsstring -> bool) (doc line : jsstring) :
  Props.firstWhere p doc line -> line <> [] -> nonEmpty doc = true.
Proof.
  intros (pre & post & L & _) NE. destruct doc; [|reflexivity].
  rewrite lines_nil in L.
  destruct pre as [|x [|y pre]]; simpl in L; try discriminate.
  injection L as <- _. congruence.
Qed.

Lemma splitSep_not_nil (s cur : jsstring) : Metrics.splitSep cur s <> [].
Proof.
  revert cur. induction s as [|c r IH]; intros cur; cbn [Metrics.splitSep].
  - discriminate.
  - destruct (Metrics.isSeparator c); [discriminate | apply IH].
Qed.

Lemma join_cons (sep x : jsstring) (l : list jsstring) :
  l <> [] -> join sep (x :: l) = x ++ sep ++ join sep l.
Proof. destruct l; [congruence | reflexivity]. Qed.

(** Splitting at the separators and joining with a colon keeps every unit
    but [=], which comes back as a colon. *)
Lemma join_splitSep (s cur : jsstring) :
  join (js ":") (Metrics.splitSep cur s) = cur ++ map Props.colonForEquals s.
Proof.
  revert cur. induction s as [|c r IH]; intros cur.
  - simpl. now rewrite app_nil_r.
  - cbn [Metrics.splitSep map]. unfold Metrics.isSeparator, Props.colonForEquals at 1.
    destruct (isChar ":" c) eqn:C; cbn [orb].
    + rewrite join_cons by apply splitSep_not_nil. rewrite IH. cbn [app].
      unfold isChar in C. apply N.eqb_eq in C. rewrite C. reflexivity.
    + destruct (isChar "=" c) eqn:E.
      * rewrite join_cons by apply splitSep_not_nil. rewrite IH. reflexivity.
      * rewrite IH. rewrite <- app_assoc. reflexivity.
Qed.

Lemma splitSep_label (label value cur : jsstring) (sep : char) :
  forallb (fun c => negb (Metrics.isSeparator c)) label = true ->
  Metrics.isSeparator sep = true ->
  Metrics.splitSep cur (label ++ sep :: value)
  = (cur ++ label) :: Metrics.splitSep [] value.
Proof.
  intros L S. revert cur. induction label as [|c label IH]; intros cur.
  - cbn [app Metrics.splitSep]. rewrite S. now rewrite app_nil_r.
  - cbn [forallb] in L. apply andb_true_iff in L as [C L].
    apply negb_true_iff in C. cbn [app Metrics.splitSep]. rewrite C.
    rewrite (IH L). now rewrite <- app_assoc.
Qed.

Lemma modelOf_separated (ls : list jsstring) (label value : jsstring) (sep : char) :
  find Identity.isModelLine ls = Some (label ++ sep :: value) ->
  forallb (fun c => negb (Metrics.isSeparator c)) label = true ->
  Metrics.isSeparator sep = true ->
  Identity.modelOf ls = trim (map Props.colonForEquals value).
Proof.
  intros F L Hs. unfold Identity.modelOf. rewrite F.
  assert (NE : isEmpty (label ++ sep :: value) = false) by (destruct label; reflexivity).
  unfold Identity.orLine. rewrite NE, NE.
  rewrite (splitSep_label label value [] sep L Hs).
  pose proof (splitSep_not_nil value []) as H.
  pose proof (join_splitSep value []) as J.
  destruct (Metrics.splitSep [] value) as [|p ps]; [congruence|].
  cbn [app List.length Nat.ltb Nat.leb skipn]. now rewrite J.
Qed.

(** Leading white space does not survive [trim]. *)
Lemma trim_leading (c : char) (s : jsstring) :
  isWhiteSpace c = true -> trim (c :: s) = trim s.
Proof. intros W. unfold trim. cbn [trimStart]. now rewrite W. Qed.

Lemma trimStart_ends_nonblank (l : jsstring) (c : char) :
  isWhiteSpace c = false -> exists l', trimStart (l ++ [c]) = l' ++ [c].
Proof.
  intros W. induction l as [|x l IH]; cbn [app trimStart].
  - rewrite W. now exists [].
  - destruct (isWhiteSpace x); [exact IH | now exists (x :: l)].
Qed.

(** A text that starts with a unit other than white space keeps it under
    [trim]. *)
Lemma trim_keeps_first (c : char) (s : jsstring) :
  isWhiteSpace c = false -> exists s', trim (c :: s) = c :: s'.
Proof.
  intros W. unfold trim, trimEnd. cbn [trimStart]. rewrite W.
  cbn [rev]. destruct (trimStart_ends_nonblank (rev s) c W) as [l' E].
  rewrite E, rev_app_distr. now exists (rev l').
Qed.

Lemma splitOn_plain (a cur : jsstring) (sep : char) :
  ~ In sep a -> splitOn sep cur a = [cur ++ a].
Proof.
  revert cur. induction a as [|c a IH]; intros cur N; cbn [splitOn].
  - now rewrite app_nil_r.
  - destruct (N.eqb_spec c sep) as [->|D]; [exfalso; apply N; now left|].
    rewrite IH by (intros H; apply N; now right). now rewrite <- app_assoc.
Qed.

Lemma splitOn_first (a b cur : jsstring) (sep : char) :
  ~ In sep a -> splitOn sep cur (a ++ sep :: b) = (cur ++ a) :: splitOn sep [] b.
Proof.
  revert cur. induction a as [|c a IH]; intros cur N; cbn [app splitOn].
  - rewrite N.eqb_refl. now rewrite app_nil_r.
  - destruct (N.eqb_spec c sep) as [->|D]; [exfalso; apply N; now left|].
    rewrite IH by (intros H; apply N; now right). now rewrite <- app_assoc.
Qed.

(** The two lines of the text the fallback producer builds. *)
Lemma cpuInfoFallback_lines (m : jsstring) :
  ~ In LF m ->
  lines (js "model name" ++ [TAB] ++ js ": " ++ m ++ [LF] ++ js "processor" ++ [TAB] ++ js ": 0")
  = [ js "model name" ++ [TAB] ++ js ": " ++ m; js "processor" ++ [TAB] ++ js ": 0" ].
Proof.
  intros N. unfold lines.
  change (js "model name" ++ [TAB] ++ js ": " ++ m ++ [LF] ++ js "processor" ++ [TAB] ++ js ": 0")
    with ((js "model name" ++ [TAB] ++ js ": ") ++ (m ++ LF :: (js "processor" ++ [TAB] ++ js ": 0"))).
  rewrite app_assoc. rewrite splitOn_first.
  - reflexivity.
  - intros H. apply in_app_or in H as [H|H]; [|now apply N].
    vm_compute in H. intuition discriminate.
Qed.

(** A line that starts with the letter m is no processor line for either
    route; so the first line of the fallback text is none. *)
Lemma not_processor_line (s : jsstring) :
  Metrics.isProcessorLine (109%N :: s) = false /\
  Identity.isProcessorLine (109%N :: s) = false.
Proof.
  assert (T : exists s', trim (109%N :: s) = 109%N :: s')
    by exact (trim_keeps_first 109%N s eq_refl).
  destruct T as [s' T].
  unfold Metrics.isProcessorLine, Identity.isProcessorLine. rewrite T.
  split; reflexivity.
Qed.

Lemma fallback_model_line_not_processor (m : jsstring) :
  Metrics.isProcessorLine (js "model name" ++ [TAB] ++ js ": " ++ m) = false /\
  Identity.isProcessorLine (js "model name" ++ [TAB] ++ js ": " ++ m) = false.
Proof. exact (not_processor_line (js "odel name" ++ [TAB] ++ js ": " ++ m)). Qed.

Lemma Identity_getHostCPUInfo_value (fs : FS) (os : OS) (doc : jsstring) :
  Identity.readHostFile fs (js "/proc/cpuinfo")
    (fun _ => ret (Identity.cpuInfoFallback os)) = inr doc ->
  Identity.getHostCPUInfo fs os = inr (Identity.cpuInfoOf os doc).
Proof. intros R. unfold Identity.getHostCPUInfo. now rewrite R. Qed.

Lemma fallback_model_line_found (m : jsstring) :
  Identity.isModelLine (js "model name" ++ [TAB] ++ js ": " ++ m) = true.
Proof. reflexivity. Qed.

(** X2.  When the text holds a line of the form label, separator, value that is
    the first to mention a model, the second route answers the trimmed value
    with every [=] turned into a colon (and "Unknown" when nothing is
    left). *)
Theorem Identity_getHostCPUInfo_model :
  forall (fs : FS) (os : OS) (doc label value : jsstring) (sep : char),
    Identity.readHostFile fs (js "/proc/cpuinfo")
      (fun _ => ret (Identity.cpuInfoFallback os)) = inr doc ->
    Props.firstWhere Identity.isModelLine doc (label ++ sep :: value) ->
    forallb (fun c => negb (Metrics.isSeparator c)) label = true ->
    Metrics.isSeparator sep = true ->
    exists info,
      Identity.getHostCPUInfo fs os = inr info /\
      Identity.model info = Metrics.orUnknown (trim (map Props.colonForEquals value)).
Proof.
  intros fs os doc label value sep R F L Hs.
  rewrite (Identity_getHostCPUInfo_value fs os doc R).
  eexists. split; [reflexivity|].
  unfold Identity.cpuInfoOf.
  rewrite (firstWhere_nonEmpty _ _ _ F) by (destruct label; discriminate).
  cbn [Identity.model]. f_equal.
  apply modelOf_separated with (label := label) (sep := sep); auto.
  now apply firstWhere_find.
Qed.

Lemma Identity_getHostCPUInfo_model_witness :
  exists info,
    Identity.getHostCPUInfo Fixtures.fsCpuinfoSeparators (Fixtures.mkOS 1000 8) = inr info /\
    Identity.model info = js "Custom SoC rev:2 core:A".
Proof.
  apply (Identity_getHostCPUInfo_model Fixtures.fsCpuinfoSeparators (Fixtures.mkOS 1000 8)
           (Fixtures.entry (js "model name") (js "Custom SoC rev=2 core:A"))
           (js "model name" ++ [TAB]) (js " Custom SoC rev=2 core:A") 58%N).
  - reflexivity.
  - exists [], []. split; [reflexivity|]. split; [reflexivity|]. intros l [].
  - reflexivity.
  - reflexivity.
Defined.

(** X3.  When no cpuinfo file can be read and the process lists at least one CPU,
    the second route answers the model of the first CPU (trimmed, every [=]
    turned into a colon) and the count 1, however many CPUs the process
    lists: the text the fallback producer builds has one processor line. *)
Theorem Identity_getHostCPUInfo_fallback :
  forall (fs : FS) (os : OS) (m : jsstring) (rest : list jsstring),
    (forall c, ~ Props.selected fs (js "/proc/cpuinfo") c) ->
    cpus os = m :: rest ->
    ~ In LF m ->
    Identity.getHostCPUInfo fs os
    = inr {| Identity.model := Metrics.orUnknown (trim (map Props.colonForEquals m));
             Identity.count := ofZ 1 |}.
Proof.
  intros fs os m rest U C N.
  rewrite (Identity_getHostCPUInfo_value fs os (Identity.cpuInfoFallback os))
    by exact (Identity_readHostFile_unselected fs _ _ U).
  unfold Identity.cpuInfoFallback. rewrite C.
  unfold Identity.cpuInfoOf.
  change (nonEmpty (js "model name" ++ _)) with true. cbv iota.
  rewrite (cpuInfoFallback_lines m N).
  f_equal. f_equal.
  - f_equal.
    rewrite (modelOf_separated _ (js "model name" ++ [TAB]) (32%N :: m) 58%N).
    + cbn [map]. change (Props.colonForEquals 32%N) with 32%N.
      now apply trim_leading.
    + unfold find. cbn [List.find]. now rewrite fallback_model_line_found.
    + reflexivity.
    + reflexivity.
  - cbn [filter]. rewrite (proj2 (fallback_model_line_not_processor m)).
    reflexivity.
Qed.

Lemma Identity_getHostCPUInfo_fallback_witness :
  Identity.getHostCPUInfo Fixtures.fsEmpty (Fixtures.mkOS 1000 8)
  = inr {| Identity.model := js "Generic CPU"; Identity.count := ofZ 1 |}.
Proof.
  apply (Identity_getHostCPUInfo_fallback Fixtures.fsEmpty (Fixtures.mkOS 1000 8)
           (js "Generic CPU") (repeat (js "Generic CPU") 7)).
  - intros c [[M _] | [_ (E & _)]]; discriminate.
  - reflexivity.
  - vm_compute. intuition discriminate.
Defined.

(** X4.  When no cpuinfo file can be read at any tier and the process lists at
    least one CPU, the first route counts 1, however many CPUs the process
    lists: the text its fallback producer builds has one processor line. *)
Theorem getHostCPUInfo_fallback_counts_one :
  forall (fs : FS) (os : OS) (m : jsstring) (rest : list jsstring),
    (forall t c, ~ Props.usable fs t (js "/proc/cpuinfo") c) ->
    cpus os = m :: rest ->
    ~ In LF m ->
    exists info,
      Metrics.getHostCPUInfo fs os = inr info /\ Metrics.count info = ofZ 1.
Proof.
  intros fs os m rest U C N.
  rewrite (getHostCPUInfo_value fs os (Metrics.cpuInfoFallback os))
    by exact (Metrics_readHostFile_unusable fs _ _ U).
  eexists. split; [reflexivity|].
  unfold Metrics.cpuInfoFallback. rewrite C. unfold Metrics.cpuInfoOf.
  change (nonEmpty (js "model name" ++ _)) with true. cbv iota.
  rewrite (cpuInfoFallback_lines m N). cbn [Metrics.count filter].
  rewrite (proj1 (fallback_model_line_not_processor m)).
  reflexivity.
Qed.

Lemma getHostCPUInfo_fallback_counts_one_witness :
  exists info,
    Metrics.getHostCPUInfo Fixtures.fsHostile (Fixtures.mkOS 1000 8) = inr info /\
    Metrics.count info = ofZ 1.
Proof.
  apply (getHostCPUInfo_fallback_counts_one Fixtures.fsHostile (Fixtures.mkOS 1000 8)
           (js "Generic CPU") (repeat (js "Generic CPU") 7)).
  - intros t c. apply tierText_unusable. destruct t; reflexivity.
  - reflexivity.
  - vm_compute. intuition discriminate.
Defined.

(** X5.  The first route's count is a number and at least 1 as soon as a cpuinfo
    file can be read at some tier or the process lists a CPU, whatever the
    file holds. *)
Theorem getHostCPUInfo_count_at_least_one :
  forall (fs : FS) (os : OS),
    cpus os <> [] \/ (exists t c, Props.usable fs t (js "/proc/cpuinfo") c) ->
    exists info,
      Metrics.getHostCPUInfo fs os = inr info /\
      isNaN (Metrics.count info) = false /\
      lt (Metrics.count info) (ofZ 1) = false.
Proof.
  intros fs os H.
  assert (D : exists doc,
             Metrics.readHostFile fs (js "/proc/cpuinfo")
               (fun _ => ret (Metrics.cpuInfoFallback os)) = inr doc /\
             nonEmpty doc = true).
  { rewrite readHostFile_tiers.
    assert (T : forall t x, Props.tierText fs t (js "/proc/cpuinfo") = Some x ->
                            nonEmpty x = true).
    { intros t x E. apply tierText_usable in E as (c & (_ & (_ & _ & _ & NE)) & ->).
      now apply trim_holds_nonEmpty. }
    destruct (Props.tierText fs Props.ProcessRoot _) as [x|] eqn:E1; [eauto|].
    destruct (Props.tierText fs Props.HostMount _) as [x|] eqn:E2; [eauto|].
    destruct (Props.tierText fs Props.Local _) as [x|] eqn:E3; [eauto|].
    exists (Metrics.cpuInfoFallback os). split; [reflexivity|].
    destruct H as [H | (t & c & U)].
    - unfold Metrics.cpuInfoFallback. destruct (cpus os); [congruence | reflexivity].
    - exfalso. revert U. apply tierText_unusable. destruct t; assumption. }
  destruct D as (doc & R & NE).
  rewrite (getHostCPUInfo_value fs os doc R). eexists. split; [reflexivity|].
  now apply cpuInfoOf_count_at_least_one.
Qed.

Lemma getHostCPUInfo_count_at_least_one_witness :
  exists info,
    Metrics.getHostCPUInfo Fixtures.fsCpuSummary (Fixtures.mkOS 1000 0) = inr info /\
    isNaN (Metrics.count info) = false /\
    lt (Metrics.count info) (ofZ 1) = false.
Proof.
  apply (getHostCPUInfo_count_at_least_one Fixtures.fsCpuSummary (Fixtures.mkOS 1000 0)).
  right. exists Props.Local, (Fixtures.text [js "Architecture: x86_64"; js "CPU(s): 4"; js ""]).
  split; [exact I|]. split; [reflexivity|]. split; [eexists; split; reflexivity|].
  split; [reflexivity | discriminate].
Defined.

(** Group 1 of the value pattern behind a separator: for a value without
    line terminators it is the value up to leading white space (or one unit
    of white space when the value is nothing else). *)
Lemma groupAfterRun_value (value : jsstring) :
  forallb Metrics.notLineTerminator value = true -> value <> [] ->
  exists g, Metrics.groupAfterRun value = Some g /\ trim g = trim value.
Proof.
  induction value as [|c r IH]; intros T NE; [congruence|].
  pose proof T as T'. cbn [forallb] in T'. apply andb_true_iff in T' as [Tc Tr].
  cbn [Metrics.groupAfterRun].
  destruct (isWhiteSpace c) eqn:W.
  - destruct r as [|c' r'].
    + cbn [Metrics.groupAfterRun]. rewrite Tc.
      exists [c]. split; [|reflexivity]. cbn [takeWhile]. now rewrite Tc.
    + destruct (IH Tr ltac:(discriminate)) as (g & -> & E).
      exists g. split; [reflexivity|]. now rewrite (trim_leading c _ W).
  - exists (c :: r). split; [|reflexivity]. now rewrite (takeWhile_all _ _ T).
Qed.

Lemma matchModelValue_label (label value : jsstring) (sep : char) :
  forallb (fun c => negb (Metrics.isSeparator c)) label = true ->
  Metrics.isSeparator sep = true ->
  Metrics.matchModelValue (label ++ sep :: value)
  = match Metrics.groupAfterRun value with
    | Some g => Some g
    | None => Metrics.matchModelValue value
    end.
Proof.
  intros L Hs. induction label as [|c label IH].
  - cbn [app Metrics.matchModelValue]. now rewrite Hs.
  - cbn [forallb] in L. apply andb_true_iff in L as [C L]. apply negb_true_iff in C.
    cbn [app Metrics.matchModelValue]. rewrite C. now apply IH.
Qed.

Lemma Metrics_modelOf_separated (ls : list jsstring) (label value : jsstring) (sep : char) :
  find Props.namesModel ls = Some (label ++ sep :: value) ->
  forallb (fun c => negb (Metrics.isSeparator c)) label = true ->
  Metrics.isSeparator sep = true ->
  forallb Metrics.notLineTerminator value = true ->
  Metrics.modelOf ls = trim value.
Proof.
  intros F L Hs T. unfold Metrics.modelOf.
  unfold Props.namesModel in F. cbv zeta in F |- *. rewrite !F.
  assert (NE : isEmpty (label ++ sep :: value) = false) by (destruct label; reflexivity).
  rewrite NE. rewrite (matchModelValue_label label value sep L Hs).
  destruct value as [|c r].
  - cbn [Metrics.groupAfterRun Metrics.matchModelValue].
    rewrite (splitSep_label label [] [] sep L Hs). reflexivity.
  - destruct (groupAfterRun_value (c :: r) T ltac:(discriminate)) as (g & -> & E).
    exact E.
Qed.

(** X19.  When the text holds a line of the form label, separator, value that
    is the first to name a model, and the value holds no line terminator, the
    first route answers the trimmed value as it stands, with its [=] and [:]
    kept (and "Unknown" when nothing is left). *)
Theorem getHostCPUInfo_model_value :
  forall (fs : FS) (os : OS) (doc label value : jsstring) (sep : char),
    Metrics.readHostFile fs (js "/proc/cpuinfo")
      (fun _ => ret (Metrics.cpuInfoFallback os)) = inr doc ->
    Props.firstWhere Props.namesModel doc (label ++ sep :: value) ->
    forallb (fun c => negb (Metrics.isSeparator c)) label = true ->
    Metrics.isSeparator sep = true ->
    forallb Metrics.notLineTerminator value = true ->
    exists info,
      Metrics.getHostCPUInfo fs os = inr info /\
      Metrics.model info = Metrics.orUnknown (trim value).
Proof.
  intros fs os doc label value sep R F L Hs T.
  rewrite (getHostCPUInfo_value fs os doc R).
  eexists. split; [reflexivity|].
  unfold Metrics.cpuInfoOf.
  rewrite (firstWhere_nonEmpty _ _ _ F) by (destruct label; discriminate).
  cbn [Metrics.model]. f_equal.
  apply Metrics_modelOf_separated with (label := label) (sep := sep); auto.
  now apply firstWhere_find.
Qed.

Lemma getHostCPUInfo_model_value_witness :
  exists info,
    Metrics.getHostCPUInfo Fixtures.fsCpuinfoSeparators (Fixtures.mkOS 1000 8) = inr info /\
    Metrics.model info = js "Custom SoC rev=2 core:A".
Proof.
  apply (getHostCPUInfo_model_value Fixtures.fsCpuinfoSeparators (Fixtures.mkOS 1000 8)
           (Fixtures.entry (js "model name") (js "Custom SoC rev=2 core:A"))
           (js "model name" ++ [TAB]) (js " Custom SoC rev=2 core:A") 58%N).
  - reflexivity.
  - exists [], []. split; [reflexivity|]. split; [reflexivity|]. intros l [].
  - reflexivity.
  - reflexivity.
  - reflexivity.
Defined.

(* ===================================================================== *)
(** ** Free memory, second route *)
(* ===================================================================== *)

Lemma Identity_getHostMemory_value (fs : FS) (os : OS) (doc : jsstring) :
  Identity.readHostFile fs (js "/proc/meminfo")
    (fun _ => ret (Identity.memInfoFallback os)) = inr doc ->
  Identity.getHostMemory fs os = inr (Identity.memoryOf os doc).
Proof. intros R. unfold Identity.getHostMemory. now rewrite R. Qed.

(** X6.  The second route takes its free-memory figure from the first
    MemAvailable line when the text has one, wherever the MemFree line
    stands; from the first MemFree line when it has no MemAvailable line; and
    from the process's own free memory when it has neither. *)
Theorem Identity_getHostMemory_free :
  forall (fs : FS) (os : OS) (doc : jsstring),
    Identity.readHostFile fs (js "/proc/meminfo")
      (fun _ => ret (Identity.memInfoFallback os)) = inr doc ->
    exists m,
      Identity.getHostMemory fs os = inr m /\
      (forall pad a,
          Props.firstLine (js "MemAvailable") doc (Props.memLine (js "MemAvailable") pad a) ->
          Props.blank pad -> 0 <= a ->
          Identity.free m = mul (ofZ a) (ofZ 1024)) /\
      (forall pad f,
          Props.noLine (js "MemAvailable") doc ->
          Props.firstLine (js "MemFree") doc (Props.memLine (js "MemFree") pad f) ->
          Props.blank pad -> 0 <= f ->
          Identity.free m = mul (ofZ f) (ofZ 1024)) /\
      (Props.noLine (js "MemAvailable") doc -> Props.noLine (js "MemFree") doc ->
       Identity.free m = freemem os).
Proof.
  intros fs os doc R. rewrite (Identity_getHostMemory_value fs os doc R).
  eexists. split; [reflexivity|]. unfold Identity.memoryOf. repeat split.
  - intros pad a F B A.
    rewrite (firstLine_nonEmpty _ _ _ F) by (apply memLine_nonEmpty; discriminate).
    cbn [Identity.free]. rewrite (firstLine_find _ _ _ F).
    cbn [Identity.orLine]. apply (kBValue_memLine (js "MemAvailable") pad a);
      [reflexivity | assumption | assumption].
  - intros pad f N F B K.
    rewrite (firstLine_nonEmpty _ _ _ F) by (apply memLine_nonEmpty; discriminate).
    cbn [Identity.free]. rewrite (noLine_find _ _ N), (firstLine_find _ _ _ F).
    cbn [Identity.orLine]. apply (kBValue_memLine (js "MemFree") pad f);
      [reflexivity | assumption | assumption].
  - intros N1 N2. destruct (nonEmpty doc); [|reflexivity].
    cbn [Identity.free]. rewrite (noLine_find _ _ N1), (noLine_find _ _ N2).
    reflexivity.
Qed.

Lemma Identity_getHostMemory_free_witness :
  exists m,
    Identity.getHostMemory Fixtures.fsMeminfoBoth (Fixtures.mkOS 1000 2) = inr m /\
    Identity.free m = mul (ofZ 524288) (ofZ 1024).
Proof.
  destruct (Identity_getHostMemory_free Fixtures.fsMeminfoBoth (Fixtures.mkOS 1000 2)
              (js "MemTotal: 1048576 kB" ++ [LF] ++ js "MemFree: 262144 kB" ++ [LF]
               ++ js "MemAvailable: 524288 kB") eq_refl) as (m & G & A & _).
  exists m. split; [exact G|].
  apply (A (js " ") 524288).
  - exists [js "MemTotal: 1048576 kB"; js "MemFree: 262144 kB"], [].
    split; [reflexivity|]. split; [reflexivity|].
    intros l [<-|[<-|[]]]; reflexivity.
  - reflexivity.
  - lia.
Defined.

(* ===================================================================== *)
(** ** Memory figures without a readable meminfo file *)
(* ===================================================================== *)

(** Rounding leaves a mantissa that is already canonical as it is. *)
Lemma binary_round_aux_exact (sx : bool) (m : positive) (e : Z) :
  fexp prec emax (Zdigits2 (Zpos m) + e) <= e -> e <= emax - prec ->
  binary_round_aux prec emax sx (Zpos m) e loc_Exact = S754_finite sx m e.
Proof.
  intros F E. unfold binary_round_aux.
  assert (S0 : shr_fexp prec emax (Zpos m) e loc_Exact
               = (shr_record_of_loc (Zpos m) loc_Exact, e)).
  { unfold shr_fexp, shr.
    destruct (fexp prec emax (Zdigits2 (Zpos m) + e) - e) eqn:D; try reflexivity. lia. }
  rewrite S0. cbn [shr_record_of_loc shr_m loc_of_shr_record round_nearest_even].
  rewrite S0. cbn [shr_record_of_loc shr_m].
  destruct (Z.leb_spec e (emax - prec)); [reflexivity | lia].
Qed.

(** Rounding an even mantissa that is one digit too long halves it. *)
Lemma binary_round_aux_halves (sx : bool) (m : positive) (e : Z) :
  fexp prec emax (Zdigits2 (Zpos m~0) + e) = e + 1 -> e + 1 <= emax - prec ->
  binary_round_aux prec emax sx (Zpos m~0) e loc_Exact = S754_finite sx m (e + 1).
Proof.
  intros F E. unfold binary_round_aux.
  assert (S1 : shr_fexp prec emax (Zpos m~0) e loc_Exact
               = ({| shr_m := Zpos m; shr_r := false; shr_s := false |}, e + 1)).
  { unfold shr_fexp, shr. rewrite F. replace (e + 1 - e) with 1 by lia. reflexivity. }
  rewrite S1. cbn [shr_m loc_of_shr_record round_nearest_even].
  assert (D : Zdigits2 (Zpos m~0) = Zdigits2 (Zpos m) + 1).
  { replace (Zpos m~0) with (Zpos m * 2 ^ 1) by lia. now rewrite Zdigits2_mul_pow2 by lia. }
  assert (S2 : shr_fexp prec emax (Zpos m) (e + 1) loc_Exact
               = (shr_record_of_loc (Zpos m) loc_Exact, e + 1)).
  { unfold shr_fexp, shr.
    replace (Zdigits2 (Zpos m) + (e + 1)) with (Zdigits2 (Zpos m~0) + e) by lia.
    rewrite F. now rewrite Z.sub_diag. }
  rewrite S2. cbn [shr_record_of_loc shr_m].
  destruct (Z.leb_spec (e + 1) (emax - prec)); [reflexivity | lia].
Qed.

(** The number of a positive integer of at most 53 binary digits holds the
    integer itself, its mantissa shifted to 53 digits. *)
Lemma ofZ_exact (p : positive) :
  Zpos (digits2_pos p) <= 53 ->
  exists m,
    ofZ (Zpos p) = S754_finite false m (Zpos (digits2_pos p) - 53) /\
    Zpos m = Zpos p * 2 ^ (53 - Zpos (digits2_pos p)).
Proof.
  intros D. unfold ofZ. cbn [binary_normalize]. unfold binary_round.
  pose proof (Pos2Z.is_pos (digits2_pos p)) as P.
  set (d := Zpos (digits2_pos p)) in *.
  assert (F : fexp prec emax (d + 0) = d - 53) by (rewrite fexp_unfold; lia).
  rewrite F.
  destruct (shl_align_spec p 0 (d - 53)) as [A B].
  destruct (shl_align p 0 (d - 53)) as [mz ez]. cbn [fst snd] in A, B.
  replace (Z.min 0 (d - 53)) with (d - 53) in A, B by lia. subst ez.
  replace (0 - (d - 53)) with (53 - d) in A by lia.
  exists mz. split; [|exact A].
  apply binary_round_aux_exact.
  - rewrite A, Zdigits2_mul_pow2 by lia.
    change (Zdigits2 (Zpos p)) with d. rewrite fexp_unfold. lia.
  - unfold emax, prec. lia.
Qed.

Lemma digits_below (z : Z) : 0 < z -> z < 2 ^ 53 -> Zdigits2 z <= 53.
Proof.
  intros P B. rewrite Zdigits2_log2 by assumption.
  assert (Z.log2 z < 53) by (apply Z.log2_lt_pow2; assumption). lia.
Qed.

(** Printing the number of a natural below 2^53 gives its decimal numeral. *)
Lemma toString_ofZ (z : Z) : 0 <= z < 2 ^ 53 -> toString (ofZ z) = decimal z.
Proof.
  intros [L U]. destruct z as [|p|p]; [reflexivity| |lia].
  pose proof (digits_below (Zpos p) ltac:(lia) U) as D.
  change (Zdigits2 (Zpos p)) with (Zpos (digits2_pos p)) in D.
  destruct (ofZ_exact p D) as (m & -> & M).
  pose proof (Pos2Z.is_pos (digits2_pos p)) as P.
  set (d := Zpos (digits2_pos p)) in *.
  unfold toString. cbn [cond_Zopp]. f_equal.
  destruct (Z.leb_spec 0 (d - 53)) as [E|E].
  - assert (Ed : d - 53 = 0) by lia. assert (Ed' : 53 - d = 0) by lia.
    rewrite Ed, Z.shiftl_0_r, M, Ed'. lia.
  - rewrite Z.shiftr_div_pow2 by lia. rewrite M.
    replace (- (d - 53)) with (53 - d) by lia.
    apply Z.div_mul. apply Z.pow_nonzero; lia.
Qed.

(** Dividing the number of a natural below 2^53 by 1024 and taking the floor
    gives the number of the quotient. *)
Lemma floor_div_1024 (z : Z) :
  0 <= z < 2 ^ 53 -> Math_floor (div (ofZ z) (ofZ 1024)) = ofZ (z / 1024).
Proof.
  intros [L U]. destruct z as [|p|p]; [reflexivity| |lia].
  pose proof (digits_below (Zpos p) ltac:(lia) U) as D.
  change (Zdigits2 (Zpos p)) with (Zpos (digits2_pos p)) in D.
  destruct (ofZ_exact p D) as (m & -> & M).
  pose proof (Pos2Z.is_pos (digits2_pos p)) as P.
  set (d := Zpos (digits2_pos p)) in *.
  assert (Dm : Zdigits2 (Zpos m) = 53).
  { rewrite M, Zdigits2_mul_pow2 by lia. change (Zdigits2 (Zpos p)) with d. lia. }
  change (ofZ 1024) with (S754_finite false 4503599627370496 (-42)).
  unfold div, SFdiv, SFdiv_core_binary. cbn [xorb].
  rewrite Dm. change (Zdigits2 4503599627370496) with 53.
  replace (53 + (d - 53) - (53 + -42)) with (d - 11) by lia.
  replace (d - 53 - -42) with (d - 11) by lia.
  rewrite fexp_unfold.
  replace (Z.min (Z.max (d - 11 - 53) (-1074)) (d - 11)) with (d - 64) by lia.
  replace (d - 11 - (d - 64)) with 53 by lia.
  cbv beta iota. rewrite Z.shiftl_mul_pow2 by lia.
  replace (Zpos m * 2 ^ 53) with (Zpos m~0 * 4503599627370496)
    by (change (2 ^ 53) with 9007199254740992; lia).
  pose proof (Z.div_eucl_eq (Zpos m~0 * 4503599627370496) 4503599627370496 ltac:(lia)) as Q.
  pose proof (Z.mod_pos_bound (Zpos m~0 * 4503599627370496) 4503599627370496 ltac:(lia)) as R.
  unfold Z.modulo in R.
  destruct (Z.div_eucl (Zpos m~0 * 4503599627370496) 4503599627370496) as [q r].
  assert (q = Zpos m~0 /\ r = 0) as [-> ->] by nia.
  change (new_location 4503599627370496 0) with loc_Exact.
  rewrite binary_round_aux_halves.
  - replace (d - 64 + 1) with (d - 63) by lia.
    unfold Math_floor.
    destruct (d - 63) as [|k|k] eqn:K; try lia.
    rewrite Z.shiftr_div_pow2 by lia.
    assert (Q' : Zpos m / 2 ^ Zpos k = Zpos p / 1024).
    { rewrite M. replace (Zpos k) with ((53 - d) + 10) by lia.
      rewrite Z.pow_add_r by lia. change (2 ^ 10) with 1024.
      rewrite <- Z.div_div by (try apply Z.pow_pos_nonneg; lia).
      rewrite Z.div_mul by (apply Z.pow_nonzero; lia). reflexivity. }
    rewrite Q'. destruct (Z.eqb_spec (Zpos p / 1024) 0) as [->|N]; reflexivity.
  - replace (Zpos m~0) with (Zpos m * 2 ^ 1) by lia. rewrite Zdigits2_mul_pow2 by lia.
    rewrite Dm, fexp_unfold. lia.
  - unfold emax, prec. lia.
Qed.

(** What the fallback producers print for a byte count below 2^53: the
    numeral of its whole kilobytes. *)
Lemma kBText_whole (bytes : Z) :
  0 <= bytes < 2 ^ 53 -> kBText (ofZ bytes) = decimal (bytes / 1024).
Proof.
  intros B. unfold kBText. rewrite (floor_div_1024 bytes B).
  apply toString_ofZ. split; [apply Z.div_pos; lia|].
  apply Z.div_lt_upper_bound; lia.
Qed.

Lemma decimal_no_LF (z : Z) : 0 <= z -> ~ In LF (decimal z).
Proof.
  intros Z0 H. destruct (decimal_numeral z Z0) as [_ D].
  rewrite forallb_forall in D. specialize (D LF H). discriminate D.
Qed.

Lemma memLine_no_LF (label pad : jsstring) (kB : Z) :
  ~ In LF label -> ~ In LF pad -> 0 <= kB -> ~ In LF (Props.memLine label pad kB).
Proof.
  intros L P K H. unfold Props.memLine in H.
  apply in_app_or in H as [H|H]; [now apply L|].
  apply in_app_or in H as [H|H]; [vm_compute in H; intuition discriminate|].
  apply in_app_or in H as [H|H]; [now apply P|].
  apply in_app_or in H as [H|H]; [now apply (decimal_no_LF kB K)|].
  vm_compute in H. intuition discriminate.
Qed.

Lemma lines_three (a b c : jsstring) :
  ~ In LF a -> ~ In LF b -> ~ In LF c ->
  lines (a ++ [LF] ++ b ++ [LF] ++ c) = [a; b; c].
Proof.
  intros A B C. unfold lines. cbn [app].
  rewrite (splitOn_first a _ [] LF A), (splitOn_first b _ [] LF B),
    (splitOn_plain c [] LF C).
  reflexivity.
Qed.

Lemma lines_two (a b : jsstring) :
  ~ In LF a -> ~ In LF b -> lines (a ++ [LF] ++ b) = [a; b].
Proof.
  intros A B. unfold lines. cbn [app].
  rewrite (splitOn_first a _ [] LF A), (splitOn_plain b [] LF B). reflexivity.
Qed.

Lemma memoryOf_free (os : OS) (doc pad : jsstring) (kB : Z) :
  Props.firstLine (js "MemFree") doc (Props.memLine (js "MemFree") pad kB) ->
  Props.blank pad -> 0 <= kB ->
  Metrics.free (Metrics.memoryOf os doc) = mul (ofZ kB) (ofZ 1024).
Proof.
  intros F B K. unfold Metrics.memoryOf.
  rewrite (firstLine_nonEmpty _ _ _ F) by (apply memLine_nonEmpty; discriminate).
  cbn [Metrics.free]. rewrite (firstLine_find _ _ _ F).
  now apply kBValue_memLine.
Qed.

Lemma not_LF_literal (s : string) :
  forallb (fun c => negb (N.eqb c LF)) (js s) = true -> ~ In LF (js s).
Proof.
  intros H I. rewrite forallb_forall in H. specialize (H LF I). discriminate H.
Qed.

(** The text the first route's fallback producer builds, line by line. *)
Lemma memInfoFallback_lines (os : OS) :
  (totalmemBytes os < 2 ^ 53)%N -> (freememBytes os < 2 ^ 53)%N ->
  let t := Z.of_N (totalmemBytes os) / 1024 in
  let f := Z.of_N (freememBytes os) / 1024 in
  Metrics.memInfoFallback os
  = Props.memLine (js "MemTotal") (js " ") t ++ [LF]
    ++ Props.memLine (js "MemAvailable") (js " ") f ++ [LF]
    ++ Props.memLine (js "MemFree") (js " ") f
  /\ 0 <= t /\ 0 <= f.
Proof.
  intros T F t f. unfold Metrics.memInfoFallback, totalmem, freemem.
  rewrite !kBText_whole by (change (2 ^ 53) with (Z.of_N (2 ^ 53)); lia).
  split; [|split; apply Z.div_pos; lia].
  unfold Props.memLine. fold t f.
  change (js "MemTotal: ") with (js "MemTotal" ++ js ":" ++ js " ").
  change (js "MemAvailable: ") with (js "MemAvailable" ++ js ":" ++ js " ").
  change (js "MemFree: ") with (js "MemFree" ++ js ":" ++ js " ").
  now rewrite <- !app_assoc.
Qed.

(** X7.  Without a readable meminfo file the first route reports the process's
    own byte counts cut down to whole kilobytes: each figure is 1024 times the
    integer quotient of the byte count by 1024, because the fallback producer
    prints whole kilobytes and the resolver reads them back. *)
Theorem getHostMemory_fallback_whole_kilobytes :
  forall (fs : FS) (os : OS),
    (forall t c, ~ Props.usable fs t (js "/proc/meminfo") c) ->
    (totalmemBytes os < 2 ^ 53)%N ->
    (freememBytes os < 2 ^ 53)%N ->
    Metrics.getHostMemory fs os
    = inr {| Metrics.total := mul (ofZ (Z.of_N (totalmemBytes os) / 1024)) (ofZ 1024);
             Metrics.free := mul (ofZ (Z.of_N (freememBytes os) / 1024)) (ofZ 1024);
             Metrics.available := mul (ofZ (Z.of_N (freememBytes os) / 1024)) (ofZ 1024) |}.
Proof.
  intros fs os U T F.
  rewrite (getHostMemory_value fs os (Metrics.memInfoFallback os))
    by exact (Metrics_readHostFile_unusable fs _ _ U).
  destruct (memInfoFallback_lines os T F) as (E & Pt & Pf).
  set (t := Z.of_N (totalmemBytes os) / 1024) in *.
  set (f := Z.of_N (freememBytes os) / 1024) in *.
  assert (L : lines (Metrics.memInfoFallback os)
              = [ Props.memLine (js "MemTotal") (js " ") t;
                  Props.memLine (js "MemAvailable") (js " ") f;
                  Props.memLine (js "MemFree") (js " ") f ]).
  { rewrite E. apply lines_three; apply memLine_no_LF; try assumption;
      apply not_LF_literal; reflexivity. }
  assert (F1 : Props.firstLine (js "MemTotal") (Metrics.memInfoFallback os)
                 (Props.memLine (js "MemTotal") (js " ") t)).
  { exists [], [Props.memLine (js "MemAvailable") (js " ") f;
                Props.memLine (js "MemFree") (js " ") f].
    split; [exact L|]. split; [reflexivity | intros l []]. }
  assert (F2 : Props.firstLine (js "MemAvailable") (Metrics.memInfoFallback os)
                 (Props.memLine (js "MemAvailable") (js " ") f)).
  { exists [Props.memLine (js "MemTotal") (js " ") t],
           [Props.memLine (js "MemFree") (js " ") f].
    split; [exact L|]. split; [reflexivity|]. intros l [<-|[]]. reflexivity. }
  assert (F3 : Props.firstLine (js "MemFree") (Metrics.memInfoFallback os)
                 (Props.memLine (js "MemFree") (js " ") f)).
  { exists [Props.memLine (js "MemTotal") (js " ") t;
            Props.memLine (js "MemAvailable") (js " ") f], [].
    split; [exact L|]. split; [reflexivity|]. intros l [<-|[<-|[]]]; reflexivity. }
  pose proof (memoryOf_total os _ _ t F1 eq_refl Pt) as R1.
  pose proof (memoryOf_available os _ _ f F2 eq_refl Pf) as R2.
  pose proof (memoryOf_free os _ _ f F3 eq_refl Pf) as R3.
  destruct (Metrics.memoryOf os (Metrics.memInfoFallback os)) as [mt mf ma].
  cbn [Metrics.total Metrics.free Metrics.available] in R1, R2, R3.
  now subst mt mf ma.
Qed.

Lemma getHostMemory_fallback_whole_kilobytes_witness :
  Metrics.getHostMemory Fixtures.fsEmpty (Fixtures.mkOS 1000 2)
  = inr {| Metrics.total := mul (ofZ 8388608) (ofZ 1024);
           Metrics.free := mul (ofZ 0) (ofZ 1024);
           Metrics.available := mul (ofZ 0) (ofZ 1024) |}.
Proof.
  apply (getHostMemory_fallback_whole_kilobytes Fixtures.fsEmpty (Fixtures.mkOS 1000 2)).
  - intros t c. apply tierText_unusable. destruct t; reflexivity.
  - reflexivity.
  - reflexivity.
Defined.

(** X8.  Without a readable meminfo file the second route, whose fallback
    text has the MemTotal and the MemAvailable line, reports as total and free
    the process's own byte counts cut down to whole kilobytes. *)
Theorem Identity_getHostMemory_fallback_whole_kilobytes :
  forall (fs : FS) (os : OS),
    (forall c, ~ Props.selected fs (js "/proc/meminfo") c) ->
    (totalmemBytes os < 2 ^ 53)%N ->
    (freememBytes os < 2 ^ 53)%N ->
    Identity.getHostMemory fs os
    = inr {| Identity.total := mul (ofZ (Z.of_N (totalmemBytes os) / 1024)) (ofZ 1024);
             Identity.free := mul (ofZ (Z.of_N (freememBytes os) / 1024)) (ofZ 1024) |}.
Proof.
  intros fs os U T F.
  rewrite (Identity_getHostMemory_value fs os (Identity.memInfoFallback os))
    by exact (Identity_readHostFile_unselected fs _ _ U).
  assert (Pt : 0 <= Z.of_N (totalmemBytes os) / 1024) by (apply Z.div_pos; lia).
  assert (Pf : 0 <= Z.of_N (freememBytes os) / 1024) by (apply Z.div_pos; lia).
  assert (E : Identity.memInfoFallback os
              = Props.memLine (js "MemTotal") (js " ") (Z.of_N (totalmemBytes os) / 1024)
                ++ [LF]
                ++ Props.memLine (js "MemAvailable") (js " ")
                     (Z.of_N (freememBytes os) / 1024)).
  { unfold Identity.memInfoFallback, totalmem, freemem.
    rewrite !kBText_whole by (change (2 ^ 53) with (Z.of_N (2 ^ 53)); lia).
    unfold Props.memLine.
    change (js "MemTotal: ") with (js "MemTotal" ++ js ":" ++ js " ").
    change (js "MemAvailable: ") with (js "MemAvailable" ++ js ":" ++ js " ").
    now rewrite <- !app_assoc. }
  set (t := Z.of_N (totalmemBytes os) / 1024) in *.
  set (f := Z.of_N (freememBytes os) / 1024) in *.
  assert (L : lines (Identity.memInfoFallback os)
              = [ Props.memLine (js "MemTotal") (js " ") t;
                  Props.memLine (js "MemAvailable") (js " ") f ]).
  { rewrite E. apply lines_two; apply memLine_no_LF; try assumption;
      apply not_LF_literal; reflexivity. }
  unfold Identity.memoryOf. rewrite L.
  assert (NE : nonEmpty (Identity.memInfoFallback os) = true).
  { rewrite E. reflexivity. }
  rewrite NE. f_equal. f_equal.
  - change (find (fun line => startsWith line (js "MemTotal"))
              [Props.memLine (js "MemTotal") (js " ") t;
               Props.memLine (js "MemAvailable") (js " ") f])
      with (Some (Props.memLine (js "MemTotal") (js " ") t)).
    now apply (kBValue_memLine (js "MemTotal") (js " ") t).
  - change (find (fun line => startsWith line (js "MemAvailable"))
              [Props.memLine (js "MemTotal") (js " ") t;
               Props.memLine (js "MemAvailable") (js " ") f])
      with (Some (Props.memLine (js "MemAvailable") (js " ") f)).
    cbn [Identity.orLine].
    change (isEmpty (Props.memLine (js "MemAvailable") (js " ") f)) with false.
    cbv iota.
    now apply (kBValue_memLine (js "MemAvailable") (js " ") f).
Qed.

Lemma Identity_getHostMemory_fallback_whole_kilobytes_witness :
  Identity.getHostMemory Fixtures.fsEmpty (Fixtures.mkOS 4096 2)
  = inr {| Identity.total := mul (ofZ 8388608) (ofZ 1024);
           Identity.free := mul (ofZ 4) (ofZ 1024) |}.
Proof.
  apply (Identity_getHostMemory_fallback_whole_kilobytes
           Fixtures.fsEmpty (Fixtures.mkOS 4096 2)).
  - intros c [[M _] | [_ (X & _)]]; discriminate.
  - reflexivity.
  - reflexivity.
Defined.

(* ===================================================================== *)
(** ** Uptime *)
(* ===================================================================== *)

Lemma takeWhile_prefix (p : char -> bool) (a b : jsstring) :
  forallb p a = true ->
  match b with c :: _ => p c = false | [] => True end ->
  takeWhile p (a ++ b) = a /\ dropWhile p (a ++ b) = b.
Proof.
  intros A B. induction a as [|x a IH]; cbn [app takeWhile dropWhile].
  - destruct b as [|c b]; [split; reflexivity|]. cbn [takeWhile dropWhile].
    rewrite B. split; reflexivity.
  - cbn [forallb] in A. apply andb_true_iff in A as [X A]. rewrite X.
    destruct (IH A) as [T D]. rewrite T, D. split; reflexivity.
Qed.

(** [parseFloat] on digits, a point and digits. *)
Lemma parseFloat_point (ip fp : jsstring) :
  Props.isNumeral ip -> forallb isDigit fp = true ->
  parseFloat (ip ++ js "." ++ fp)
  = ofDecimal false (decval (ip ++ fp)) (- Z.of_nat (List.length fp)).
Proof.
  intros [NE H] F. destruct ip as [|d ip]; [congruence|].
  pose proof H as H'. cbn [forallb] in H'. apply andb_true_iff in H' as [D Hip].
  destruct (digit_facts d D) as (W & M & P & _ & _ & I & _ & _).
  unfold parseFloat.
  assert (T : trimStart ((d :: ip) ++ js "." ++ fp) = (d :: ip) ++ js "." ++ fp)
    by (cbn [app trimStart]; now rewrite W).
  rewrite T. cbn [app]. unfold readSign. rewrite M, P.
  assert (S0 : startsWith (d :: ip ++ js "." ++ fp) (js "Infinity") = false).
  { apply (startsWith_first "I"). exact I. }
  rewrite S0. unfold span.
  destruct (takeWhile_prefix isDigit (d :: ip) (js "." ++ fp) H eq_refl) as [T1 D1].
  cbn [app] in T1, D1. rewrite T1, D1.
  change (js "." ++ fp) with (46%N :: fp). change (isChar "." 46%N) with true.
  cbv iota. rewrite (takeWhile_all _ _ F), (dropWhile_all _ _ F).
  cbn [app readExponent JS.length]. reflexivity.
Qed.

(** A decimal literal without a sign denotes a number that is neither NaN nor
    negative. *)
Lemma ofDecimal_hasSign (m e10 : Z) : 0 <= m -> Props.hasSign false (ofDecimal false m e10).
Proof.
  intros M. unfold ofDecimal.
  destruct (Z.eqb_spec m 0) as [E|E]; [exact eq_refl|].
  destruct (Z.leb_spec 0 e10) as [P|P].
  - cbn [cond_Zopp]. apply (ofZ_hasSign (m * 10 ^ e10)).
    apply Z.mul_nonneg_nonneg; [assumption | now apply Z.pow_nonneg].
  - unfold SFdiv_core_binary.
    set (s := 0 - 0 - _).
    set (m' := match s with Z0 => m | Zpos _ => Z.shiftl m s | Zneg _ => 0 end).
    assert (M' : 0 <= m').
    { unfold m'. destruct s; [assumption | now apply Z.shiftl_nonneg | lia]. }
    assert (D : 0 < 10 ^ (- e10)) by (apply Z.pow_pos_nonneg; lia).
    pose proof (Z.div_pos m' (10 ^ (- e10)) M' D) as Q.
    unfold Z.div in Q. destruct (Z.div_eucl m' (10 ^ (- e10))) as [q r].
    now apply binary_round_aux_hasSign.
Qed.

Lemma matchLeadingNumber_parsed (s g : jsstring) :
  Identity.matchLeadingNumber s = Some g -> Props.hasSign false (parseFloat g).
Proof.
  unfold Identity.matchLeadingNumber.
  pose proof (takeWhile_forallb isDigit s) as I.
  destruct (takeWhile isDigit s) as [|d ip] eqn:T; [discriminate|].
  assert (N : Props.isNumeral (d :: ip)) by (split; [discriminate | exact I]).
  assert (A : Props.hasSign false (parseFloat (d :: ip))).
  { rewrite (parseFloat_numeral _ N). apply ofZ_hasSign, decval_nonneg, I. }
  destruct (dropWhile isDigit s) as [|c r]; [intros [= <-]; exact A|].
  destruct (isChar "." c) eqn:C; [|intros [= <-]; exact A].
  intros [= <-]. unfold isChar in C. apply N.eqb_eq in C. rewrite C.
  pose proof (takeWhile_forallb isDigit r) as F.
  pose proof (parseFloat_point _ _ N F) as E.
  change (Props.hasSign false (parseFloat ((d :: ip) ++ js "." ++ takeWhile isDigit r))).
  rewrite E. apply ofDecimal_hasSign.
  apply decval_nonneg. rewrite forallb_app. now rewrite I, F.
Qed.

Lemma Identity_getHostUptime_value (fs : FS) (pf : Platform) (doc : jsstring) :
  Identity.readHostFile fs (js "/proc/uptime")
    (fun _ => ret (Number_toString (uptime pf))) = inr doc ->
  Identity.getHostUptime fs pf = inr (Identity.uptimeOf pf doc).
Proof. intros R. unfold Identity.getHostUptime. now rewrite R. Qed.

(** X9.  The uptime resolver answers the value of the numeral the text starts
    with: digits, a point and digits, read as a decimal literal; what follows
    the numeral is not looked at. *)
Theorem getHostUptime_leading_numeral :
  forall (fs : FS) (pf : Platform) (doc ip fp rest : jsstring),
    Identity.readHostFile fs (js "/proc/uptime")
      (fun _ => ret (Number_toString (uptime pf))) = inr doc ->
    doc = ip ++ js "." ++ fp ++ rest ->
    Props.isNumeral ip ->
    forallb isDigit fp = true ->
    Props.noDigitAhead rest ->
    Identity.getHostUptime fs pf
    = inr (ofDecimal false (decval (ip ++ fp)) (- Z.of_nat (List.length fp))).
Proof.
  intros fs pf doc ip fp rest R -> N F A.
  rewrite (Identity_getHostUptime_value fs pf _ R). f_equal.
  unfold Identity.uptimeOf.
  assert (NE : nonEmpty (ip ++ js "." ++ fp ++ rest) = true).
  { destruct N as [NE _]. destruct ip; [congruence | reflexivity]. }
  rewrite NE. unfold Identity.matchLeadingNumber.
  destruct (takeWhile_prefix isDigit ip (js "." ++ fp ++ rest) (proj2 N) eq_refl) as [T D].
  rewrite T, D. destruct ip as [|d ip]; [destruct N; congruence|].
  change (js "." ++ fp ++ rest) with (46%N :: fp ++ rest).
  change (isChar "." 46%N) with true. cbv iota.
  destruct (takeWhile_prefix isDigit fp rest F A) as [T' _]. rewrite T'.
  now apply parseFloat_point.
Qed.

Lemma getHostUptime_leading_numeral_witness :
  Identity.getHostUptime Fixtures.fsUptime Fixtures.platform
  = inr (ofDecimal false 35173547 (-2)).
Proof.
  apply (getHostUptime_leading_numeral Fixtures.fsUptime Fixtures.platform
           (js "351735.47 234388.90") (js "351735") (js "47") (js " 234388.90")).
  - reflexivity.
  - reflexivity.
  - split; [discriminate | reflexivity].
  - reflexivity.
  - reflexivity.
Defined.

(** X10.  The uptime resolver returns whatever the file system does, and what it
    answers is the process's own uptime or a number that is neither NaN nor
    negative. *)
Theorem getHostUptime_not_negative :
  forall (fs : FS) (pf : Platform),
    exists u,
      Identity.getHostUptime fs pf = inr u /\
      (u = uptime pf \/ Props.hasSign false u).
Proof.
  intros fs pf.
  destruct (Identity_readHostFile_returns fs (js "/proc/uptime")
              (Number_toString (uptime pf))) as [doc R].
  rewrite (Identity_getHostUptime_value fs pf doc R). eexists. split; [reflexivity|].
  unfold Identity.uptimeOf. destruct (nonEmpty doc); [|now left].
  destruct (Identity.matchLeadingNumber doc) as [g|] eqn:M; [|now left].
  right. now apply matchLeadingNumber_parsed with (s := doc).
Qed.

(** What ECMAScript prints for some numbers: the shortest digits that read
    back, plain notation from 1e-6 up to 1e21 and exponent notation outside;
    on integral values it is the numeral that [toString] prints. *)
Lemma Number_toString_examples :
  Number_toString (ofDecimal false 1 (-1)) = js "0.1"
  /\ Number_toString (ofDecimal false 1 (-6)) = js "0.000001"
  /\ Number_toString (ofDecimal false 1 (-7)) = js "1e-7"
  /\ Number_toString (ofDecimal false 123456789012345678901 0) = js "123456789012345680000"
  /\ Number_toString (ofDecimal false 1 21) = js "1e+21"
  /\ Number_toString (S754_finite false 1 (-1074)) = js "5e-324"
  /\ Number_toString (ofDecimal true 15 (-1)) = js "-1.5"
  /\ Number_toString (ofZ 8388608) = toString (ofZ 8388608).
Proof. repeat split; vm_compute; reflexivity. Qed.

(** Without a readable uptime file the process's own uptime is printed and
    read back: a day and half a second prints as "86400.5". *)
Lemma getHostUptime_fallback_example :
  Number_toString (uptime Fixtures.platform) = js "86400.5"
  /\ Identity.getHostUptime Fixtures.fsEmpty Fixtures.platform
     = inr (uptime Fixtures.platform).
Proof. split; vm_compute; reflexivity. Qed.

(* ===================================================================== *)
(** ** Load average *)
(* ===================================================================== *)

Lemma Identity_getHostLoadAvg_value (fs : FS) (os : OS) (doc : jsstring) :
  Identity.readHostFile fs (js "/proc/loadavg")
    (fun _ => ret (Identity.loadAvgFallback os)) = inr doc ->
  Identity.getHostLoadAvg fs os = inr (Identity.loadAvgOf os doc).
Proof. intros R. unfold Identity.getHostLoadAvg. now rewrite R. Qed.

(** [x || 0] is never NaN. *)
Lemma orElse_zero_number (x : number) : isNaN (orElse x zero) = false.
Proof. destruct x; reflexivity. Qed.

Lemma loadAvgOf_three (os : OS) (doc : jsstring) :
  List.length (Identity.loadAvgOf os doc) = 3%nat /\
  (Identity.loadAvgOf os doc = Props.loadavgList os \/
   Forall (fun x => isNaN x = false) (Identity.loadAvgOf os doc)).
Proof.
  unfold Identity.loadAvgOf, Props.loadavgList.
  destruct (loadavg os) as [[load1 load5] load15].
  destruct (nonEmpty doc); [|split; [reflexivity | now left]].
  destruct (Nat.leb 3 (List.length (fields doc))); [|split; [reflexivity | now left]].
  split; [reflexivity|]. right.
  repeat constructor; apply orElse_zero_number.
Qed.

(** X11.  The load-average resolver returns whatever the file system does, and it
    always answers three numbers: the process's own three load averages, or
    three numbers read from the text, none of which is NaN (a field that does
    not parse counts 0). *)
Theorem getHostLoadAvg_three_numbers :
  forall (fs : FS) (os : OS),
    exists l,
      Identity.getHostLoadAvg fs os = inr l /\
      List.length l = 3%nat /\
      (l = Props.loadavgList os \/ Forall (fun x => isNaN x = false) l).
Proof.
  intros fs os.
  destruct (Identity_readHostFile_returns fs (js "/proc/loadavg")
              (Identity.loadAvgFallback os)) as [doc R].
  rewrite (Identity_getHostLoadAvg_value fs os doc R). eexists.
  split; [reflexivity|]. apply loadAvgOf_three.
Qed.

(** [x || 0] leaves a number that is neither NaN nor negative as it is. *)
Lemma orElse_zero_hasSign (x : number) : Props.hasSign false x -> orElse x zero = x.
Proof. destruct x as [s|s| |s m e]; cbn; intros H; try reflexivity; now subst. Qed.

(** The value a load-average field of digits, a point and digits counts
    for. *)
Lemma loadField_value (ip fp : jsstring) :
  Props.isNumeral ip -> forallb isDigit fp = true ->
  orElse (parseFloat (ip ++ js "." ++ fp)) zero
  = ofDecimal false (decval (ip ++ fp)) (- Z.of_nat (List.length fp)).
Proof.
  intros N F. rewrite (parseFloat_point ip fp N F).
  apply orElse_zero_hasSign, ofDecimal_hasSign, decval_nonneg.
  rewrite forallb_app. now rewrite (proj2 N), F.
Qed.

(** X20.  When the first three white-space separated fields of the text are
    each digits, a point and digits, the load-average resolver answers their
    values as decimal literals, in order; the fields after them are not looked
    at. *)
Theorem getHostLoadAvg_decimal_fields :
  forall (fs : FS) (os : OS) (doc ip1 fp1 ip2 fp2 ip3 fp3 : jsstring)
         (rest : list jsstring),
    Identity.readHostFile fs (js "/proc/loadavg")
      (fun _ => ret (Identity.loadAvgFallback os)) = inr doc ->
    fields doc = (ip1 ++ js "." ++ fp1) :: (ip2 ++ js "." ++ fp2)
                 :: (ip3 ++ js "." ++ fp3) :: rest ->
    Props.isNumeral ip1 -> forallb isDigit fp1 = true ->
    Props.isNumeral ip2 -> forallb isDigit fp2 = true ->
    Props.isNumeral ip3 -> forallb isDigit fp3 = true ->
    Identity.getHostLoadAvg fs os
    = inr [ ofDecimal false (decval (ip1 ++ fp1)) (- Z.of_nat (List.length fp1));
            ofDecimal false (decval (ip2 ++ fp2)) (- Z.of_nat (List.length fp2));
            ofDecimal false (decval (ip3 ++ fp3)) (- Z.of_nat (List.length fp3)) ].
Proof.
  intros fs os doc ip1 fp1 ip2 fp2 ip3 fp3 rest R Fs N1 F1 N2 F2 N3 F3.
  rewrite (Identity_getHostLoadAvg_value fs os doc R). f_equal.
  unfold Identity.loadAvgOf. destruct (loadavg os) as [[load1 load5] load15].
  assert (NE : nonEmpty doc = true).
  { destruct doc; [discriminate Fs | reflexivity]. }
  rewrite NE, Fs. cbn [List.length Nat.leb Identity.part nth].
  now rewrite !loadField_value.
Qed.

Lemma getHostLoadAvg_decimal_fields_witness :
  Identity.getHostLoadAvg Fixtures.fsLoadavg (Fixtures.mkOS 1000 2)
  = inr [ofDecimal false 52 (-2); ofDecimal false 58 (-2); ofDecimal false 59 (-2)].
Proof.
  apply (getHostLoadAvg_decimal_fields Fixtures.fsLoadavg (Fixtures.mkOS 1000 2)
           (js "0.52 0.58 0.59 1/467 12345")
           (js "0") (js "52") (js "0") (js "58") (js "0") (js "59")
           [js "1/467"; js "12345"]).
  - reflexivity.
  - reflexivity.
  - split; [discriminate | reflexivity].
  - reflexivity.
  - split; [discriminate | reflexivity].
  - reflexivity.
  - split; [discriminate | reflexivity].
  - reflexivity.
Defined.

(** The text of a load-average file, and the text the fallback producer
    prints from the process's own load averages. *)
Lemma getHostLoadAvg_examples :
  Identity.getHostLoadAvg Fixtures.fsLoadavg (Fixtures.mkOS 1000 2)
  = inr [ofDecimal false 52 (-2); ofDecimal false 58 (-2); ofDecimal false 59 (-2)]
  /\ Identity.loadAvgFallback
       (Fixtures.withLoad (ofDecimal false 52 (-2)) (Fixtures.mkOS 1000 2))
     = js "0.52 0.52 0.52"
  /\ Identity.getHostLoadAvg Fixtures.fsEmpty
       (Fixtures.withLoad (ofDecimal false 52 (-2)) (Fixtures.mkOS 1000 2))
     = inr [ofDecimal false 52 (-2); ofDecimal false 52 (-2); ofDecimal false 52 (-2)].
Proof. repeat split; vm_compute; reflexivity. Qed.

(* ===================================================================== *)
(** ** Architecture *)
(* ===================================================================== *)

Lemma Identity_getHostArch_value (fs : FS) (pf : Platform) (doc : jsstring) :
  Identity.readHostFile fs (js "/proc/cpuinfo") (fun _ => ret []) = inr doc ->
  Identity.getHostArch fs pf = inr (Identity.archOf pf doc).
Proof. intros R. unfold Identity.getHostArch. now rewrite R. Qed.

Lemma archOf_range (pf : Platform) (doc : jsstring) :
  Identity.archOf pf doc = js "x64" \/ Identity.archOf pf doc = js "arm64" \/
  Identity.archOf pf doc = js "arm" \/ Identity.archOf pf doc = arch pf.
Proof.
  unfold Identity.archOf. destruct (nonEmpty doc); [|auto].
  unfold Identity.archOfFlags.
  destruct (find _ (lines doc)) as [flagsLine|].
  - destruct (isEmpty flagsLine).
    + unfold Identity.archOfProcessor.
      destruct (find _ (lines doc)) as [processorLine|]; [|auto].
      destruct (isEmpty processorLine); [auto|].
      destruct (_ || _); [auto|]. destruct (_ || _); auto.
    + destruct (_ || _); [auto|].
      destruct (includes flagsLine (js "aarch64")); [auto|].
      unfold Identity.archOfProcessor.
      destruct (find _ (lines doc)) as [processorLine|]; [|auto].
      destruct (isEmpty processorLine); [auto|].
      destruct (_ || _); [auto|]. destruct (_ || _); auto.
  - unfold Identity.archOfProcessor.
    destruct (find _ (lines doc)) as [processorLine|]; [|auto].
    destruct (isEmpty processorLine); [auto|].
    destruct (_ || _); [auto|]. destruct (_ || _); auto.
Qed.

(** X12.  The architecture resolver returns whatever the file system does, and it
    answers "x64", "arm64", "arm" or the process's own architecture, nothing
    else; without a readable cpuinfo file it answers the process's own. *)
Theorem getHostArch_range :
  forall (fs : FS) (pf : Platform),
    exists a,
      Identity.getHostArch fs pf = inr a /\
      (a = js "x64" \/ a = js "arm64" \/ a = js "arm" \/ a = arch pf) /\
      ((forall c, ~ Props.selected fs (js "/proc/cpuinfo") c) -> a = arch pf).
Proof.
  intros fs pf.
  destruct (Identity_readHostFile_returns fs (js "/proc/cpuinfo") []) as [doc R].
  rewrite (Identity_getHostArch_value fs pf doc R). eexists.
  split; [reflexivity|]. split; [apply archOf_range|].
  intros U. rewrite (Identity_readHostFile_unselected fs _ _ U) in R.
  injection R as <-. reflexivity.
Qed.

Lemma getHostArch_range_witness :
  Identity.getHostArch Fixtures.fsEmpty Fixtures.platform = inr (js "x64").
Proof.
  destruct (getHostArch_range Fixtures.fsEmpty Fixtures.platform) as (a & E & _ & H).
  rewrite E. f_equal. apply H.
  intros c [[M _] | [_ (X & _)]]; discriminate.
Defined.

(** A document of two x86-64 processors: the flags line decides. *)
Lemma getHostArch_flags_example :
  Identity.getHostArch Fixtures.fsCpuinfo
    {| uptime := zero; type := js "Linux"; release := js "6.1.0"; arch := js "ia32" |}
  = inr (js "x64").
Proof. reflexivity. Qed.

(* ===================================================================== *)
(** ** Operating system *)
(* ===================================================================== *)

Lemma Identity_getHostOS_value (fs : FS) (pf : Platform) (osRelease procVersion : jsstring) :
  Identity.readHostFile fs (js "/etc/os-release") (fun _ => ret []) = inr osRelease ->
  Identity.readHostFile fs (js "/proc/version") (fun _ => ret []) = inr procVersion ->
  Identity.getHostOS fs pf = inr (Identity.osOf pf osRelease procVersion).
Proof. intros R1 R2. unfold Identity.getHostOS. now rewrite R1, R2. Qed.

Lemma includes_unfold (s p : jsstring) :
  includes s p = startsWith s p || match s with [] => false | _ :: r => includes r p end.
Proof. destruct s; reflexivity. Qed.

Lemma includes_app_left (pre s p : jsstring) :
  includes s p = true -> includes (pre ++ s) p = true.
Proof.
  intros H. induction pre as [|c pre IH]; [exact H|].
  cbn [app]. rewrite includes_unfold, IH. apply orb_true_r.
Qed.

Lemma startsWith_app (p s : jsstring) : startsWith (p ++ s) p = true.
Proof.
  induction p as [|c p IH]; [destruct s; reflexivity|].
  cbn [app startsWith]. now rewrite N.eqb_refl.
Qed.

(** A pattern that matches where a text is glued to another one lies in the
    first text, or else holds every unit of it. *)
Lemma startsWith_app_cases (b s p : jsstring) :
  startsWith (b ++ s) p = true ->
  startsWith b p = true \/ (forall x, In x b -> In x p).
Proof.
  revert p. induction b as [|x b IH]; intros p H.
  - right. intros y [].
  - destruct p as [|y p]; [now left|].
    cbn [app startsWith] in H. apply andb_true_iff in H as [E H].
    apply N.eqb_eq in E. subst y.
    destruct (IH p H) as [L|R].
    + left. cbn [startsWith]. now rewrite N.eqb_refl.
    + right. intros z [<-|Hz]; [now left | right; now apply R].
Qed.

Lemma suffix_ends (a b r : jsstring) (c : char) :
  a ++ b = r ++ [c] -> b <> [] -> exists b', b = b' ++ [c].
Proof.
  intros E NE. destruct (exists_last NE) as (b' & x & ->).
  rewrite app_assoc in E. apply app_inj_tail in E as [_ ->]. now exists b'.
Qed.

(** The literal of the pretty-name pattern does not start inside whole lines
    that do not hold it. *)
Lemma prettyNameHere_before (pre a b s : jsstring) :
  Props.wholeLines pre ->
  includes pre (js "PRETTY_NAME=") = false ->
  pre = a ++ b -> b <> [] ->
  Identity.prettyNameHere (b ++ s) = None.
Proof.
  intros W I E NE. unfold Identity.prettyNameHere.
  destruct (startsWith (b ++ s) (js "PRETTY_NAME=")) eqn:S; [|reflexivity].
  exfalso. apply startsWith_app_cases in S as [S|S].
  - assert (T : includes pre (js "PRETTY_NAME=") = true).
    { rewrite E. apply includes_app_left. rewrite includes_unfold, S. reflexivity. }
    congruence.
  - destruct W as [->|[r ->]].
    + destruct a, b; try discriminate. congruence.
    + destruct (suffix_ends a b r LF (eq_sym E) NE) as [b' ->].
      assert (H : In LF (js "PRETTY_NAME=")) by (apply S, in_or_app; right; now left).
      vm_compute in H. intuition discriminate.
Qed.

Lemma matchPrettyName_skip (pre s : jsstring) :
  (forall a b, pre = a ++ b -> b <> [] -> Identity.prettyNameHere (b ++ s) = None) ->
  Identity.matchPrettyName (pre ++ s) = Identity.matchPrettyName s.
Proof.
  induction pre as [|c pre IH]; intros H; [reflexivity|].
  cbn [app Identity.matchPrettyName].
  pose proof (H [] (c :: pre) eq_refl ltac:(discriminate)) as E.
  cbn [app] in E. rewrite E.
  apply IH. intros a b -> NE. apply (H (c :: a) b); [reflexivity | assumption].
Qed.

(** Group 1 of the pretty-name pattern on a text whose first mention of the
    literal opens a quoted name. *)
Lemma matchPrettyName_quoted (pre name post : jsstring) :
  Props.wholeLines pre ->
  includes pre (js "PRETTY_NAME=") = false ->
  name <> [] -> forallb Identity.notQuote name = true ->
  Identity.matchPrettyName
    (pre ++ js "PRETTY_NAME=" ++ [Identity.QUOTE] ++ name ++ [Identity.QUOTE] ++ post)
  = Some name.
Proof.
  intros W I NE Q. rewrite matchPrettyName_skip
    by (intros a b; now apply prettyNameHere_before).
  change (js "PRETTY_NAME=" ++ [Identity.QUOTE] ++ name ++ [Identity.QUOTE] ++ post)
    with (80%N :: js "RETTY_NAME=" ++ [Identity.QUOTE] ++ name ++ [Identity.QUOTE] ++ post).
  cbn [Identity.matchPrettyName].
  change (80%N :: js "RETTY_NAME=" ++ [Identity.QUOTE] ++ name ++ [Identity.QUOTE] ++ post)
    with (js "PRETTY_NAME=" ++ (Identity.QUOTE :: name ++ Identity.QUOTE :: post)).
  unfold Identity.prettyNameHere. rewrite startsWith_app.
  change (skipn 12 (js "PRETTY_NAME=" ++ (Identity.QUOTE :: name ++ Identity.QUOTE :: post)))
    with (Identity.QUOTE :: name ++ Identity.QUOTE :: post).
  cbv beta iota zeta. rewrite N.eqb_refl.
  destruct (takeWhile_prefix Identity.notQuote name (Identity.QUOTE :: post) Q eq_refl)
    as [T _].
  rewrite T. destruct name; [congruence | reflexivity].
Qed.

Lemma matchVersion_skip (lead s : jsstring) :
  forallb (fun c => negb (isDigit c)) lead = true ->
  Identity.matchVersion (lead ++ s) = Identity.matchVersion s.
Proof.
  induction lead as [|c lead IH]; intros H; [reflexivity|].
  cbn [forallb] in H. apply andb_true_iff in H as [C H]. apply negb_true_iff in C.
  cbn [app Identity.matchVersion]. unfold Identity.versionHere.
  cbn [takeWhile]. rewrite C. now apply IH.
Qed.

(** Group 1 of the version pattern on a text whose first digits open a
    numeral, a point and a numeral. *)
Lemma matchVersion_first (lead major minor tail : jsstring) :
  forallb (fun c => negb (isDigit c)) lead = true ->
  Props.isNumeral major -> Props.isNumeral minor -> Props.noDigitAhead tail ->
  Identity.matchVersion (lead ++ major ++ js "." ++ minor ++ tail)
  = Some (major ++ js "." ++ minor).
Proof.
  intros L [NE1 D1] [NE2 D2] A. rewrite (matchVersion_skip _ _ L).
  destruct major as [|d major]; [congruence|].
  cbn [app Identity.matchVersion]. unfold Identity.versionHere.
  destruct (takeWhile_prefix isDigit (d :: major) (js "." ++ minor ++ tail) D1 eq_refl)
    as [T Dr].
  cbn [app] in T, Dr. rewrite T, Dr.
  change (js "." ++ minor ++ tail) with (46%N :: minor ++ tail).
  change (isChar "." 46%N) with true. cbv iota.
  destruct (takeWhile_prefix isDigit minor tail D2 A) as [T' _]. rewrite T'.
  destruct minor; [congruence | reflexivity].
Qed.

(** Group 1 of the kernel-version pattern on a text that opens with the
    literal and a word. *)
Lemma matchLinuxVersion_leading (v rest : jsstring) :
  v <> [] -> forallb Identity.notWhiteSpace v = true -> Props.wordEnds rest ->
  Identity.matchLinuxVersion (js "Linux version " ++ v ++ rest) = Some v.
Proof.
  intros NE V E.
  change (js "Linux version " ++ v ++ rest)
    with (76%N :: js "inux version " ++ v ++ rest).
  cbn [Identity.matchLinuxVersion].
  change (76%N :: js "inux version " ++ v ++ rest)
    with (js "Linux version " ++ (v ++ rest)).
  rewrite startsWith_app.
  change (skipn 14 (js "Linux version " ++ (v ++ rest))) with (v ++ rest).
  assert (E' : match rest with c :: _ => Identity.notWhiteSpace c = false | [] => True end).
  { destruct rest; [exact I|]. unfold Identity.notWhiteSpace. simpl in E. now rewrite E. }
  destruct (takeWhile_prefix Identity.notWhiteSpace v rest V E') as [T _].
  rewrite T. destruct v; [congruence | reflexivity].
Qed.

(** X13.  When the kernel's version text opens with "Linux version " and a word and
    does not mention linuxkit, the resolver answers the type "Linux" and that
    word as the release, whatever the release file holds. *)
Theorem getHostOS_kernel_release :
  forall (fs : FS) (pf : Platform) (osRelease procVersion v rest : jsstring),
    Identity.readHostFile fs (js "/etc/os-release") (fun _ => ret []) = inr osRelease ->
    Identity.readHostFile fs (js "/proc/version") (fun _ => ret []) = inr procVersion ->
    procVersion = js "Linux version " ++ v ++ rest ->
    v <> [] ->
    forallb Identity.notWhiteSpace v = true ->
    Props.wordEnds rest ->
    includes procVersion (js "linuxkit") = false ->
    Identity.getHostOS fs pf
    = inr {| Identity.os_type := js "Linux"; Identity.os_release := v |}.
Proof.
  intros fs pf osRelease procVersion v rest R1 R2 -> NE V E K.
  rewrite (Identity_getHostOS_value fs pf _ _ R1 R2). f_equal.
  unfold Identity.osOf. rewrite K.
  rewrite (matchLinuxVersion_leading v rest NE V E).
  change (nonEmpty (js "Linux version " ++ v ++ rest)) with true.
  change (isEmpty (js "Linux version " ++ v ++ rest)) with false.
  cbn [negb andb orb].
  destruct (negb (isEmpty osRelease) && includes osRelease (js "PRETTY_NAME"));
    [|reflexivity].
  destruct (Identity.matchPrettyName osRelease); reflexivity.
Qed.

Lemma getHostOS_kernel_release_witness :
  Identity.getHostOS Fixtures.fsUbuntuHost Fixtures.platform
  = inr {| Identity.os_type := js "Linux"; Identity.os_release := js "5.15.0-91-generic" |}.
Proof.
  apply (getHostOS_kernel_release Fixtures.fsUbuntuHost Fixtures.platform
           (trim Fixtures.osReleaseText)
           (js "Linux version 5.15.0-91-generic (buildd@lcy02-amd64-045) #101-Ubuntu SMP")
           (js "5.15.0-91-generic")
           (js " (buildd@lcy02-amd64-045) #101-Ubuntu SMP")).
  - reflexivity.
  - reflexivity.
  - reflexivity.
  - discriminate.
  - reflexivity.
  - reflexivity.
  - reflexivity.
Defined.

(** X14.  When no kernel version text is read, or it mentions linuxkit, and the
    first mention of PRETTY_NAME= in the release file (at the start of a line)
    opens a quoted name, the resolver answers the type "Linux" and, as the
    release, the name itself when it does not mention Ubuntu, and "Ubuntu "
    with the first two-part version number of the name when it does. *)
Theorem getHostOS_pretty_name :
  forall (fs : FS) (pf : Platform) (osRelease procVersion pre name post : jsstring),
    Identity.readHostFile fs (js "/etc/os-release") (fun _ => ret []) = inr osRelease ->
    Identity.readHostFile fs (js "/proc/version") (fun _ => ret []) = inr procVersion ->
    procVersion = [] \/ includes procVersion (js "linuxkit") = true ->
    osRelease = pre ++ js "PRETTY_NAME=" ++ [Identity.QUOTE] ++ name
                    ++ [Identity.QUOTE] ++ post ->
    Props.wholeLines pre ->
    includes pre (js "PRETTY_NAME=") = false ->
    name <> [] ->
    forallb Identity.notQuote name = true ->
    (includes name (js "Ubuntu") = false ->
     Identity.getHostOS fs pf
     = inr {| Identity.os_type := js "Linux"; Identity.os_release := name |})
    /\ (forall lead major minor tail,
           includes name (js "Ubuntu") = true ->
           name = lead ++ major ++ js "." ++ minor ++ tail ->
           forallb (fun c => negb (isDigit c)) lead = true ->
           Props.isNumeral major -> Props.isNumeral minor ->
           Props.noDigitAhead tail ->
           Identity.getHostOS fs pf
           = inr {| Identity.os_type := js "Linux";
                    Identity.os_release := js "Ubuntu " ++ major ++ js "." ++ minor |}).
Proof.
  intros fs pf osRelease procVersion pre name post R1 R2 P -> W I NE Q.
  rewrite (Identity_getHostOS_value fs pf _ _ R1 R2).
  unfold Identity.osOf.
  rewrite (matchPrettyName_quoted pre name post W I NE Q).
  assert (G : negb (isEmpty (pre ++ js "PRETTY_NAME=" ++ [Identity.QUOTE] ++ name
                               ++ [Identity.QUOTE] ++ post))
              && includes (pre ++ js "PRETTY_NAME=" ++ [Identity.QUOTE] ++ name
                               ++ [Identity.QUOTE] ++ post) (js "PRETTY_NAME") = true).
  { apply andb_true_iff. split; [destruct pre; reflexivity|].
    apply includes_app_left. reflexivity. }
  rewrite G.
  assert (K : isEmpty procVersion || includes procVersion (js "linuxkit") = true).
  { destruct P as [-> | ->]; [reflexivity | apply orb_true_r]. }
  rewrite K.
  assert (F : (if nonEmpty procVersion && negb (includes procVersion (js "linuxkit"))
               then match Identity.matchLinuxVersion procVersion with
                    | Some v => (js "Linux", v)
                    | None => (type pf, release pf)
                    end
               else (type pf, release pf)) = (type pf, release pf)).
  { destruct P as [-> | ->]; [reflexivity|]. now rewrite andb_false_r. }
  rewrite F. split.
  - intros U. rewrite U.
    destruct (includes name (js "Debian")); reflexivity.
  - intros lead major minor tail U -> L M1 M2 A. rewrite U.
    now rewrite (matchVersion_first lead major minor tail L M1 M2 A).
Qed.

Lemma getHostOS_pretty_name_witness :
  Identity.getHostOS Fixtures.fsLinuxkit Fixtures.platform
  = inr {| Identity.os_type := js "Linux"; Identity.os_release := js "Ubuntu 22.04" |}.
Proof.
  apply (proj2 (getHostOS_pretty_name Fixtures.fsLinuxkit Fixtures.platform
                  (trim Fixtures.osReleaseText)
                  (js "Linux version 5.15.49-linuxkit (root@buildkitsandbox) #1 SMP")
                  (Fixtures.text [ js "NAME=" ++ Fixtures.quoted (js "Ubuntu");
                                   js "VERSION_ID=" ++ Fixtures.quoted (js "22.04");
                                   js "" ])
                  (js "Ubuntu 22.04.3 LTS")
                  ([LF] ++ js "ID=ubuntu")
                  eq_refl eq_refl (or_intror eq_refl) eq_refl
                  (or_intror (ex_intro _ (Fixtures.text
                                            [ js "NAME=" ++ Fixtures.quoted (js "Ubuntu");
                                              js "VERSION_ID=" ++ Fixtures.quoted (js "22.04") ])
                                eq_refl))
                  eq_refl ltac:(discriminate) eq_refl)
           (js "Ubuntu ") (js "22") (js "04") (js ".3 LTS")).
  - reflexivity.
  - reflexivity.
  - reflexivity.
  - split; [discriminate | reflexivity].
  - split; [discriminate | reflexivity].
  - reflexivity.
Defined.

(* ===================================================================== *)
(** ** Ranges of the percentages, first route *)
(* ===================================================================== *)

(** Capping at 100 hands NaN through and leaves every other number at most
    100. *)
Lemma Math_min_100 (x : number) : Props.atMost100 (Math_min x (ofZ 100)).
Proof.
  unfold Props.atMost100.
  destruct x as [[]|[]| |s m e]; try (right; reflexivity); try (left; reflexivity).
  right. unfold Math_min. cbn [isNaN orb].
  change (ofZ 100) with (S754_finite false 7036874417766400 (-46)).
  cbv iota.
  destruct (lt (S754_finite false 7036874417766400 (-46)) (S754_finite s m e)) eqn:L.
  - reflexivity.
  - now apply not_lt_le.
Qed.

Lemma clamp_percentage (x : number) : Props.percentage (Props.clamp x).
Proof.
  destruct (clamp_range x) as [[_ E] | (_ & A & B)].
  - left. now rewrite E.
  - right. split; assumption.
Qed.

Lemma clamped_branch (test : bool) (x u : number) :
  (if test then Some (Math_min (Math_max x zero) (ofZ 100)) else None) = Some u ->
  Props.percentage u.
Proof.
  destruct test; [|discriminate]. intros [= <-]. apply clamp_percentage.
Qed.

Lemma usageOfStat_range (stat : jsstring) (u : number) :
  Metrics.usageOfStat stat = Some u -> Props.percentage u.
Proof.
  unfold Metrics.usageOfStat. destruct (nonEmpty stat); [|discriminate].
  destruct (find _ (lines stat)) as [cpuLine|]; [|discriminate].
  destruct (Nat.leb 5 _); [|discriminate].
  apply clamped_branch.
Qed.

(** X15.  The CPU usage resolver returns whatever the file system does, and what it
    answers is NaN or at most 100; when it answers from the counters of the
    stat text the answer is NaN or lies in [0, 100]. *)
Theorem getHostCPUUsage_at_most_100 :
  forall (fs : FS) (os : OS),
    exists (stat : jsstring) (u : number),
      Metrics.readHostFile fs (js "/proc/stat") (fun _ => ret []) = inr stat /\
      Metrics.getHostCPUUsage fs os = inr u /\
      Props.atMost100 u /\
      match Metrics.usageOfStat stat with
      | Some _ => Props.percentage u
      | None => True
      end.
Proof.
  intros fs os.
  destruct (Metrics_readHostFile_returns fs (js "/proc/stat") []) as [stat RS].
  destruct (getHostCPUInfo_returns fs os) as [info RI].
  exists stat. rewrite (getHostCPUUsage_value fs os stat info RS RI).
  eexists. split; [exact RS|]. split; [reflexivity|].
  destruct (Metrics.usageOfStat stat) as [u|] eqn:U.
  - pose proof (usageOfStat_range stat u U) as P. split; [|exact P].
    destruct P as [P | [_ P]]; [now left | now right].
  - split; [|exact I]. unfold Props.loadUsage.
    destruct (loadavg os) as [[load1 load5] load15]. apply Math_min_100.
Qed.

(** X16.  The disk usage resolver returns whatever the file system does: 0 when the
    block statistics query throws, and otherwise a number that is NaN or lies
    in [0, 100]. *)
Theorem getHostDiskUsage_range :
  forall (fs : FS),
    exists u,
      Metrics.getHostDiskUsage fs = inr u /\
      Props.percentage u /\
      match statfsSync fs (Metrics.rootPath fs) with
      | inl _ => u = zero
      | inr _ => True
      end.
Proof.
  intros fs. rewrite getHostDiskUsage_value. eexists. split; [reflexivity|].
  split; [exact (diskOf_usage_range fs)|].
  unfold Props.diskOf. destruct (statfsSync fs (Metrics.rootPath fs)); [reflexivity | exact I].
Qed.

(* ===================================================================== *)
(** ** What the handlers answer *)
(* ===================================================================== *)

(** X17.  The handler of the first route never answers the error document, whatever
    the file system does: it answers the snapshot, whose fields are what the
    resolvers return, with [used] the difference of the two figures beside it
    in the memory and in the disk section. *)
Theorem Metrics_GET_answers :
  forall (fs : FS) (os : OS),
    exists body mem info,
      Metrics.GET fs os = Metrics.Ok200 body /\
      Metrics.getHostMemory fs os = inr mem /\
      Metrics.getHostCPUInfo fs os = inr info /\
      Metrics.mem_total (Metrics.memory body) = Metrics.total mem /\
      Metrics.mem_free (Metrics.memory body) = Metrics.free mem /\
      Metrics.mem_available (Metrics.memory body) = Metrics.available mem /\
      Metrics.mem_used (Metrics.memory body)
      = sub (Metrics.total mem) (Metrics.available mem) /\
      Metrics.cpu_count (Metrics.cpu body) = Metrics.count info /\
      Metrics.getHostCPUUsage fs os = inr (Metrics.cpu_usage (Metrics.cpu body)) /\
      Metrics.getHostDiskUsage fs = inr (Metrics.disk_usage (Metrics.disk body)) /\
      Metrics.disk_used (Metrics.disk body)
      = sub (Metrics.disk_total (Metrics.disk body)) (Metrics.disk_free (Metrics.disk body)) /\
      Metrics.hostMounted body = Metrics.isHostMounted fs.
Proof.
  intros fs os.
  destruct (GET_snapshot fs os) as (memDoc & cpuDoc & usage & RM & RC & U & G).
  eexists _, (Metrics.memoryOf os memDoc), (Metrics.cpuInfoOf os cpuDoc).
  split; [exact G|].
  split; [now apply getHostMemory_value|].
  split; [now apply getHostCPUInfo_value|].
  cbn [Metrics.memory Metrics.cpu Metrics.disk Metrics.hostMounted Metrics.mem_total
       Metrics.mem_free Metrics.mem_available Metrics.mem_used Metrics.cpu_count
       Metrics.cpu_usage].
  repeat (split; [reflexivity|]).
  split; [exact U|]. split; [apply getHostDiskUsage_value|].
  split; [|reflexivity].
  unfold Props.diskOf. destruct (statfsSync fs (Metrics.rootPath fs)); reflexivity.
Qed.

Lemma Identity_getHostHostname_returns (fs : FS) (os : OS) :
  exists name, Identity.getHostHostname fs os = inr name.
Proof.
  destruct (Identity_readHostFile_returns fs (js "/etc/hostname") (hostname os))
    as [doc R].
  unfold Identity.getHostHostname.
  change (fun _ : unit => ret (hostname os)) with (fun _ : unit => @inr exn _ (hostname os)).
  rewrite R. cbn [bind Monad_either].
  destruct (nonEmpty doc); [|eexists; reflexivity].
  destruct (Identity.matchContainerId doc); eexists; reflexivity.
Qed.

Lemma Identity_getHostIP_returns (fs : FS) (os : OS) :
  exists ip, Identity.getHostIP fs os = inr ip.
Proof.
  destruct (Identity_readHostFile_returns fs (js "/proc/net/route") []) as [doc R].
  rewrite (getHostIP_scan fs os doc R). eauto.
Qed.

(** X18.  The handler of the second route never answers the error document,
    whatever the file system does: it answers the identity document, whose
    fields are what the eight resolvers return, with [used] the difference of
    total and free memory and with three load averages. *)
Theorem Identity_GET_answers :
  forall (fs : FS) (os : OS) (pf : Platform),
    exists body info mem osInfo,
      Identity.GET fs os pf = Identity.Ok200 body /\
      Identity.getHostCPUInfo fs os = inr info /\
      Identity.doc_cpu_model body = Identity.model info /\
      Identity.doc_cpu_count body = Identity.count info /\
      Identity.getHostMemory fs os = inr mem /\
      Identity.doc_memory_total body = Identity.total mem /\
      Identity.doc_memory_free body = Identity.free mem /\
      Identity.doc_memory_used body = sub (Identity.total mem) (Identity.free mem) /\
      Identity.getHostOS fs pf = inr osInfo /\
      Identity.doc_os_type body = Identity.os_type osInfo /\
      Identity.doc_os_release body = Identity.os_release osInfo /\
      Identity.getHostArch fs pf = inr (Identity.doc_os_arch body) /\
      Identity.getHostUptime fs pf = inr (Identity.doc_uptime body) /\
      Identity.getHostHostname fs os = inr (Identity.doc_hostname body) /\
      Identity.getHostIP fs os = inr (Identity.doc_localIP body) /\
      Identity.getHostLoadAvg fs os = inr (Identity.doc_loadAvg body) /\
      List.length (Identity.doc_loadAvg body) = 3%nat /\
      Identity.doc_hostMounted body = Identity.isHostMounted fs.
Proof.
  intros fs os pf.
  destruct (Identity_readHostFile_returns fs (js "/proc/cpuinfo")
              (Identity.cpuInfoFallback os)) as [cpuDoc RC].
  destruct (Identity_readHostFile_returns fs (js "/proc/meminfo")
              (Identity.memInfoFallback os)) as [memDoc RM].
  destruct (Identity_readHostFile_returns fs (js "/proc/uptime")
              (Number_toString (uptime pf))) as [upDoc RU].
  destruct (Identity_getHostHostname_returns fs os) as [name H].
  destruct (Identity_readHostFile_returns fs (js "/etc/os-release") []) as [osDoc RO].
  destruct (Identity_readHostFile_returns fs (js "/proc/version") []) as [verDoc RV].
  destruct (Identity_readHostFile_returns fs (js "/proc/loadavg")
              (Identity.loadAvgFallback os)) as [loadDoc RL].
  destruct (Identity_readHostFile_returns fs (js "/proc/cpuinfo") []) as [archDoc RA].
  destruct (Identity_getHostIP_returns fs os) as [ip P].
  pose proof (Identity_getHostCPUInfo_value fs os cpuDoc RC) as EC.
  pose proof (Identity_getHostMemory_value fs os memDoc RM) as EM.
  pose proof (Identity_getHostUptime_value fs pf upDoc RU) as EU.
  pose proof (Identity_getHostOS_value fs pf osDoc verDoc RO RV) as EO.
  pose proof (Identity_getHostLoadAvg_value fs os loadDoc RL) as EL.
  pose proof (Identity_getHostArch_value fs pf archDoc RA) as EA.
  eexists _, (Identity.cpuInfoOf os cpuDoc), (Identity.memoryOf os memDoc),
    (Identity.osOf pf osDoc verDoc).
  split.
  { unfold Identity.GET, Identity.snapshot.
    rewrite EC, EM, EU, H, EO, EL, EA, P. reflexivity. }
  cbn [Identity.doc_cpu_model Identity.doc_cpu_count Identity.doc_memory_total
       Identity.doc_memory_free Identity.doc_memory_used Identity.doc_os_type
       Identity.doc_os_release Identity.doc_os_arch Identity.doc_uptime
       Identity.doc_hostname Identity.doc_localIP Identity.doc_loadAvg
       Identity.doc_hostMounted].
  repeat (split; [first [reflexivity | assumption]|]).
  split; [apply loadAvgOf_three | reflexivity].
Qed.
(* ===================================================================== *)
(** ** Default gateway, whatever the third field holds *)
(* ===================================================================== *)
















(** The read of the routing table always yields a text: that of the file the
    route settles on, and the empty text when there is none. *)
Lemma readHostFile_route_yields (fs : FS) :
  exists route,
    Identity.readHostFile fs (js "/proc/net/route") (fun _ => ret []) = inr route
    /\ ((forall c, ~ Props.selected fs (js "/proc/net/route") c) -> route = []).
Proof.
  destruct (Identity.readHostFile fs (js "/proc/net/route") (fun _ => ret []))
    as [e|route] eqn:R.
  - exfalso. rewrite Identity_readHostFile_tiers in R.
    destruct (if Identity.isHostMounted fs
              then Props.plainText fs (Identity.HOST_ROOT ++ js "/proc/net/route")
              else None); [discriminate R|].
    destruct (Props.plainText fs (js "/proc/net/route")); discriminate R.
  - exists route. split; [reflexivity|]. intros U.
    rewrite (Identity_readHostFile_unselected fs _ _ U) in R.
    now injection R as <-.
Qed.

(** Every line of the empty text is skipped. *)
Lemma lines_empty_skipped (l : jsstring) : In l (lines []) -> Props.skipped l.
Proof. intros [<- | []]. exact I. Qed.



(** Eight units that are not all hexadecimal digits are not refused: the
    field 0x0A00fe prints as 254.0.10.NaN, which is not 0.0.0.0, so the
    resolver answers it although a well-formed default route follows. *)
Lemma getHostIP_unchecked_digits_example :
  Props.gatewayText (js "0x0A00fe") = js "254.0.10.NaN"
  /\ Props.gatewayOctets (js "0x0A00fe") = None
  /\ Identity.getHostIP Fixtures.fsLooseRoutes (Fixtures.mkOS 1000 2)
     = inr (js "254.0.10.NaN").
Proof. repeat split; reflexivity. Qed.
